(** * Inventory redistribution engine: a shallow embedding

    The Python sources [traslados/engine_core.py],
    [traslados/curve_completer.py], [traslados/bodega_drainer.py] and
    [config/settings.py] are rendered here as Rocq functions over explicit
    state.

    Modelling conventions.
    - A pandas [DataFrame] of stock is a list of rows; the row label is the
      position in the list.  The orchestrator builds the table with
      [DataFrame.merge], which yields the labels 0..n-1, and every new row is
      appended under the label [len(stock_df)].
    - A float of the tables ([ADU], a lead time, the safety ratio) is
      carried as the rational [Q] it stands for.  The coverage in days, its
      comparison and the drainage limit are also computed in binary64
      ([B64], over the [SpecFloat] of the Standard Library), rounding as the
      code does.
    - [Existencia] is carried as an exact rational.  [execute_transfer]
      turns the column into floats by [cantidad / len(indices)]; the exact
      and the computed quotient are the same number on a table of whole
      quantities whose shares are whole ([whole_table], [splits_evenly]),
      which is where the statements about quantities are made.  [Column]
      replays the arithmetic of a transfer on the [float64] column for the
      tables outside.  [None] in an [option Q] stands for NaN in a column.
    - A Python [dict] is an association list in insertion order, because the
      code iterates over [dict.items()].
    - Strings are byte strings; [upper] and [strip] act on ASCII.
    - Where Python would raise (a label missing from the table, [indices[0]]
      of an empty list) the model reads a default; this never happens in a
      state whose index describes its table ([wf]), and every phase starts
      in such a state and stays in one.
    - Logging and the counters that are only logged are left out. *)

From Stdlib Require Import ZArith QArith Qround List String Ascii Bool Lia Arith.
From Stdlib Require Import SpecFloat.
Import ListNotations.

Set Implicit Arguments.

(** ** Python and pandas primitives *)

Module Py.

(** [int(x)] on a float: truncation towards zero. *)
Definition int (q : Q) : Z :=
  if Qle_bool 0 q then Qfloor q else Qceiling q.

(** [np.ceil] and [np.floor] followed by [int]. *)
Definition ceil (q : Q) : Z := Qceiling q.
Definition floor (q : Q) : Z := Qfloor q.

Definition Qltb (a b : Q) : bool := negb (Qle_bool b a).
Definition Qmax (a b : Q) : Q := if Qle_bool a b then b else a.
Definition Qmin (a b : Q) : Q := if Qle_bool a b then a else b.

(** Truthiness of an [Optional[str]]. *)
Definition truthy (o : option string) : bool :=
  match o with
  | Some s => negb (String.eqb s EmptyString)
  | None => false
  end.

Definition is_space (c : ascii) : bool :=
  let n := nat_of_ascii c in
  ((9 <=? n) && (n <=? 13) || (28 <=? n) && (n <=? 32))%nat.

Fixpoint lstrip (s : string) : string :=
  match s with
  | EmptyString => EmptyString
  | String c s' => if is_space c then lstrip s' else s
  end.

Fixpoint rev_append (s acc : string) : string :=
  match s with
  | EmptyString => acc
  | String c s' => rev_append s' (String c acc)
  end.

Definition rev (s : string) : string := rev_append s EmptyString.

(** [str.strip()] *)
Definition strip (s : string) : string := rev (lstrip (rev (lstrip s))).

Definition upper_ascii (c : ascii) : ascii :=
  let n := nat_of_ascii c in
  if ((97 <=? n) && (n <=? 122))%nat then ascii_of_nat (n - 32) else c.

(** [str.upper()] *)
Fixpoint upper (s : string) : string :=
  match s with
  | EmptyString => EmptyString
  | String c s' => String (upper_ascii c) (upper s')
  end.

(** [sub in s] *)
Fixpoint contains (sub s : string) : bool :=
  if prefix sub s then true
  else match s with
       | EmptyString => false
       | String _ s' => contains sub s'
       end.

(** [s < t] on strings: lexicographic on code points. *)
Definition str_ltb (s t : string) : bool :=
  match String.compare s t with Lt => true | _ => false end.

(** An insertion-ordered [dict]. *)
Section Dict.
Variables (K V : Type) (eqb : K -> K -> bool).

Fixpoint get (d : list (K * V)) (k : K) : option V :=
  match d with
  | [] => None
  | (k', v) :: d' => if eqb k k' then Some v else get d' k
  end.

Definition mem (d : list (K * V)) (k : K) : bool :=
  match get d k with Some _ => true | None => false end.

(** [d[k] = v]: an existing key keeps its place. *)
Fixpoint set (d : list (K * V)) (k : K) (v : V) : list (K * V) :=
  match d with
  | [] => [(k, v)]
  | (k', v') :: d' =>
      if eqb k k' then (k', v) :: d' else (k', v') :: set d' k v
  end.
End Dict.

(** [list.sort(key=...)]: a stable sort; [lt] compares the keys. *)
Section Sort.
Variables (A : Type) (lt : A -> A -> bool).

Fixpoint insert (x : A) (l : list A) : list A :=
  match l with
  | [] => [x]
  | y :: l' => if lt y x then y :: insert x l' else x :: l
  end.

Fixpoint sort (l : list A) : list A :=
  match l with
  | [] => []
  | x :: l' => insert x (sort l')
  end.
End Sort.

(** [Series.unique()]: first occurrences, in order. *)
Fixpoint unique (l : list string) : list string :=
  match l with
  | [] => []
  | x :: l' => x :: filter (fun y => negb (String.eqb x y)) (unique l')
  end.

(** [list.remove(x)]: drops the first occurrence. *)
Fixpoint remove (x : string) (l : list string) : list string :=
  match l with
  | [] => []
  | y :: l' => if String.eqb x y then l' else y :: remove x l'
  end.

End Py.

(** ** Binary64, the arithmetic of Python's [float] and numpy's [float64] *)

Module B64.

Definition prec : Z := 53.
Definition emax : Z := 1024.

Definition float : Type := spec_float.

Definition zero : float := S754_zero false.
Definition inf : float := S754_infinity false.

(** [float(z)] *)
Definition of_Z (z : Z) : float := binary_normalize prec emax z 0 false.

Definition add : float -> float -> float := SFadd prec emax.
Definition sub : float -> float -> float := SFsub prec emax.
Definition mul : float -> float -> float := SFmul prec emax.
Definition div : float -> float -> float := SFdiv prec emax.
Definition leb : float -> float -> bool := SFleb.
Definition ltb : float -> float -> bool := SFltb.
Definition eqb : float -> float -> bool := SFeqb.

(** The float of the rational [n/d]: the quotient of the two integers,
    rounded once.  This is the float a decimal literal denotes when [n] and
    [d] are below [2^53], and it is [x] itself when [n/d] is the value of a
    float [x]. *)
Definition of_Q (q : Q) : float := div (of_Z (Qnum q)) (of_Z (Zpos (Qden q))).

(** [np.isfinite] *)
Definition isfinite (x : float) : bool :=
  match x with
  | S754_zero _ | S754_finite _ _ _ => true
  | _ => false
  end.

Definition signed (s : bool) (m : positive) : Z := if s then Zneg m else Zpos m.

(** The rational a finite float stands for; 0 for the others. *)
Definition value (x : float) : Q :=
  match x with
  | S754_finite s m e =>
      if (0 <=? e)%Z then inject_Z (signed s m * 2 ^ e)
      else Qmake (signed s m) (Z.to_pos (2 ^ (- e)))
  | _ => 0
  end.

(** [int(np.floor(x))] of a finite float. *)
Definition floor (x : float) : Z :=
  match x with
  | S754_finite s m e =>
      if (0 <=? e)%Z then (signed s m * 2 ^ e)%Z
      else (signed s m / 2 ^ (- e))%Z
  | _ => 0%Z
  end.

(** [int(x)] of a finite float: truncation toward zero. *)
Definition trunc (x : float) : Z :=
  match x with
  | S754_finite s m e =>
      if (0 <=? e)%Z then (signed s m * 2 ^ e)%Z
      else Z.quot (signed s m) (2 ^ (- e))
  | _ => 0%Z
  end.

(** Python's [min(a, b)] and [max(a, b)]: the first argument unless the
    second is strictly smaller (larger). *)
Definition min (a b : float) : float := if ltb b a then b else a.
Definition max (a b : float) : float := if ltb a b then b else a.

End B64.

(** ** config/settings.py *)

Module Settings.
Definition MIN_POR_SKU_TIENDA : Z := 2.
Definition MIN_POR_SKU_ECOM : Z := 3.
Definition MAX_STOCK_PER_SKU : Z := 6.
Definition ORIGIN_MIN_COV_DAYS : Q := 7.
Definition DEST_TARGET_COV_DAYS : Q := 7.
Definition ORIGIN_MIN_COV_ECOM : Q := 7.
Definition DEST_TARGET_COV_ECOM : Q := 7.
Definition COV_BUFFER_DAYS : Q := 1.

Inductive Rango := BEBES | NINOS.

Definition CURVAS_TALLAS (r : Rango) : list string :=
  match r with
  | BEBES => ["0M"; "3M"; "6M"; "9M"; "12M"; "18M"]
  | NINOS => ["2T"; "3T"; "4T"; "5T"; "6"; "8"; "10"; "12"]
  end%string.

Definition STORE_CATEGORY : list (string * string) :=
  [ ("BOGOTA PLAZA CENTRAL", "C");
    ("NEIVA SAN PEDRO", "B");
    ("BARRANQUILLA BUENAVISTA", "B");
    ("BARRANQUILLA PORTAL DEL PRADO", "C");
    ("BARRANQUILLA UNICO", "A");
    ("BARRANQUILLA VIVA", "C");
    ("CARTAGENA CARIBE PLAZA", "B");
    ("CUCUTA UNICENTRO", "C");
    ("MONTERIA ALAMEDAS", "C");
    ("BUGA PLAZA", "C");
    ("CALI CHIPICHAPE", "B");
    ("CALI JARDIN PLAZA", "A");
    ("CALI UNICENTRO", "B");
    ("CALI UNICO", "A");
    ("ECOMMERCE", "A");
    ("PALMIRA LLANOGRANDE", "B");
    ("POPAYAN CAMPANARIO", "C");
    ("TULUA LA HERRADURA", "C") ]%string.

Definition get_store_category (store_name : string) : string :=
  match Py.get String.eqb STORE_CATEGORY (Py.upper (Py.strip store_name)) with
  | Some c => c
  | None => "C"%string
  end.

(** [{'A': 0, 'B': 1, 'C': 2}.get(cat, 3)] *)
Definition cat_rank (cat : string) : Z :=
  if String.eqb cat "A" then 0
  else if String.eqb cat "B" then 1
  else if String.eqb cat "C" then 2
  else 3.
End Settings.

(** ** The data model *)

(** A row of the stock table. *)
Record StockRow := mkRow {
  Tienda : string;
  SKU : string;
  Referencia : string;
  Talla : option string;
  Region : option string;
  RegionID : option Z;
  IsEcom : bool;
  MinObjetivo : Z;
  ADU : option Q;
  Existencia : Q
}.

Definition with_Existencia (r : StockRow) (q : Q) : StockRow :=
  mkRow (Tienda r) (SKU r) (Referencia r) (Talla r) (Region r) (RegionID r)
        (IsEcom r) (MinObjetivo r) (ADU r) q.

Definition with_MinObjetivo (r : StockRow) (m : Z) : StockRow :=
  mkRow (Tienda r) (SKU r) (Referencia r) (Talla r) (Region r) (RegionID r)
        (IsEcom r) m (ADU r) (Existencia r).

(** A row of the velocity table [adu_df]. *)
Record AduRow := mkAdu {
  adu_Tienda : string;
  adu_SKU : string;
  adu_ADU : Q
}.

(** A row of the lead-time table [tiempos_df]. *)
Record TiempoRow := mkTiempo {
  t_O : string;
  t_D : string;
  t_ETA_NUM : option Q;
  t_PRI_NUM : option Q
}.

(** An entry of [self.transfers]. *)
Record Transfer := mkTransfer {
  tr_origen : string;
  tr_destino : string;
  tr_origen_antes : Z;
  tr_origen_despues : Z;
  tr_destino_antes : Z;
  tr_destino_despues : Z;
  tr_unidades : Z;
  tr_referencia : string;
  tr_talla : option string
}.

Definition Key : Type := (string * string)%type.

Definition key_eqb (a b : Key) : bool :=
  String.eqb (fst a) (fst b) && String.eqb (snd a) (snd b).

Definition row_key (r : StockRow) : Key := (Tienda r, SKU r).

(** The mutable part of an engine object. *)
Record State := mkState {
  stock_df : list StockRow;
  idx_tienda_sku : list (Key * list nat);
  transfers : list Transfer
}.

(** ** Operations on the stock table shared by the three classes *)

Definition total (rows : list StockRow) : Q :=
  fold_right (fun r a => Existencia r + a) 0 rows.

(** [stock_df.loc[i, 'Existencia']]; a missing label raises in pandas and
    reads as 0 here. *)
Definition Existencia_at (rows : list StockRow) (i : nat) : Q :=
  match nth_error rows i with
  | Some r => Existencia r
  | None => 0
  end.

(** [stock_df.loc[indices, 'Existencia'].sum()] *)
Definition loc_sum (rows : list StockRow) (indices : list nat) : Q :=
  fold_right (fun i a => Existencia_at rows i + a) 0 indices.

(** [stock_df.loc[indices, 'Existencia'] = f(...)], rows numbered from [i]. *)
Fixpoint loc_update_from (i : nat) (indices : list nat) (f : Q -> Q)
    (rows : list StockRow) : list StockRow :=
  match rows with
  | [] => []
  | r :: rs =>
      (if existsb (Nat.eqb i) indices
       then with_Existencia r (f (Existencia r)) else r)
      :: loc_update_from (S i) indices f rs
  end.

Definition loc_update := loc_update_from 0.

(** One step of [_build_indexes]:
    [if key not in idx: idx[key] = []; idx[key].append(i)]. *)
Definition idx_append (idx : list (Key * list nat)) (k : Key) (i : nat)
    : list (Key * list nat) :=
  match Py.get key_eqb idx k with
  | Some l => Py.set key_eqb idx k (l ++ [i])
  | None => Py.set key_eqb idx k [i]
  end.

Fixpoint build_indexes_from (i : nat) (rows : list StockRow)
    (idx : list (Key * list nat)) : list (Key * list nat) :=
  match rows with
  | [] => idx
  | r :: rs => build_indexes_from (S i) rs (idx_append idx (row_key r) i)
  end.

Definition build_indexes (rows : list StockRow) : list (Key * list nat) :=
  build_indexes_from 0 rows [].

(** [get_stock], the same in the three classes.  The sum is exact here;
    pandas adds in [int64] or in binary64, which is the same number on a
    [whole_table]. *)
Definition get_stock (s : State) (tienda sku : string) : Z :=
  match Py.get key_eqb (idx_tienda_sku s) (tienda, sku) with
  | None => 0
  | Some indices => Py.int (loc_sum (stock_df s) indices)
  end.

(** [len(indices)] as a float divisor. *)
Definition len_Q (indices : list nat) : Q := inject_Z (Z.of_nat (List.length indices)).

(** The stock mutation the three [execute_transfer] share once their guards
    have passed: the origin rows each lose [cantidad / len(indices_origen)],
    the destination rows each gain [cantidad / len(indices_destino)], or a
    new row is appended under the label [len(stock_df)]. *)
Definition update_origen (s : State) (origen sku : string) (cantidad : Z) : State :=
  match Py.get key_eqb (idx_tienda_sku s) (origen, sku) with
  | Some indices_origen =>
      let qty_per_row := inject_Z cantidad / len_Q indices_origen in
      mkState (loc_update indices_origen (fun e => e - qty_per_row) (stock_df s))
              (idx_tienda_sku s) (transfers s)
  | None => s
  end.

Definition update_destino (s : State) (destino sku : string) (cantidad : Z)
    (new_row : StockRow) : State :=
  match Py.get key_eqb (idx_tienda_sku s) (destino, sku) with
  | Some indices_destino =>
      let qty_per_row := inject_Z cantidad / len_Q indices_destino in
      mkState (loc_update indices_destino (fun e => e + qty_per_row) (stock_df s))
              (idx_tienda_sku s) (transfers s)
  | None =>
      let new_index := List.length (stock_df s) in
      mkState (stock_df s ++ [new_row])
              (Py.set key_eqb (idx_tienda_sku s) (destino, sku) [new_index])
              (transfers s)
  end.

Definition record_transfer (s : State) (t : Transfer) : State :=
  mkState (stock_df s) (idx_tienda_sku s) (transfers s ++ [t]).

(** *** The same mutation on the [float64] column

    The two definitions above carry the quotient [cantidad / len(indices)]
    as an exact rational.  pandas computes it in binary64 and writes it
    into a [float64] column; the exact and the computed quotient are the
    same number when the number of rows divides the quantity and the
    quantities stay below [2^53], and with one row per key in particular.
    [Column] replays lines 489-499 of [execute_transfer] and [get_stock] on
    the column of [Existencia] alone, in binary64, with the row labels of
    the table. *)

Module Column.

(** [qty_per_row = cantidad / len(indices)] *)
Definition qty_per_row (cantidad : Z) (indices : list nat) : B64.float :=
  B64.div (B64.of_Z cantidad) (B64.of_Z (Z.of_nat (List.length indices))).

Fixpoint loc_update_from (i : nat) (indices : list nat)
    (f : B64.float -> B64.float) (col : list B64.float) : list B64.float :=
  match col with
  | [] => []
  | x :: xs =>
      (if existsb (Nat.eqb i) indices then f x else x)
      :: loc_update_from (S i) indices f xs
  end.

(** [stock_df.loc[indices_origen, 'Existencia'] -= qty_per_row] *)
Definition update_origen (col : list B64.float) (indices_origen : list nat)
    (cantidad : Z) : list B64.float :=
  loc_update_from 0 indices_origen
    (fun e => B64.sub e (qty_per_row cantidad indices_origen)) col.

(** [stock_df.loc[indices_destino, 'Existencia'] += qty_per_row] *)
Definition update_destino (col : list B64.float) (indices_destino : list nat)
    (cantidad : Z) : list B64.float :=
  loc_update_from 0 indices_destino
    (fun e => B64.add e (qty_per_row cantidad indices_destino)) col.

(** [stock_df.loc[indices, 'Existencia'].sum()] *)
Definition loc_sum (col : list B64.float) (indices : list nat) : B64.float :=
  fold_left (fun a i => B64.add a (nth i col B64.zero)) indices B64.zero.

(** [int(stock_df.loc[indices, 'Existencia'].sum())] *)
Definition get_stock (col : list B64.float) (indices : list nat) : Z :=
  B64.trunc (loc_sum col indices).

(** [stock_df['Existencia'].sum()] *)
Definition sum (col : list B64.float) : B64.float :=
  fold_left B64.add col B64.zero.

(** The column of a table of whole quantities. *)
Definition of_rows (rows : list StockRow) : list B64.float :=
  map (fun r => B64.of_Q (Existencia r)) rows.

(** [get_stock] on the column, through the index of the state. *)
Definition key_stock (s : State) (col : list B64.float) (tienda sku : string) : Z :=
  match Py.get key_eqb (idx_tienda_sku s) (tienda, sku) with
  | None => 0%Z
  | Some indices => get_stock col indices
  end.

(** Lines 489-499: what an executed transfer does to the column. *)
Definition execute_transfer (s : State) (col : list B64.float)
    (origen destino sku : string) (cantidad : Z) : list B64.float :=
  let col :=
    match Py.get key_eqb (idx_tienda_sku s) (origen, sku) with
    | Some indices_origen => update_origen col indices_origen cantidad
    | None => col
    end in
  match Py.get key_eqb (idx_tienda_sku s) (destino, sku) with
  | Some indices_destino => update_destino col indices_destino cantidad
  | None => col ++ [B64.of_Z cantidad]
  end.

End Column.

(** ** traslados/engine_core.py: [TrasladosEngineCore] *)

(** A row of the table returned by [identify_base_needs]. *)
Record NeedRow := mkNeed {
  n_Tienda : string;
  n_SKU : string;
  n_Referencia : string;
  n_Talla : option string;
  n_Necesita : Z;
  n_IsEcom : bool;
  n_ADU : option Q
}.

(** [stock_df.loc[indices[0]]] for a key of the index; Python raises where
    the label is missing, the model then answers as for an absent key. *)
Definition first_row (s : State) (tienda sku : string) : option StockRow :=
  match Py.get key_eqb (idx_tienda_sku s) (tienda, sku) with
  | Some (i :: _) => nth_error (stock_df s) i
  | _ => None
  end.

(** [float(row['ADU']) if pd.notna(row['ADU']) else 0.0] *)
Definition row_adu (r : StockRow) : Q :=
  match ADU r with Some a => a | None => 0 end.

Module Engine.
Section WithConfig.

Variable adu_df : list AduRow.
Variable tiempos_df : list TiempoRow.
Variable bodega_principal : option string.
Variable no_seed : bool.
Variable allow_seed_if_adu : bool.

(** [self.bodega_principal and tienda == self.bodega_principal] *)
Definition is_bodega (tienda : string) : bool :=
  match bodega_principal with
  | Some b => Py.truthy bodega_principal && String.eqb tienda b
  | None => false
  end.

(** [__init__]: the target minimum per row, zero for the warehouse. *)
Definition init_row (r : StockRow) : StockRow :=
  let r' := with_MinObjetivo r
              (if IsEcom r then Settings.MIN_POR_SKU_ECOM
               else Settings.MIN_POR_SKU_TIENDA) in
  if is_bodega (Tienda r) then with_MinObjetivo r' 0%Z else r'.

Definition init (stock : list StockRow) : State :=
  let rows := map init_row stock in
  mkState rows (build_indexes rows) [].

Definition has_ref_now (s : State) (tienda referencia : string) : bool :=
  existsb (fun r => String.eqb (Tienda r) tienda
                    && String.eqb (Referencia r) referencia
                    && Py.Qltb 0 (Existencia r))
          (stock_df s).

Definition _get_adu_for_sku (tienda sku : string) : Q :=
  match filter (fun a => String.eqb (adu_Tienda a) tienda
                         && String.eqb (Py.upper (Py.strip (adu_SKU a)))
                                       (Py.upper (Py.strip sku)))
               adu_df with
  | [] => 0
  | a :: _ => adu_ADU a
  end.

Definition can_seed_to_store (s : State) (tienda referencia sku : string) : bool :=
  if has_ref_now s tienda referencia then true
  else if no_seed then
    if allow_seed_if_adu && Py.Qltb 0 (_get_adu_for_sku tienda sku) then true
    else false
  else true.

(** Coverage in days, [stock / adu if adu > 0 else np.inf]: the quotient of
    the integer [stock] and the float [adu], rounded to binary64. *)
Definition get_cobertura (s : State) (tienda sku : string) : B64.float :=
  match first_row s tienda sku with
  | None => B64.inf
  | Some row =>
      let adu := row_adu row in
      let stock := get_stock s tienda sku in
      if Py.Qltb 0 adu then B64.div (B64.of_Z stock) (B64.of_Q adu)
      else B64.inf
  end.

Definition allowed_to_send (s : State) (tienda sku : string) : Z :=
  match first_row s tienda sku with
  | None => 0%Z
  | Some row =>
      let stock_actual := get_stock s tienda sku in
      if is_bodega tienda then stock_actual
      else
        let min_objetivo := MinObjetivo row in
        let adu := row_adu row in
        let min_cov_days := if IsEcom row then Settings.ORIGIN_MIN_COV_ECOM
                            else Settings.ORIGIN_MIN_COV_DAYS in
        let guardar :=
          if Py.Qltb 0 adu
          then Z.max min_objetivo (Py.ceil (min_cov_days * adu))
          else min_objetivo in
        Z.max 0 (stock_actual - guardar)
  end.

Definition calculate_target_units (s : State) (tienda sku : string) : Z :=
  match first_row s tienda sku with
  | None => Settings.MIN_POR_SKU_TIENDA
  | Some row =>
      let min_objetivo := MinObjetivo row in
      let adu := row_adu row in
      let target_cov_days := if IsEcom row then Settings.DEST_TARGET_COV_ECOM
                             else Settings.DEST_TARGET_COV_DAYS in
      let target :=
        if Py.Qltb 0 adu
        then Z.max min_objetivo (Py.ceil (target_cov_days * adu))
        else min_objetivo in
      Z.min target Settings.MAX_STOCK_PER_SKU
  end.

(** Descending [ADU], NaN last. *)
Definition need_before (a b : NeedRow) : bool :=
  match n_ADU a, n_ADU b with
  | Some x, Some y => Py.Qltb y x
  | Some _, None => true
  | None, _ => false
  end.

Definition need_of_row (r : StockRow) : NeedRow :=
  let necesita := Py.int (inject_Z (MinObjetivo r) - Existencia r) in
  let cap_max := inject_Z Settings.MAX_STOCK_PER_SKU - Existencia r in
  let necesita := Py.int (Py.Qmax 0 (Py.Qmin (inject_Z necesita) cap_max)) in
  mkNeed (Tienda r) (SKU r) (Referencia r) (Talla r)
         necesita (IsEcom r) (ADU r).

(** The order of equal [ADU] is not fixed by [sort_values]; the model
    keeps the table order among them. *)
Definition identify_base_needs (s : State) : list NeedRow :=
  let mask r := Py.Qltb (Existencia r) (inject_Z (MinObjetivo r))
                && (if Py.truthy bodega_principal
                    then negb (is_bodega (Tienda r)) else true) in
  let needs := map need_of_row (filter mask (stock_df s)) in
  let needs := filter (fun n => (0 <? n_Necesita n)%Z) needs in
  Py.sort need_before needs.

(** [get_region_info] *)
Definition get_region_info (s : State) (tienda : string)
    : option Z * option string :=
  match filter (fun r => String.eqb (Tienda r) tienda) (stock_df s) with
  | [] => (None, None)
  | r :: _ => (RegionID r, Region r)
  end.

Definition _check_same_region (s : State) (tienda_a tienda_b : string) : bool :=
  let region_a := get_region_info s tienda_a in
  let region_b := get_region_info s tienda_b in
  match fst region_a, fst region_b with
  | Some ia, Some ib => (ia =? ib)%Z
  | _, _ =>
      match snd region_a, snd region_b with
      | Some ra, Some rb =>
          String.eqb (Py.upper (Py.strip ra)) (Py.upper (Py.strip rb))
      | _, _ => false
      end
  end.

Definition tiempos_match (origen destino : string) : list TiempoRow :=
  filter (fun t => String.eqb (t_O t) (Py.upper (Py.strip origen))
                   && String.eqb (t_D t) (Py.upper (Py.strip destino)))
         tiempos_df.

(** [None] is [np.nan]. *)
Definition _get_delivery_priority (origen destino : string) : option Q :=
  match tiempos_match origen destino with
  | [] => None
  | t :: _ => t_PRI_NUM t
  end.

Definition _get_delivery_days (origen destino : string) : option Q :=
  match tiempos_match origen destino with
  | [] => None
  | t :: _ => t_ETA_NUM t
  end.

(** The sort key [(region_rank, priority_rank, cov_rank, time_rank)]. *)
Definition RankKey : Type := (Z * Z * Q * Q)%type.

Definition rank_key_lt (a b : RankKey) : bool :=
  let '(a1, a2, a3, a4) := a in
  let '(b1, b2, b3, b4) := b in
  match (a1 ?= b1)%Z with
  | Lt => true
  | Gt => false
  | Eq =>
      match (a2 ?= b2)%Z with
      | Lt => true
      | Gt => false
      | Eq =>
          match (a3 ?= b3)%Q with
          | Lt => true
          | Gt => false
          | Eq => Py.Qltb a4 b4
          end
      end
  end.

Definition rank_key (s : State) (sku dest_tienda origen : string) : RankKey :=
  let region_rank := if _check_same_region s origen dest_tienda then 0%Z else 1%Z in
  let priority_rank :=
    match _get_delivery_priority origen dest_tienda with
    | Some p => Py.int p
    | None => 999%Z
    end in
  let cov_origen := get_cobertura s origen sku in
  let cov_rank :=
    - (if B64.isfinite cov_origen then B64.value cov_origen
       else 1000000000) in
  let time_rank :=
    match _get_delivery_days origen dest_tienda with
    | Some d => d
    | None => 999
    end in
  (region_rank, priority_rank, cov_rank, time_rank).

(** The filter of the candidate loop of [rank_origins_for_sku]. *)
Definition is_candidate (s : State) (sku dest_tienda : string) (k : Key) : bool :=
  let '(tienda, sku_check) := k in
  if negb (String.eqb sku_check sku) then false
  else if String.eqb tienda dest_tienda then false
  else if (allowed_to_send s tienda sku <=? 0)%Z then false
  else
    let cov_origen := get_cobertura s tienda sku in
    let cov_destino := get_cobertura s dest_tienda sku in
    if B64.isfinite cov_origen && B64.isfinite cov_destino
    then
      if B64.leb cov_origen
                 (B64.add cov_destino (B64.of_Q Settings.COV_BUFFER_DAYS))
      then false else true
    else true.

Definition rank_origins_for_sku (s : State) (sku dest_tienda dest_referencia : string)
    : list string :=
  let candidates :=
    map (fun e => fst (fst e))
        (filter (fun e => is_candidate s sku dest_tienda (fst e))
                (idx_tienda_sku s)) in
  let ranked := map (fun origen => (rank_key s sku dest_tienda origen, origen))
                    candidates in
  let ranked := Py.sort (fun x y => rank_key_lt (fst x) (fst y)) ranked in
  let origins_sorted := map snd ranked in
  match bodega_principal with
  | Some b =>
      if Py.truthy bodega_principal && existsb (String.eqb b) origins_sorted
      then b :: Py.remove b origins_sorted
      else origins_sorted
  | None => origins_sorted
  end.

Definition _create_new_stock_row (s : State)
    (tienda sku referencia : string) (talla : option string) (cantidad : Z)
    : StockRow :=
  let '(region, region_id, is_ecom) :=
    match filter (fun r => String.eqb (Tienda r) tienda) (stock_df s) with
    | sample :: _ => (Region sample, RegionID sample, IsEcom sample)
    | [] => (None, None, Py.contains "ECOM" (Py.upper tienda))
    end in
  let adu := _get_adu_for_sku tienda sku in
  let min_objetivo := if is_ecom then Settings.MIN_POR_SKU_ECOM
                      else Settings.MIN_POR_SKU_TIENDA in
  mkRow tienda sku referencia talla region region_id is_ecom
        min_objetivo (Some adu) (inject_Z cantidad).

Definition execute_transfer (s : State)
    (origen destino sku : string) (cantidad : Z) (referencia : string)
    (talla : option string) : bool * State :=
  if negb (Py.mem key_eqb (idx_tienda_sku s) (destino, sku))
     && negb (can_seed_to_store s destino referencia sku)
  then (false, s)
  else
    let stock_origen_antes := get_stock s origen sku in
    let stock_destino_antes := get_stock s destino sku in
    let s1 := update_origen s origen sku cantidad in
    let s2 := update_destino s1 destino sku cantidad
                (_create_new_stock_row s1 destino sku referencia talla cantidad) in
    let stock_origen_despues := get_stock s2 origen sku in
    let stock_destino_despues := get_stock s2 destino sku in
    (true,
     record_transfer s2
       (mkTransfer origen destino stock_origen_antes stock_origen_despues
                   stock_destino_antes stock_destino_despues
                   cantidad referencia talla)).

(** The loop [for origen in origins] of [process_base_needs]. *)
Fixpoint fill_from_origins (origins : list string)
    (tienda sku ref : string) (talla : option string) (s : State) (gap : Z)
    : State * Z :=
  match origins with
  | [] => (s, gap)
  | origen :: rest =>
      if (gap <=? 0)%Z then (s, gap)
      else
        let disponible := allowed_to_send s origen sku in
        if (disponible <=? 0)%Z then fill_from_origins rest tienda sku ref talla s gap
        else
          let stock_actual_dest := get_stock s tienda sku in
          let cap_disponible :=
            Z.max 0 (Settings.MAX_STOCK_PER_SKU - stock_actual_dest) in
          let qty := Z.min (Z.min disponible gap) cap_disponible in
          if (0 <? qty)%Z then
            let '(success, s') := execute_transfer s origen tienda sku qty ref talla in
            if success
            then fill_from_origins rest tienda sku ref talla s' (gap - qty)
            else fill_from_origins rest tienda sku ref talla s' gap
          else fill_from_origins rest tienda sku ref talla s gap
  end.

(** The body of the loop [for idx, need in needs_df.iterrows()]. *)
Definition process_need (s : State) (need : NeedRow) : State :=
  let tienda := n_Tienda need in
  let sku := n_SKU need in
  let ref := n_Referencia need in
  let talla := n_Talla need in
  if negb (Py.mem key_eqb (idx_tienda_sku s) (tienda, sku))
     && negb (can_seed_to_store s tienda ref sku)
  then s
  else
    let target := calculate_target_units s tienda sku in
    let origins := rank_origins_for_sku s sku tienda ref in
    match origins with
    | [] => s
    | _ =>
        let stock_inicial := get_stock s tienda sku in
        let gap := Z.max 0 (target - stock_inicial) in
        fst (fill_from_origins origins tienda sku ref talla s gap)
    end.

Definition process_base_needs (needs_df : list NeedRow) (s : State) : State :=
  fold_left process_need needs_df s.

(** Phase 1 as the orchestrator runs it. *)
Definition run_fase1 (stock : list StockRow) : State :=
  let s := init stock in
  process_base_needs (identify_base_needs s) s.

End WithConfig.
End Engine.

(** ** The velocity index of the completer and of the drainer *)

(** [adu_map[(row['Tienda'], row['SKU'])] = float(row['ADU'])] over [adu_df]. *)
Definition build_adu_map (adu_df : list AduRow) : list (Key * Q) :=
  fold_left (fun m a => Py.set key_eqb m (adu_Tienda a, adu_SKU a) (adu_ADU a))
            adu_df [].

(** [adu_map.get((tienda, sku), 0.0)] *)
Definition adu_map_get (adu_map : list (Key * Q)) (tienda sku : string) : Q :=
  match Py.get key_eqb adu_map (tienda, sku) with
  | Some a => a
  | None => 0
  end.

(** [stock_df[stock_df['Tienda'] == bodega]['Existencia'].sum()] as an [int]. *)
Definition bodega_total (bodega : string) (s : State) : Z :=
  Py.int (total (filter (fun r => String.eqb (Tienda r) bodega) (stock_df s))).

(** The sort key [(cat_rank, -adu, tienda)] of both classes. *)
Definition store_key_lt (a b : Z * Q * string) : bool :=
  let '(a1, a2, a3) := a in
  let '(b1, b2, b3) := b in
  match (a1 ?= b1)%Z with
  | Lt => true
  | Gt => false
  | Eq =>
      match (a2 ?= b2)%Q with
      | Lt => true
      | Gt => false
      | Eq => Py.str_ltb a3 b3
      end
  end.

(** ** traslados/curve_completer.py: [CurveCompleter] *)

Module Curve.
Section WithConfig.

Variable adu_df : list AduRow.
Variable bodega_principal : string.

Definition ADU_MIN_THRESHOLD : Q := 0.05.

Definition adu_map : list (Key * Q) := build_adu_map adu_df.

Definition init (stock : list StockRow) : State :=
  mkState stock (build_indexes stock) [].

Definition get_adu (tienda sku : string) : Q := adu_map_get adu_map tienda sku.

Definition get_bodega_total (s : State) : Z := bodega_total bodega_principal s.

(** [adu_per_store.get(tienda, 0.0)] *)
Definition adu_per_store (tienda : string) : Q :=
  fold_left (fun acc e => if String.eqb (fst (fst e)) tienda
                          then acc + snd e else acc)
            adu_map 0.

Definition prioritize_stores (s : State) : list string :=
  let stores := filter (fun t => negb (String.eqb t bodega_principal))
                       (Py.unique (map Tienda (stock_df s))) in
  let sort_key tienda :=
    (Settings.cat_rank (Settings.get_store_category tienda),
     - adu_per_store tienda, tienda) in
  Py.sort (fun a b => store_key_lt (sort_key a) (sort_key b)) stores.

Definition get_refs_in_store (s : State) (tienda : string) : list string :=
  Py.unique
    (map Referencia
         (filter (fun r => String.eqb (Tienda r) tienda
                           && Py.Qltb 0 (Existencia r))
                 (stock_df s))).

Definition get_rango_for_ref (s : State) (tienda ref : string)
    : option Settings.Rango :=
  let rows := filter (fun r => String.eqb (Tienda r) tienda
                               && String.eqb (Referencia r) ref)
                     (stock_df s) in
  match rows with
  | [] => None
  | _ =>
      let tallas_presentes :=
        flat_map (fun r => match Talla r with
                           | Some t => [Py.upper t]
                           | None => []
                           end) rows in
      let meets curva :=
        existsb (fun t => existsb (String.eqb t) curva) tallas_presentes in
      if meets (Settings.CURVAS_TALLAS Settings.BEBES) then Some Settings.BEBES
      else if meets (Settings.CURVAS_TALLAS Settings.NINOS) then Some Settings.NINOS
      else None
  end.

Definition get_candidate_tallas (s : State) (tienda ref : string)
    (rango : Settings.Rango) : list string :=
  let curva := Settings.CURVAS_TALLAS rango in
  let candidates :=
    flat_map (fun talla =>
                let sku := (ref ++ talla)%string in
                let adu := get_adu tienda sku in
                let stock_actual := get_stock s tienda sku in
                if Py.Qltb adu ADU_MIN_THRESHOLD then []
                else if (Settings.MIN_POR_SKU_TIENDA <=? stock_actual)%Z then []
                else [(talla, adu)])
             curva in
  map fst (Py.sort (fun x y => Py.Qltb (- snd x) (- snd y)) candidates).

Definition _create_stock_row (tienda sku ref talla : string) (qty : Z) : StockRow :=
  let adu := get_adu tienda sku in
  mkRow tienda sku ref (Some talla) None None
        (Py.contains "ECOM" (Py.upper tienda))
        Settings.MIN_POR_SKU_TIENDA (Some adu) (inject_Z qty).

Definition execute_transfer (s : State)
    (origen destino sku : string) (cantidad : Z) (referencia talla : string)
    : bool * State :=
  if negb (Py.mem key_eqb (idx_tienda_sku s) (origen, sku)) then (false, s)
  else
    let stock_origen_antes := get_stock s origen sku in
    if (stock_origen_antes <? cantidad)%Z then (false, s)
    else
      let stock_destino_antes := get_stock s destino sku in
      let s1 := update_origen s origen sku cantidad in
      let s2 := update_destino s1 destino sku cantidad
                  (_create_stock_row destino sku referencia talla cantidad) in
      let stock_origen_despues := get_stock s2 origen sku in
      let stock_destino_despues := get_stock s2 destino sku in
      (true,
       record_transfer s2
         (mkTransfer origen destino stock_origen_antes stock_origen_despues
                     stock_destino_antes stock_destino_despues
                     cantidad referencia (Some talla))).

(** [for talla in tallas] *)
Fixpoint complete_tallas (tallas : list string) (tienda ref : string)
    (s : State) : State :=
  match tallas with
  | [] => s
  | talla :: rest =>
      if (get_bodega_total s <=? 0)%Z then s
      else
        let sku := (ref ++ talla)%string in
        let stock_actual := get_stock s tienda sku in
        let necesita := (Settings.MIN_POR_SKU_TIENDA - stock_actual)%Z in
        let cap_disponible := (Settings.MAX_STOCK_PER_SKU - stock_actual)%Z in
        let necesita := Z.min necesita cap_disponible in
        if (necesita <=? 0)%Z then complete_tallas rest tienda ref s
        else
          let bodega_stock := get_stock s bodega_principal sku in
          if (bodega_stock <=? 0)%Z then complete_tallas rest tienda ref s
          else
            let qty := Z.min necesita bodega_stock in
            if (0 <? qty)%Z
            then complete_tallas rest tienda ref
                   (snd (execute_transfer s bodega_principal tienda sku qty ref talla))
            else complete_tallas rest tienda ref s
  end.

(** [for ref in refs] *)
Fixpoint complete_refs (refs : list string) (tienda : string) (s : State)
    : State :=
  match refs with
  | [] => s
  | ref :: rest =>
      if (get_bodega_total s <=? 0)%Z then s
      else
        match get_rango_for_ref s tienda ref with
        | None => complete_refs rest tienda s
        | Some rango =>
            let tallas := get_candidate_tallas s tienda ref rango in
            complete_refs rest tienda (complete_tallas tallas tienda ref s)
        end
  end.

(** The references of a store by descending summed [ADU] of the curve sizes. *)
Definition refs_by_adu (s : State) (tienda : string) : list string :=
  let refs := get_refs_in_store s tienda in
  let ref_adu ref :=
    fold_left (fun acc t => acc + get_adu tienda (ref ++ t)%string)
              (Settings.CURVAS_TALLAS Settings.BEBES
               ++ Settings.CURVAS_TALLAS Settings.NINOS) 0 in
  let refs_with_adu := map (fun ref => (ref, ref_adu ref)) refs in
  map fst (Py.sort (fun x y => Py.Qltb (- snd x) (- snd y)) refs_with_adu).

(** [for tienda in stores] *)
Fixpoint complete_stores (stores : list string) (s : State) : State :=
  match stores with
  | [] => s
  | tienda :: rest =>
      if (get_bodega_total s <=? 0)%Z then s
      else complete_stores rest (complete_refs (refs_by_adu s tienda) tienda s)
  end.

(** Returns [(stock_df, transfers)]. *)
Definition complete_curves (s : State) : list StockRow * list Transfer :=
  if (get_bodega_total s <=? 0)%Z then (stock_df s, [])
  else
    let s' := complete_stores (prioritize_stores s) s in
    (stock_df s', transfers s').

(** Phase 2 as the orchestrator runs it. *)
Definition run_fase2 (stock : list StockRow) : list StockRow * list Transfer :=
  complete_curves (init stock).

End WithConfig.
End Curve.

(** ** traslados/bodega_drainer.py: [BodegaDrainer] *)

Module Drainer.
Section WithConfig.

Variable adu_df : list AduRow.
Variable bodega_principal : string.
Variable no_seed : bool.
Variable allow_seed_if_adu : bool.

Definition adu_map : list (Key * Q) := build_adu_map adu_df.

Definition init (stock : list StockRow) : State :=
  mkState stock (build_indexes stock) [].

Definition get_adu (tienda sku : string) : Q := adu_map_get adu_map tienda sku.

Definition get_bodega_total (s : State) : Z := bodega_total bodega_principal s.

Definition has_ref_now (s : State) (tienda referencia : string) : bool :=
  existsb (fun r => String.eqb (Tienda r) tienda
                    && String.eqb (Referencia r) referencia
                    && Py.Qltb 0 (Existencia r))
          (stock_df s).

Definition can_seed_to_store (s : State) (tienda referencia sku : string) : bool :=
  if has_ref_now s tienda referencia then true
  else if no_seed then
    if allow_seed_if_adu && Py.Qltb 0 (get_adu tienda sku) then true
    else false
  else true.

(** The limit on the exact ratio: the product is not rounded. *)
Definition calculate_drain_limit (s : State) (safety_ratio : Q) : Z :=
  let total_bodega := get_bodega_total s in
  if Qle_bool safety_ratio 0 then total_bodega
  else
    let safety_ratio := Py.Qmax 0 (Py.Qmin 0.99 safety_ratio) in
    Py.floor (inject_Z total_bodega * (1 - safety_ratio)).

(** The same function in binary64, as numpy evaluates it on the float
    [safety_ratio]: the product is rounded before [np.floor] is taken. *)
Definition calculate_drain_limit_float (s : State) (safety_ratio : B64.float) : Z :=
  let total_bodega := get_bodega_total s in
  if B64.leb safety_ratio B64.zero then total_bodega
  else
    let safety_ratio := B64.max B64.zero (B64.min (B64.of_Q 0.99) safety_ratio) in
    B64.floor (B64.mul (B64.of_Z total_bodega)
                       (B64.sub (B64.of_Z 1) safety_ratio)).

(** [sku_adu_total.get(sku)], 0 where the item was never sold. *)
Definition sku_adu_total (sku : string) : Q :=
  fold_left (fun acc e => if String.eqb (snd (fst e)) sku
                          then acc + snd e else acc)
            adu_map 0.

(** [groupby('SKU')] lists the items in ascending order; the order of
    equal [ADU_Total] is not fixed by [sort_values], the model keeps the
    group order among them. *)
Definition get_skus_to_drain (s : State) : list (string * Z * Q) :=
  let bodega_rows := filter (fun r => String.eqb (Tienda r) bodega_principal)
                            (stock_df s) in
  let skus := Py.sort Py.str_ltb (Py.unique (map SKU bodega_rows)) in
  let bodega_stock :=
    map (fun sku =>
           (sku,
            total (filter (fun r => String.eqb (SKU r) sku) bodega_rows),
            sku_adu_total sku))
        skus in
  let bodega_stock :=
    Py.sort (fun x y => Py.Qltb (snd y) (snd x)) bodega_stock in
  map (fun x => (fst (fst x), Py.int (snd (fst x)), snd x)) bodega_stock.

Definition get_destinations_for_sku (sku : string) : list (string * Q) :=
  let candidates :=
    flat_map (fun e =>
                let '((tienda, sku_check), adu) := e in
                if negb (String.eqb sku_check sku) then []
                else if String.eqb tienda bodega_principal then []
                else if Qle_bool adu 0 then []
                else [(tienda, adu)])
             adu_map in
  let sort_key (item : string * Q) :=
    (Settings.cat_rank (Settings.get_store_category (fst item)),
     - snd item, fst item) in
  Py.sort (fun a b => store_key_lt (sort_key a) (sort_key b)) candidates.

Definition new_row (destino sku referencia talla : string) (cantidad : Z)
    : StockRow :=
  mkRow destino sku referencia (Some talla) None None
        (Py.contains "ECOM" (Py.upper destino))
        2%Z (Some (get_adu destino sku)) (inject_Z cantidad).

Definition execute_transfer (s : State)
    (origen destino sku : string) (cantidad : Z) (referencia talla : string)
    : bool * State :=
  if negb (Py.mem key_eqb (idx_tienda_sku s) (origen, sku)) then (false, s)
  else
    let stock_origen_antes := get_stock s origen sku in
    let stock_destino_antes := get_stock s destino sku in
    let s1 := update_origen s origen sku cantidad in
    let s2 := update_destino s1 destino sku cantidad
                (new_row destino sku referencia talla cantidad) in
    let stock_origen_despues := get_stock s2 origen sku in
    let stock_destino_despues := get_stock s2 destino sku in
    (true,
     record_transfer s2
       (mkTransfer origen destino stock_origen_antes stock_origen_despues
                   stock_destino_antes stock_destino_despues
                   cantidad referencia (Some talla))).

(** [for tienda, adu_sku in destinos]; the result carries [drained]. *)
Fixpoint drain_destinos (destinos : list (string * Q))
    (sku ref talla : string) (max_drain : Z)
    (s : State) (drained qty_disponible : Z) : State * Z :=
  match destinos with
  | [] => (s, drained)
  | (tienda, adu_sku) :: rest =>
      if (qty_disponible <=? 0)%Z then (s, drained)
      else if (max_drain <=? drained)%Z then (s, drained)
      else if negb (can_seed_to_store s tienda ref sku)
      then drain_destinos rest sku ref talla max_drain s drained qty_disponible
      else
        let stock_actual := get_stock s tienda sku in
        let cap_disponible :=
          Z.max 0 (Settings.MAX_STOCK_PER_SKU - stock_actual) in
        if (cap_disponible <=? 0)%Z
        then drain_destinos rest sku ref talla max_drain s drained qty_disponible
        else
          let qty := Z.min (Z.min cap_disponible qty_disponible)
                           (max_drain - drained) in
          if (0 <? qty)%Z then
            let '(success, s') :=
              execute_transfer s bodega_principal tienda sku qty ref talla in
            if success
            then drain_destinos rest sku ref talla max_drain s'
                   (drained + qty) (qty_disponible - qty)
            else drain_destinos rest sku ref talla max_drain s'
                   drained qty_disponible
          else drain_destinos rest sku ref talla max_drain s drained qty_disponible
  end.

(** [for sku, disponible, adu_total in skus] *)
Fixpoint drain_skus (skus : list (string * Z * Q)) (max_drain : Z)
    (s : State) (drained : Z) : State * Z :=
  match skus with
  | [] => (s, drained)
  | (sku, disponible, adu_total) :: rest =>
      if (max_drain <=? drained)%Z then (s, drained)
      else if (String.length sku <? 7)%nat
      then drain_skus rest max_drain s drained
      else
        let ref := substring 0 7 sku in
        let talla := substring 7 (String.length sku - 7) sku in
        let qty_disponible := Z.min disponible (max_drain - drained) in
        if (qty_disponible <=? 0)%Z then drain_skus rest max_drain s drained
        else
          match get_destinations_for_sku sku with
          | [] => drain_skus rest max_drain s drained
          | destinos =>
              let '(s', drained') :=
                drain_destinos destinos sku ref talla max_drain s drained
                               qty_disponible in
              drain_skus rest max_drain s' drained'
          end
  end.

(** Returns [(stock_df, transfers)]. *)
Definition drain (s : State) (safety_ratio : Q)
    : list StockRow * list Transfer :=
  let bodega_inicial := get_bodega_total s in
  if (bodega_inicial <=? 0)%Z then (stock_df s, [])
  else
    let max_drain := calculate_drain_limit s safety_ratio in
    let s' := fst (drain_skus (get_skus_to_drain s) max_drain s 0%Z) in
    (stock_df s', transfers s').

(** Phase 3 as the orchestrator runs it. *)
Definition run_fase3 (stock : list StockRow) (safety_ratio : Q)
    : list StockRow * list Transfer :=
  drain (init stock) safety_ratio.

(** [drain] with the limit as numpy computes it from the float
    [safety_ratio]. *)
Definition drain_float (s : State) (safety_ratio : B64.float)
    : list StockRow * list Transfer :=
  let bodega_inicial := get_bodega_total s in
  if (bodega_inicial <=? 0)%Z then (stock_df s, [])
  else
    let max_drain := calculate_drain_limit_float s safety_ratio in
    let s' := fst (drain_skus (get_skus_to_drain s) max_drain s 0%Z) in
    (stock_df s', transfers s').

End WithConfig.
End Drainer.

(** ** Vocabulary of the statements *)

(** The labels of the rows of [rows] with key [k], numbered from [i]. *)
Fixpoint positions_from (i : nat) (k : Key) (rows : list StockRow) : list nat :=
  match rows with
  | [] => []
  | r :: rs =>
      if key_eqb k (row_key r) then i :: positions_from (S i) k rs
      else positions_from (S i) k rs
  end.

Definition positions := positions_from 0.

(** [idx] maps every key to the labels of its rows, and holds no other key. *)
Definition represents (idx : list (Key * list nat)) (rows : list StockRow) : Prop :=
  forall k, Py.get key_eqb idx k
            = match positions k rows with [] => None | l => Some l end.

Definition wf (s : State) : Prop := represents (idx_tienda_sku s) (stock_df s).

(** Writing to the rows that carry a key; under [wf] this is what writing
    through the labels of the key does. *)
Definition update_key (k : Key) (f : Q -> Q) (r : StockRow) : StockRow :=
  if key_eqb k (row_key r) then with_Existencia r (f (Existencia r)) else r.

(** The states reached from [s] by steps that keep the index faithful,
    keep the total and never forget a key. *)
Definition conserves (s s' : State) : Prop :=
  wf s'
  /\ total (stock_df s') == total (stock_df s)
  /\ forall k, Py.mem key_eqb (idx_tienda_sku s) k = true ->
               Py.mem key_eqb (idx_tienda_sku s') k = true.

(** The quantity a key holds over all its rows. *)
Definition key_total (k : Key) (rows : list StockRow) : Q :=
  total (filter (fun r => key_eqb k (row_key r)) rows).

(** [s'] is [s] after exactly [cantidad] units went from the rows of
    [(origen, sku)] to the rows of [(destino, sku)]: the origin key holds
    [cantidad] less, the destination key [cantidad] more, every other key
    what it held. *)
Definition moved_exactly (s s' : State) (origen destino sku : string)
    (cantidad : Z) : Prop :=
  key_total (origen, sku) (stock_df s')
  == key_total (origen, sku) (stock_df s) - inject_Z cantidad
  /\ key_total (destino, sku) (stock_df s')
     == key_total (destino, sku) (stock_df s) + inject_Z cantidad
  /\ forall k, k <> (origen, sku) -> k <> (destino, sku) ->
       key_total k (stock_df s') == key_total k (stock_df s).

(** A state in which every key has one row, no row is negative and no
    minimum is negative. *)
Definition row_ok (r : StockRow) : Prop :=
  0 <= Existencia r /\ (0 <= MinObjetivo r)%Z.

Definition healthy (s : State) : Prop :=
  wf s /\ NoDup (map row_key (stock_df s)) /\ Forall row_ok (stock_df s).

(** The units moved by a list of transfers. *)
Definition units (ts : list Transfer) : Z :=
  fold_right (fun t a => (tr_unidades t + a)%Z) 0%Z ts.

(** What the loop over the destinations keeps: the index stays faithful, the
    total is kept, the units recorded grow by what [drained] grows, every new
    record carries a positive quantity, and the budget is not exceeded. *)
Definition drain_step_ok (max_drain : Z) (s : State) (drained : Z)
    (res : State * Z) : Prop :=
  conserves s (fst res)
  /\ (drained <= snd res <= max_drain)%Z
  /\ (units (transfers (fst res)) - units (transfers s) = snd res - drained)%Z
  /\ exists new, transfers (fst res) = transfers s ++ new
                 /\ Forall (fun t => 0 < tr_unidades t)%Z new.

(** The coverage comparison of the engine on the floats it compares:
    [cov_origen > cov_destino + COV_BUFFER_DAYS]. *)
Definition cov_exceeds (cov_origen cov_destino : B64.float) : Prop :=
  B64.ltb (B64.add cov_destino (B64.of_Q Settings.COV_BUFFER_DAYS)) cov_origen
  = true.

(** Tables of whole quantities.  The quantities of a stock table count
    units.  On a table of non-negative whole numbers that add up to at most
    [2^52], the arithmetic of pandas, on an integer and on a [float64]
    column alike, is exact as long as every share [cantidad / len(indices)]
    is a whole number; the rational arithmetic of [update_origen],
    [update_destino] and [get_stock] then yields the very numbers the code
    computes. *)
Definition whole_row (r : StockRow) : Prop :=
  exists z : Z, (0 <= z)%Z /\ Existencia r == inject_Z z.

Definition whole_table (rows : list StockRow) : Prop :=
  Forall whole_row rows /\ total rows <= inject_Z (2 ^ 52).

(** The share of each row of the key [k] in [cantidad] units is whole. *)
Definition splits_evenly (s : State) (k : Key) (cantidad : Z) : Prop :=
  match Py.get key_eqb (idx_tienda_sku s) k with
  | Some indices => (Z.of_nat (List.length indices) | cantidad)%Z
  | None => True
  end.

(** A table of whole quantities with one physical row per (store, item)
    key: every share is then the quantity itself. *)
Definition exact_table (rows : list StockRow) : Prop :=
  NoDup (map row_key rows) /\ whole_table rows.

(** Every key holds a whole quantity over its rows. *)
Definition keys_whole (rows : list StockRow) : Prop :=
  forall k, exists z : Z, key_total k rows == inject_Z z.

(** A state with a faithful index, one row per key and whole quantities. *)
Definition exact_state (s : State) : Prop :=
  wf s /\ NoDup (map row_key (stock_df s)) /\ keys_whole (stock_df s).

(** [P] survives the stock mutation of an executed transfer, whatever the
    stores and the quantity. *)
Definition move_closed (P : State -> Prop) : Prop :=
  forall s origen destino sku cantidad r t,
    P s -> row_key r = (destino, sku) -> Existencia r == inject_Z cantidad ->
    P (record_transfer
         (update_destino (update_origen s origen sku cantidad)
            destino sku cantidad r) t).

(** What a row under the label [i] loses or gains in a transfer of
    [cantidad] through the labels [indices] of a key. *)
Definition share (indices : option (list nat)) (i : nat) (cantidad : Z) : Q :=
  match indices with
  | Some l => if existsb (Nat.eqb i) l then inject_Z cantidad / len_Q l else 0
  | None => 0
  end.

(** A split in proportion to the quantities held: the amounts taken from
    any two rows are in the ratio of what the rows held. *)
Definition proportional_split (before after : list StockRow)
    (indices : list nat) : Prop :=
  forall i j, In i indices -> In j indices ->
    (Existencia_at before i - Existencia_at after i) * Existencia_at before j
    == (Existencia_at before j - Existencia_at after j) * Existencia_at before i.

(** The central warehouse, when one is designated: [None] and the empty
    string both count as none. *)
Definition bodega_designada (bodega_principal : option string) : option string :=
  if Py.truthy bodega_principal then bodega_principal else None.

(** ** Scenarios *)

Module Scenario.
Open Scope string_scope.

Definition BODEGA := "BODEGA PRINCIPAL".
Definition CHIPICHAPE := "CALI CHIPICHAPE".
Definition UNICENTRO := "CALI UNICENTRO".
Definition BARRANQUILLA := "BARRANQUILLA UNICO".
Definition REF := "1234567".
Definition SKU18 := "123456718M".

(** A stock row as the test fixtures write it, before [__init__] assigns
    [MinObjetivo]. *)
Definition fila (tienda : string) (existencia adu : Q)
    (region : option string) (region_id : option Z) : StockRow :=
  mkRow tienda SKU18 REF (Some "18M") region region_id false 0%Z (Some adu)
        existencia.

(** The warehouse holds 100 units without sales; the store holds 2 units
    and sells one a day. *)
Definition base_stock : list StockRow :=
  [ fila BODEGA 100 0 None None; fila CHIPICHAPE 2 1 None None ].

(** The same item kept by the warehouse in two physical rows of unequal
    quantity, and a store that is out of it. *)
Definition split_stock : list StockRow :=
  [ fila BODEGA 3 0 None None; fila BODEGA 1 0 None None;
    fila CHIPICHAPE 0 0 None None ].

(** The warehouse keeps the item in two physical rows of 5 and 1 units; a
    store that sells one unit a day is out of it. *)
Definition uneven_stock : list StockRow :=
  [ fila BODEGA 5 0 None None; fila BODEGA 1 0 None None;
    fila CHIPICHAPE 0 1 None None ].

(** The record of the store of [base_stock] in the table of needs. *)
Definition base_need : NeedRow :=
  mkNeed CHIPICHAPE SKU18 REF (Some "18M") 0 false (Some 1).

(** A store without sales of the item, next to one that is well covered. *)
Definition nosales_stock : list StockRow :=
  [ fila CHIPICHAPE 1 0 None None; fila UNICENTRO 20 1 None None ].

(** The warehouse and a store that sell three units a day, one day of
    coverage apart. *)
Definition thirds_stock : list StockRow :=
  [ fila BODEGA 5 3 None None; fila CHIPICHAPE 2 3 None None ].

(** A store that keeps the item in three physical rows of 0, 1 and 0
    units, and a warehouse of 50. *)
Definition three_row_stock : list StockRow :=
  [ fila BODEGA 50 0 None None; fila CHIPICHAPE 0 0 None None;
    fila CHIPICHAPE 1 0 None None; fila CHIPICHAPE 0 0 None None ].

(** The table of [TestOriginRanking]. *)
Definition ranking_stock : list StockRow :=
  [ fila CHIPICHAPE 1 2 (Some "VALLE") (Some 4%Z);
    fila UNICENTRO 20 1 (Some "VALLE") (Some 4%Z);
    fila BARRANQUILLA 15 1 (Some "ATLANTICO") (Some 1%Z);
    fila BODEGA 100 0 (Some "VALLE") (Some 4%Z) ].

(** The same stores with the warehouse in another region and no lead
    times: on the sort key alone the warehouse comes second. *)
Definition far_bodega_stock : list StockRow :=
  [ fila CHIPICHAPE 1 2 (Some "VALLE") (Some 4%Z);
    fila UNICENTRO 20 1 (Some "VALLE") (Some 4%Z);
    fila BARRANQUILLA 15 1 (Some "ATLANTICO") (Some 1%Z);
    fila BODEGA 100 0 (Some "ATLANTICO") (Some 1%Z) ].

Definition ranking_tiempos : list TiempoRow :=
  [ mkTiempo BODEGA CHIPICHAPE (Some 2) (Some 1);
    mkTiempo UNICENTRO CHIPICHAPE (Some 1) (Some 2);
    mkTiempo BARRANQUILLA CHIPICHAPE (Some 3) (Some 3) ].

(** A velocity table whose item code still carries the padding of the
    source system. *)
Definition padded_adu : list AduRow := [ mkAdu UNICENTRO "123456718M  " 0.5 ].

(** A store that holds nothing of the reference. *)
Definition seed_stock : list StockRow :=
  [ fila BODEGA 40 0 None None;
    mkRow UNICENTRO "987654318M" "9876543" (Some "18M") None None false 0%Z
          (Some 2) 10 ].

(** A warehouse of 1000 units, and one of 100 with two stores that sell. *)
Definition big_stock : list StockRow := [ fila BODEGA 1000 0 None None ].

Definition drain_stock : list StockRow :=
  [ fila BODEGA 100 0 None None; fila CHIPICHAPE 2 1 None None;
    fila UNICENTRO 1 (1 # 2) None None ].

Definition drain_adu : list AduRow :=
  [ mkAdu CHIPICHAPE SKU18 1; mkAdu UNICENTRO SKU18 0.5 ].

End Scenario.

(** ** Vocabulary of the further properties *)

From Stdlib Require Import Permutation Sorted Lqa.

Unset Implicit Arguments.

(** No key of the table holds a negative quantity over its rows. *)
Definition keys_nonneg (rows : list StockRow) : Prop :=
  forall k, 0 <= key_total k rows.

(** The before and after columns of a transfer agree with its quantity. *)
Definition snapshots_ok (t : Transfer) : Prop :=
  tr_origen_despues t = (tr_origen_antes t - tr_unidades t)%Z
  /\ tr_destino_despues t = (tr_destino_antes t + tr_unidades t)%Z.

(** [s'] has the transfers of [s] followed by transfers that all satisfy
    [P]. *)
Definition extends (P : Transfer -> Prop) (s s' : State) : Prop :=
  exists new, transfers s' = transfers s ++ new /\ Forall P new.

(** The minimum of a row is not negative, and at least 2 outside the
    warehouse. *)
Definition min_ok (bodega_principal : option string) (r : StockRow) : Prop :=
  (0 <= MinObjetivo r)%Z
  /\ (Engine.is_bodega bodega_principal (Tienda r) = false ->
      (2 <= MinObjetivo r)%Z).

(** The states phase 1 works in. *)
Definition sound1 (bodega_principal : option string) (s : State) : Prop :=
  wf s /\ keys_nonneg (stock_df s)
  /\ Forall (min_ok bodega_principal) (stock_df s).

(** What a transfer of phase 1 records. *)
Definition fase1_ok (bodega_principal : option string) (t : Transfer) : Prop :=
  (0 < tr_unidades t)%Z
  /\ tr_origen t <> tr_destino t
  /\ Engine.is_bodega bodega_principal (tr_destino t) = false
  /\ snapshots_ok t
  /\ (tr_destino_despues t <= Settings.MAX_STOCK_PER_SKU)%Z
  /\ (0 <= tr_origen_despues t)%Z
  /\ (Engine.is_bodega bodega_principal (tr_origen t) = false ->
      (2 <= tr_origen_despues t)%Z).

(** The states phases 2 and 3 work in. *)
Definition sound2 (s : State) : Prop := wf s /\ keys_nonneg (stock_df s).

(** A size of one of the two curves. *)
Definition curve_size (talla : string) : Prop :=
  In talla (Settings.CURVAS_TALLAS Settings.BEBES)
  \/ In talla (Settings.CURVAS_TALLAS Settings.NINOS).

(** What a transfer of phase 2 records. *)
Definition fase2_ok (adu_df : list AduRow) (bodega_principal : string)
    (t : Transfer) : Prop :=
  tr_origen t = bodega_principal
  /\ tr_destino t <> bodega_principal
  /\ (0 < tr_unidades t)%Z
  /\ snapshots_ok t
  /\ (tr_destino_despues t <= Settings.MIN_POR_SKU_TIENDA)%Z
  /\ (0 <= tr_origen_despues t)%Z
  /\ exists talla,
       tr_talla t = Some talla /\ curve_size talla
       /\ Curve.ADU_MIN_THRESHOLD
          <= Curve.get_adu adu_df (tr_destino t) (tr_referencia t ++ talla).

(** What a transfer of phase 3 records. *)
Definition fase3_ok (adu_df : list AduRow) (bodega_principal : string)
    (t : Transfer) : Prop :=
  tr_origen t = bodega_principal
  /\ tr_destino t <> bodega_principal
  /\ (0 < tr_unidades t)%Z
  /\ snapshots_ok t
  /\ (tr_destino_despues t <= Settings.MAX_STOCK_PER_SKU)%Z
  /\ (0 <= tr_origen_despues t)%Z
  /\ String.length (tr_referencia t) = 7%nat
  /\ exists talla,
       tr_talla t = Some talla
       /\ 0 < Drainer.get_adu adu_df (tr_destino t) (tr_referencia t ++ talla).

(** What a transfer records of the call that made it. *)
Definition made_by (origen destino : string) (cantidad : Z)
    (referencia : string) (talla : option string) (t : Transfer) : Prop :=
  tr_origen t = origen /\ tr_destino t = destino /\ tr_unidades t = cantidad
  /\ tr_referencia t = referencia /\ tr_talla t = talla.

(** The shape of a transfer of each phase: who sends, who receives, how
    much, and for phases 2 and 3 which item. *)
Definition fase1_shape (bodega_principal : option string) (t : Transfer) : Prop :=
  (0 < tr_unidades t)%Z
  /\ tr_origen t <> tr_destino t
  /\ Engine.is_bodega bodega_principal (tr_destino t) = false.

Definition fase2_shape (adu_df : list AduRow) (bodega_principal : string)
    (t : Transfer) : Prop :=
  tr_origen t = bodega_principal
  /\ tr_destino t <> bodega_principal
  /\ (0 < tr_unidades t)%Z
  /\ exists talla,
       tr_talla t = Some talla /\ curve_size talla
       /\ Curve.ADU_MIN_THRESHOLD
          <= Curve.get_adu adu_df (tr_destino t) (tr_referencia t ++ talla).

Definition fase3_shape (adu_df : list AduRow) (bodega_principal : string)
    (t : Transfer) : Prop :=
  tr_origen t = bodega_principal
  /\ tr_destino t <> bodega_principal
  /\ (0 < tr_unidades t)%Z
  /\ String.length (tr_referencia t) = 7%nat
  /\ exists talla,
       tr_talla t = Some talla
       /\ 0 < Drainer.get_adu adu_df (tr_destino t) (tr_referencia t ++ talla).

(** ** traslados/adu_calculator.py *)

Definition with_ADU (r : StockRow) (a : option Q) : StockRow :=
  mkRow (Tienda r) (SKU r) (Referencia r) (Talla r) (Region r) (RegionID r)
        (IsEcom r) (MinObjetivo r) a (Existencia r).

Definition adu_matches (r : StockRow) (a : AduRow) : bool :=
  String.eqb (adu_Tienda a) (Tienda r) && String.eqb (adu_SKU a) (SKU r).

(** [df_stock.merge(adu_df, on=['Tienda', 'SKU'], how='left')] followed by
    [fillna(0.0)] on [ADU]: a stock row is repeated once per matching row of
    [adu_df], in the order of [adu_df], and kept once with velocity 0 when
    nothing matches.  The stock table has no [ADU] column before the merge,
    so the field of the input rows is not read; the column [Cobertura_dias]
    that the function adds is read by no phase and is left out. *)
Definition enrich_stock_with_adu (df_stock : list StockRow)
    (adu_df : list AduRow) : list StockRow :=
  flat_map (fun r =>
              match filter (adu_matches r) adu_df with
              | [] => [with_ADU r (Some 0)]
              | matches => map (fun a => with_ADU r (Some (adu_ADU a))) matches
              end)
           df_stock.

(** ** traslados/orchestrator.py: [TrasladosOrchestrator] *)

Module Orchestrator.

(** The values of the column [Fase]. *)
Inductive Fase := Fase_1_Base | Fase_2_Curvas | Fase_3_Drenaje.

(** [Series.str.contains('BODEGA|CEDI|PRINCIPAL', case=False, regex=True)],
    with the case folded on the letters a-z. *)
Definition name_matches (tienda : string) : bool :=
  let u := Py.upper tienda in
  Py.contains "BODEGA" u || Py.contains "CEDI" u || Py.contains "PRINCIPAL" u.

(** [Series.idxmax()]: the first label of the greatest value. *)
Definition idxmax (l : list (string * Q)) : option string :=
  match l with
  | [] => None
  | x :: rest =>
      Some (fst (fold_left (fun best y => if Py.Qltb (snd best) (snd y)
                                          then y else best)
                           rest x))
  end.

(** [candidatos.groupby('Tienda')['Existencia'].sum()]: one entry per store,
    in ascending order of the name. *)
Definition stock_por_tienda (candidatos : list StockRow) : list (string * Q) :=
  map (fun t => (t, total (filter (fun r => String.eqb (Tienda r) t) candidatos)))
      (Py.sort Py.str_ltb (Py.unique (map Tienda candidatos))).

Definition _detect_bodega_principal (df_stock : list StockRow) : option string :=
  let candidatos := filter (fun r => name_matches (Tienda r)) df_stock in
  match candidatos with
  | [] => None
  | _ => idxmax (stock_por_tienda candidatos)
  end.

Section WithConfig.

(** [self.adu_df] and [self.tiempos_df] as [__init__] leaves them; the
    computation of the velocities from the sales and the reading of the
    lead-time file are not part of the model. *)
Variable adu_df : list AduRow.
Variable tiempos_df : list TiempoRow.
Variable no_seed : bool.
Variable allow_seed_if_adu : bool.

(** [__init__]: the enriched table and the warehouse in use. *)
Definition init (df_stock : list StockRow) (bodega_principal : option string)
    : list StockRow * option string :=
  let df_stock := enrich_stock_with_adu df_stock adu_df in
  (df_stock,
   if negb (Py.truthy bodega_principal)
   then _detect_bodega_principal df_stock
   else bodega_principal).

Variable bodega_principal : option string.

(** Each phase returns [(self.df_stock, self.traslados_faseN)]. *)
Definition run_fase1_necesidades_base (df_stock : list StockRow)
    : list StockRow * list Transfer :=
  let engine := Engine.run_fase1 adu_df tiempos_df bodega_principal
                  no_seed allow_seed_if_adu df_stock in
  (stock_df engine, transfers engine).

Definition run_fase2_completar_curvas (df_stock : list StockRow)
    : list StockRow * list Transfer :=
  match bodega_principal with
  | Some b =>
      if negb (Py.truthy bodega_principal) then (df_stock, [])
      else Curve.run_fase2 adu_df b df_stock
  | None => (df_stock, [])
  end.

Definition run_fase3_drenar_bodega (df_stock : list StockRow) (safety_ratio : Q)
    : list StockRow * list Transfer :=
  match bodega_principal with
  | Some b =>
      if negb (Py.truthy bodega_principal) then (df_stock, [])
      else Drainer.run_fase3 adu_df b no_seed allow_seed_if_adu
             df_stock safety_ratio
  | None => (df_stock, [])
  end.

(** [run_all]: the transfers of the three phases, each with its [Fase], and
    the final stock table. *)
Definition run_all (df_stock : list StockRow)
    (enable_curvas enable_drenaje : bool) (safety_ratio : Q)
    : list (Fase * Transfer) * list StockRow :=
  let '(df_stock, traslados_fase1) := run_fase1_necesidades_base df_stock in
  let '(df_stock, traslados_fase2) :=
    if enable_curvas && Py.truthy bodega_principal
    then run_fase2_completar_curvas df_stock
    else (df_stock, []) in
  let '(df_stock, traslados_fase3) :=
    if enable_drenaje && Py.truthy bodega_principal
    then run_fase3_drenar_bodega df_stock safety_ratio
    else (df_stock, []) in
  (map (pair Fase_1_Base) traslados_fase1
   ++ map (pair Fase_2_Curvas) traslados_fase2
   ++ map (pair Fase_3_Drenaje) traslados_fase3,
   df_stock).

End WithConfig.
End Orchestrator.

(** What every transfer of a run records, whatever its phase. *)
Definition traslado_ok (bodega_principal : option string) (t : Transfer) : Prop :=
  (0 < tr_unidades t)%Z
  /\ tr_origen t <> tr_destino t
  /\ Engine.is_bodega bodega_principal (tr_destino t) = false
  /\ snapshots_ok t
  /\ (tr_destino_despues t <= Settings.MAX_STOCK_PER_SKU)%Z
  /\ (0 <= tr_origen_despues t)%Z.

(** What a transfer of a run records, by its phase. *)
Definition fase_ok (adu_df : list AduRow) (bodega_principal : option string)
    (ft : Orchestrator.Fase * Transfer) : Prop :=
  match fst ft with
  | Orchestrator.Fase_1_Base => fase1_ok bodega_principal (snd ft)
  | Orchestrator.Fase_2_Curvas =>
      exists b, bodega_designada bodega_principal = Some b
                /\ fase2_ok adu_df b (snd ft)
  | Orchestrator.Fase_3_Drenaje =>
      exists b, bodega_designada bodega_principal = Some b
                /\ fase3_ok adu_df b (snd ft)
  end.

(** The shape of a transfer of a run, by its phase: phases 2 and 3 run only
    when enabled and with a designated warehouse. *)
Definition fase_shape (adu_df : list AduRow) (bodega_principal : option string)
    (enable_curvas enable_drenaje : bool)
    (ft : Orchestrator.Fase * Transfer) : Prop :=
  match fst ft with
  | Orchestrator.Fase_1_Base => fase1_shape bodega_principal (snd ft)
  | Orchestrator.Fase_2_Curvas =>
      enable_curvas = true
      /\ exists b, bodega_designada bodega_principal = Some b
                   /\ fase2_shape adu_df b (snd ft)
  | Orchestrator.Fase_3_Drenaje =>
      enable_drenaje = true
      /\ exists b, bodega_designada bodega_principal = Some b
                   /\ fase3_shape adu_df b (snd ft)
  end.

(** ** core/normalization.py *)

Module Normalization.

(** [normalize_store_name] on a single name: [str(x).strip().upper()]. *)
Definition normalize_store_name (x : string) : string := Py.upper (Py.strip x).

(** [build_sku] on one row: [Referencia.fillna('') + Talla.fillna('')]. *)
Definition build_sku (referencia talla : option string) : string :=
  ((match referencia with Some r => r | None => EmptyString end)
   ++ (match talla with Some t => t | None => EmptyString end))%string.

End Normalization.

(** The rows of a store. *)
Definition store_rows (tienda : string) (rows : list StockRow) : list StockRow :=
  filter (fun r => String.eqb (Tienda r) tienda) rows.

(** The store holds the reference: one of its rows carries the reference
    with a positive quantity. *)
Definition holds_ref (rows : list StockRow) (tienda referencia : string) : Prop :=
  exists r, In r rows /\ Tienda r = tienda /\ Referencia r = referencia
            /\ 0 < Existencia r.

(** * Properties *)

Unset Implicit Arguments.

(** ** Binary64: rounding never yields NaN, and the order is total *)

Lemma shr_1_nonneg r : (0 <= shr_m r -> 0 <= shr_m (shr_1 r))%Z.
Proof.
  destruct r as [m b c]. simpl. intros H.
  destruct m as [|p|p]; [simpl; lia| |lia].
  destruct p; simpl; lia.
Qed.

Lemma iter_pos_inv (A : Type) (P : A -> Prop) (f : A -> A) :
  (forall x, P x -> P (f x)) -> forall n x, P x -> P (iter_pos f n x).
Proof.
  intros Hf. induction n as [n IH | n IH |]; intros x Hx; simpl; auto.
Qed.

Lemma shr_fexp_nonneg prec emax m e l :
  (0 <= m -> 0 <= shr_m (fst (shr_fexp prec emax m e l)))%Z.
Proof.
  intros Hm. unfold shr_fexp, shr.
  assert (H0 : (0 <= shr_m (shr_record_of_loc m l))%Z).
  { destruct l as [|[| |]]; simpl; exact Hm. }
  destruct (fexp prec emax (Zdigits2 m + e) - e)%Z; simpl; try exact H0.
  apply iter_pos_inv; [apply shr_1_nonneg | exact H0].
Qed.

Lemma round_nearest_even_nonneg m l : (0 <= m -> 0 <= round_nearest_even m l)%Z.
Proof.
  intros H. unfold round_nearest_even.
  destruct l as [|[| |]]; try lia. destruct (Z.even m); lia.
Qed.

Lemma binary_round_aux_not_nan prec emax sx mx ex lx :
  (0 <= mx)%Z -> binary_round_aux prec emax sx mx ex lx <> S754_nan.
Proof.
  intros H. unfold binary_round_aux.
  pose proof (shr_fexp_nonneg prec emax mx ex lx H) as H1.
  destruct (shr_fexp prec emax mx ex lx) as [mrs' e']. simpl in H1.
  pose proof (shr_fexp_nonneg prec emax _ e' loc_Exact
                (round_nearest_even_nonneg _ (loc_of_shr_record mrs') H1)) as H2.
  destruct (shr_fexp prec emax _ e' loc_Exact) as [mrs'' e'']. simpl in H2.
  destruct (shr_m mrs'') as [|p|p]; [discriminate| |lia].
  destruct (e'' <=? emax - prec)%Z; discriminate.
Qed.

Lemma binary_normalize_not_nan prec emax m e sz :
  binary_normalize prec emax m e sz <> S754_nan.
Proof.
  unfold binary_normalize, binary_round.
  destruct m as [|p|p]; [discriminate| |];
    destruct (shl_align _ _ _) as [mz ez];
    apply binary_round_aux_not_nan; lia.
Qed.

Lemma add_not_nan x y :
  B64.isfinite x = true -> B64.isfinite y = true -> B64.add x y <> S754_nan.
Proof.
  destruct x as [sx|sx| |sx mx ex]; try discriminate;
  destruct y as [sy|sy| |sy my ey]; try discriminate; intros _ _;
    unfold B64.add; simpl; try discriminate.
  - destruct sx, sy; discriminate.
  - apply binary_normalize_not_nan.
Qed.

Lemma SFcompare_antisym a b c :
  SFcompare a b = Some c -> SFcompare b a = Some (CompOpp c).
Proof.
  destruct a as [sa|sa| |sa ma ea]; destruct b as [sb|sb| |sb mb eb]; simpl;
    try discriminate; intros H; injection H as <-;
    try (destruct sa; reflexivity); try (destruct sb; reflexivity);
    try (destruct sa, sb; reflexivity).
  f_equal. destruct sa, sb; try reflexivity.
  - rewrite (Z.compare_antisym ea eb).
    destruct (ea ?= eb)%Z; simpl; try reflexivity.
    rewrite !Pos.compare_cont_spec. simpl.
    rewrite (Pos.compare_antisym ma mb). destruct (ma ?= mb)%positive; reflexivity.
  - rewrite (Z.compare_antisym ea eb).
    destruct (ea ?= eb)%Z; simpl; try reflexivity.
    rewrite !Pos.compare_cont_spec. simpl.
    rewrite (Pos.compare_antisym ma mb). destruct (ma ?= mb)%positive; reflexivity.
Qed.

Lemma SFleb_false_ltb a b :
  a <> S754_nan -> b <> S754_nan -> SFleb a b = false -> SFltb b a = true.
Proof.
  intros Ha Hb. unfold SFleb, SFltb.
  destruct (SFcompare a b) as [c|] eqn:E.
  - rewrite (SFcompare_antisym _ _ _ E). destruct c; simpl; congruence.
  - destruct a, b; simpl in E; try discriminate; congruence.
Qed.

Lemma isfinite_not_nan x : B64.isfinite x = true -> x <> S754_nan.
Proof. intros H ->. discriminate. Qed.

Lemma leb_false_ltb a b :
  a <> S754_nan -> b <> S754_nan -> B64.leb a b = false -> B64.ltb b a = true.
Proof. apply SFleb_false_ltb. Qed.

(** ** Keys, dictionaries and sorting *)

Lemma key_eqb_eq (a b : Key) : key_eqb a b = true <-> a = b.
Proof.
  destruct a as [a1 a2], b as [b1 b2]; unfold key_eqb; simpl.
  rewrite andb_true_iff, !String.eqb_eq.
  split; [intros [-> ->]; reflexivity | intros [= -> ->]; auto].
Qed.

Lemma key_eqb_refl (a : Key) : key_eqb a a = true.
Proof. apply key_eqb_eq; reflexivity. Qed.

Lemma key_eqb_neq (a b : Key) : key_eqb a b = false <-> a <> b.
Proof.
  rewrite <- key_eqb_eq. destruct (key_eqb a b); split; congruence.
Qed.

Lemma key_eqb_sym (a b : Key) : key_eqb a b = key_eqb b a.
Proof.
  destruct (key_eqb a b) eqn:E; symmetry.
  - apply key_eqb_eq in E; subst; apply key_eqb_refl.
  - apply key_eqb_neq; apply key_eqb_neq in E; congruence.
Qed.

Section DictFacts.
Variable V : Type.
Implicit Types (d : list (Key * V)) (k : Key).

Lemma get_set d k v k' :
  Py.get key_eqb (Py.set key_eqb d k v) k'
  = if key_eqb k' k then Some v else Py.get key_eqb d k'.
Proof.
  induction d as [|[k0 v0] d IH]; simpl.
  - reflexivity.
  - destruct (key_eqb k k0) eqn:E; simpl.
    + apply key_eqb_eq in E; subst k0.
      destruct (key_eqb k' k); reflexivity.
    + rewrite IH. destruct (key_eqb k' k0) eqn:E0; [|reflexivity].
      apply key_eqb_eq in E0; subst k0.
      rewrite key_eqb_sym, E; reflexivity.
Qed.

Lemma In_get d k v : In (k, v) d -> Py.mem key_eqb d k = true.
Proof.
  unfold Py.mem. induction d as [|[k0 v0] d IH]; simpl; [tauto|].
  intros [[= -> ->]|H].
  - rewrite key_eqb_refl; reflexivity.
  - destruct (key_eqb k k0); [reflexivity | auto].
Qed.
End DictFacts.

Section SortFacts.
Variables (A : Type) (lt : A -> A -> bool).

Lemma In_insert (x y : A) (l : list A) :
  In y (Py.insert lt x l) <-> y = x \/ In y l.
Proof.
  induction l as [|z l IH]; simpl.
  - intuition.
  - destruct (lt z x); simpl; rewrite ?IH; intuition.
Qed.

Lemma In_sort (y : A) (l : list A) : In y (Py.sort lt l) <-> In y l.
Proof.
  induction l as [|x l IH]; simpl; [tauto|].
  rewrite In_insert, IH. intuition.
Qed.
End SortFacts.

Lemma In_remove (x y : string) (l : list string) :
  In y (Py.remove x l) -> In y l.
Proof.
  induction l as [|z l IH]; simpl; [tauto|].
  destruct (String.eqb x z); simpl; intuition.
Qed.

(** ** The index describes the table *)

Lemma positions_from_app i k a b :
  positions_from i k (a ++ b)
  = positions_from i k a ++ positions_from (i + List.length a) k b.
Proof.
  revert i; induction a as [|r a IH]; intros i; simpl.
  - rewrite Nat.add_0_r; reflexivity.
  - rewrite IH, Nat.add_succ_r.
    destruct (key_eqb k (row_key r)); reflexivity.
Qed.

Lemma represents_snoc idx rows r :
  represents idx rows ->
  represents (idx_append idx (row_key r) (List.length rows)) (rows ++ [r]).
Proof.
  unfold represents, positions, idx_append. intros H k.
  rewrite positions_from_app; simpl.
  rewrite (H (row_key r)).
  destruct (key_eqb k (row_key r)) eqn:E.
  - apply key_eqb_eq in E; subst k.
    destruct (positions_from 0 (row_key r) rows) eqn:P; simpl;
      rewrite get_set, key_eqb_refl; reflexivity.
  - rewrite app_nil_r, <- (H k).
    destruct (positions_from 0 (row_key r) rows); rewrite get_set, E; reflexivity.
Qed.

Lemma build_indexes_from_represents rows : forall pre idx,
  represents idx pre ->
  represents (build_indexes_from (List.length pre) rows idx) (pre ++ rows).
Proof.
  induction rows as [|r rows IH]; intros pre idx H; simpl.
  - rewrite app_nil_r; exact H.
  - replace (pre ++ r :: rows) with ((pre ++ [r]) ++ rows)
      by (rewrite <- app_assoc; reflexivity).
    replace (S (List.length pre)) with (List.length (pre ++ [r]))
      by (rewrite length_app; simpl; lia).
    apply IH, represents_snoc, H.
Qed.

Lemma build_indexes_represents rows : represents (build_indexes rows) rows.
Proof.
  apply (build_indexes_from_represents rows []).
  intros k; reflexivity.
Qed.

Lemma In_positions_from i j k rows :
  In i (positions_from j k rows) <->
  (j <= i)%nat /\ exists r, nth_error rows (i - j) = Some r
                            /\ key_eqb k (row_key r) = true.
Proof.
  revert j; induction rows as [|r rows IH]; intros j; simpl.
  - split; [tauto|]. intros [_ [r [H _]]]. destruct (i - j)%nat; discriminate.
  - assert (Hrec : In i (positions_from (S j) k rows) <->
                   (j < i)%nat /\ exists r0, nth_error rows (i - S j) = Some r0
                                      /\ key_eqb k (row_key r0) = true)
      by (rewrite IH; intuition lia).
    destruct (Nat.eq_dec i j) as [->|Hne].
    + rewrite Nat.sub_diag; simpl.
      destruct (key_eqb k (row_key r)) eqn:E.
      * split; [intros _; split; [lia|exists r; auto] | intros _; left; reflexivity].
      * rewrite Hrec. split; [intros [? _]; lia|].
        intros [_ [r0 [[= <-] H0]]]; congruence.
    + assert (Hcase : forall P : Prop,
                (j <= i)%nat /\ (exists r0, nth_error (r :: rows) (i - j) = Some r0
                                     /\ key_eqb k (row_key r0) = true) <->
                (j < i)%nat /\ (exists r0, nth_error rows (i - S j) = Some r0
                                    /\ key_eqb k (row_key r0) = true)).
      { intros _. split; intros [Hle [r0 [Hn Hk]]].
        - split; [lia|]. exists r0; split; [|exact Hk].
          replace (i - j)%nat with (S (i - S j)) in Hn by lia. exact Hn.
        - split; [lia|]. exists r0; split; [|exact Hk].
          replace (i - j)%nat with (S (i - S j)) by lia. exact Hn. }
      rewrite (Hcase True), <- Hrec.
      destruct (key_eqb k (row_key r)); simpl; intuition congruence.
Qed.

Lemma existsb_positions i k rows r :
  nth_error rows i = Some r ->
  existsb (Nat.eqb i) (positions k rows) = key_eqb k (row_key r).
Proof.
  intros Hn. destruct (key_eqb k (row_key r)) eqn:E.
  - apply existsb_exists. exists i; split; [|apply Nat.eqb_refl].
    apply In_positions_from. split; [lia|]. exists r.
    rewrite Nat.sub_0_r; auto.
  - apply not_true_is_false. intros H.
    apply existsb_exists in H. destruct H as [j [Hin Hj]].
    apply Nat.eqb_eq in Hj; subst j.
    apply In_positions_from in Hin. destruct Hin as [_ [r0 [Hn0 Hk]]].
    rewrite Nat.sub_0_r in Hn0. congruence.
Qed.

Lemma loc_update_from_key k f rows : forall pre,
  loc_update_from (List.length pre) (positions k (pre ++ rows)) f rows
  = map (update_key k f) rows.
Proof.
  induction rows as [|r rows IH]; intros pre; simpl; [reflexivity|].
  rewrite (existsb_positions (List.length pre) k (pre ++ r :: rows) r)
    by (rewrite nth_error_app2, Nat.sub_diag by lia; reflexivity).
  f_equal.
  specialize (IH (pre ++ [r])).
  rewrite length_app, <- app_assoc in IH; simpl in IH.
  rewrite Nat.add_1_r in IH. exact IH.
Qed.

Lemma loc_update_key k f rows :
  loc_update (positions k rows) f rows = map (update_key k f) rows.
Proof. apply (loc_update_from_key k f rows []). Qed.

Lemma row_key_update_key k f r : row_key (update_key k f r) = row_key r.
Proof. unfold update_key; destruct (key_eqb k (row_key r)); reflexivity. Qed.

Lemma positions_from_update_key k' k f rows : forall i,
  positions_from i k' (map (update_key k f) rows) = positions_from i k' rows.
Proof.
  induction rows as [|r rows IH]; intros i; simpl; [reflexivity|].
  rewrite row_key_update_key, !IH; reflexivity.
Qed.

Lemma represents_update_key idx k f rows :
  represents idx rows -> represents idx (map (update_key k f) rows).
Proof.
  intros H k'. unfold positions. rewrite positions_from_update_key. apply H.
Qed.

Lemma wf_get s k l :
  wf s -> Py.get key_eqb (idx_tienda_sku s) k = Some l ->
  l = positions k (stock_df s) /\ l <> [].
Proof.
  intros H Hg. rewrite (H k) in Hg.
  destruct (positions k (stock_df s)); [discriminate|].
  injection Hg as <-. split; [reflexivity | discriminate].
Qed.

Lemma wf_get_none s k :
  wf s -> Py.get key_eqb (idx_tienda_sku s) k = None ->
  positions k (stock_df s) = [].
Proof.
  intros H Hg. rewrite (H k) in Hg.
  destruct (positions k (stock_df s)); [reflexivity | discriminate].
Qed.

(** ** What one transfer does to the total *)

Lemma total_app a b : total (a ++ b) == total a + total b.
Proof.
  induction a as [|r a IH]; simpl.
  - ring.
  - rewrite IH. ring.
Qed.

Lemma length_positions_from k rows : forall i j,
  List.length (positions_from i k rows) = List.length (positions_from j k rows).
Proof.
  induction rows as [|r rows IH]; intros i j; simpl; [reflexivity|].
  destruct (key_eqb k (row_key r)); simpl; rewrite (IH (S i) (S j)); reflexivity.
Qed.

Lemma len_Q_cons i l : len_Q (i :: l) == len_Q l + 1.
Proof.
  unfold len_Q. cbn [List.length].
  rewrite Nat2Z.inj_succ, <- Z.add_1_r, inject_Z_plus. reflexivity.
Qed.

Lemma len_Q_nonzero l : l <> [] -> ~ len_Q l == 0.
Proof.
  destruct l as [|i l]; [congruence|]. intros _ H.
  unfold len_Q, Qeq in H; simpl in H. lia.
Qed.

Lemma total_update_key k f d rows :
  (forall e, f e == e + d) ->
  total (map (update_key k f) rows)
  == total rows + len_Q (positions k rows) * d.
Proof.
  intros Hf. unfold positions.
  induction rows as [|r rows IH]; simpl.
  - unfold len_Q; simpl. ring.
  - rewrite IH. unfold update_key.
    destruct (key_eqb k (row_key r)); simpl.
    + rewrite len_Q_cons, Hf.
      unfold len_Q.
      rewrite (length_positions_from k rows 1 0). ring.
    + unfold len_Q.
      rewrite (length_positions_from k rows 1 0). ring.
Qed.

Lemma conserves_refl s : wf s -> conserves s s.
Proof. intros H; split; [exact H | split; [reflexivity | auto]]. Qed.

Lemma conserves_trans s1 s2 s3 :
  conserves s1 s2 -> conserves s2 s3 -> conserves s1 s3.
Proof.
  intros (_ & T12 & K12) (W3 & T23 & K23).
  split; [exact W3 | split; [rewrite T23; exact T12 | auto]].
Qed.

Lemma update_origen_total s origen sku cantidad :
  wf s ->
  let s' := update_origen s origen sku cantidad in
  wf s'
  /\ idx_tienda_sku s' = idx_tienda_sku s
  /\ transfers s' = transfers s
  /\ total (stock_df s')
     == total (stock_df s)
        - (if Py.mem key_eqb (idx_tienda_sku s) (origen, sku)
           then inject_Z cantidad else 0).
Proof.
  intros W. unfold update_origen, Py.mem.
  destruct (Py.get key_eqb (idx_tienda_sku s) (origen, sku)) as [l|] eqn:G; simpl.
  - destruct (wf_get s _ _ W G) as [-> Hne].
    rewrite loc_update_key.
    split; [|split; [reflexivity|split; [reflexivity|]]].
    + apply represents_update_key, W.
    + rewrite (total_update_key (origen, sku)
                 (fun e => e - inject_Z cantidad / len_Q (positions (origen, sku) (stock_df s)))
                 (- (inject_Z cantidad / len_Q (positions (origen, sku) (stock_df s))))).
      * pose proof (len_Q_nonzero _ Hne). field. assumption.
      * intros e. ring.
  - split; [exact W|split; [reflexivity|split; [reflexivity|ring]]].
Qed.

Lemma update_destino_total s destino sku cantidad r :
  wf s ->
  row_key r = (destino, sku) ->
  Existencia r == inject_Z cantidad ->
  let s' := update_destino s destino sku cantidad r in
  wf s'
  /\ transfers s' = transfers s
  /\ total (stock_df s') == total (stock_df s) + inject_Z cantidad
  /\ forall k, Py.mem key_eqb (idx_tienda_sku s) k = true ->
               Py.mem key_eqb (idx_tienda_sku s') k = true.
Proof.
  intros W Hk He. unfold update_destino.
  destruct (Py.get key_eqb (idx_tienda_sku s) (destino, sku)) as [l|] eqn:G; simpl.
  - destruct (wf_get s _ _ W G) as [-> Hne].
    rewrite loc_update_key.
    split; [|split; [reflexivity|split]].
    + apply represents_update_key, W.
    + rewrite (total_update_key (destino, sku)
                 (fun e => e + inject_Z cantidad / len_Q (positions (destino, sku) (stock_df s)))
                 (inject_Z cantidad / len_Q (positions (destino, sku) (stock_df s)))).
      * pose proof (len_Q_nonzero _ Hne). field. assumption.
      * intros e. ring.
    + auto.
  - split; [|split; [reflexivity|split]].
    + intros k. pose proof (wf_get_none s _ W G) as P.
      unfold wf, represents in W. simpl.
      rewrite get_set. unfold positions in *. rewrite positions_from_app; simpl.
      rewrite Hk, (W k).
      destruct (key_eqb k (destino, sku)) eqn:E.
      * apply key_eqb_eq in E; subst k.
        rewrite P. reflexivity.
      * rewrite app_nil_r. reflexivity.
    + rewrite total_app; simpl. rewrite He. ring.
    + intros k. unfold Py.mem. rewrite get_set.
      destruct (key_eqb k (destino, sku)); auto.
Qed.

(** The shared core of the three [execute_transfer]. *)
Lemma move_conserves s origen destino sku cantidad r t :
  wf s ->
  Py.mem key_eqb (idx_tienda_sku s) (origen, sku) = true ->
  row_key r = (destino, sku) ->
  Existencia r == inject_Z cantidad ->
  conserves s
    (record_transfer
       (update_destino (update_origen s origen sku cantidad) destino sku cantidad r)
       t).
Proof.
  intros W Ho Hk He.
  destruct (update_origen_total s origen sku cantidad W) as (W1 & I1 & _ & T1).
  destruct (update_destino_total (update_origen s origen sku cantidad)
              destino sku cantidad r W1 Hk He) as (W2 & _ & T2 & K2).
  rewrite Ho in T1.
  split; [|split].
  - exact W2.
  - simpl. rewrite T2, T1. ring.
  - intros k Hm. simpl. apply K2. rewrite I1. exact Hm.
Qed.

(** ** What one transfer does to each key *)

Lemma key_total_update_key k' k f d rows :
  (forall e, f e == e + d) ->
  key_total k' (map (update_key k f) rows)
  == key_total k' rows
     + (if key_eqb k k' then len_Q (positions k rows) * d else 0).
Proof.
  intros Hf. unfold key_total, positions.
  destruct (key_eqb k k') eqn:Ekk.
  - apply key_eqb_eq in Ekk. subst k'.
    induction rows as [|r rows IH]; simpl.
    + unfold len_Q; simpl; ring.
    + rewrite row_key_update_key.
      assert (Hlen : len_Q (positions_from 1 k rows) == len_Q (positions_from 0 k rows))
        by (unfold len_Q; rewrite (length_positions_from k rows 1 0); reflexivity).
      unfold update_key at 1.
      destruct (key_eqb k (row_key r)); simpl.
      * rewrite IH, len_Q_cons, Hlen, Hf. ring.
      * rewrite IH, Hlen. reflexivity.
  - induction rows as [|r rows IH]; simpl; [ring|].
    rewrite row_key_update_key.
    unfold update_key at 1.
    destruct (key_eqb k' (row_key r)) eqn:E'; simpl; [|exact IH].
    replace (key_eqb k (row_key r)) with false.
    + rewrite IH. ring.
    + symmetry. apply key_eqb_neq. apply key_eqb_eq in E'.
      apply key_eqb_neq in Ekk. congruence.
Qed.

Lemma key_total_snoc k rows r :
  key_total k (rows ++ [r])
  == key_total k rows + (if key_eqb k (row_key r) then Existencia r else 0).
Proof.
  unfold key_total. rewrite filter_app, total_app; simpl.
  destruct (key_eqb k (row_key r)); simpl; ring.
Qed.

Lemma key_total_positions_nil k rows :
  positions k rows = [] -> key_total k rows == 0.
Proof.
  unfold key_total, positions. generalize 0%nat.
  induction rows as [|r rows IH]; intros i; simpl; [reflexivity|].
  destruct (key_eqb k (row_key r)); [discriminate | apply IH].
Qed.

Lemma update_origen_key_total s origen sku cantidad k :
  wf s ->
  Py.mem key_eqb (idx_tienda_sku s) (origen, sku) = true ->
  key_total k (stock_df (update_origen s origen sku cantidad))
  == key_total k (stock_df s)
     - (if key_eqb (origen, sku) k then inject_Z cantidad else 0).
Proof.
  intros W. unfold update_origen, Py.mem.
  destruct (Py.get key_eqb (idx_tienda_sku s) (origen, sku)) as [l|] eqn:G;
    [|discriminate].
  intros _. destruct (wf_get s _ _ W G) as [-> Hne]. simpl.
  rewrite loc_update_key.
  rewrite (key_total_update_key k (origen, sku)
             (fun e => e - inject_Z cantidad / len_Q (positions (origen, sku) (stock_df s)))
             (- (inject_Z cantidad / len_Q (positions (origen, sku) (stock_df s)))))
    by (intros e; ring).
  destruct (key_eqb (origen, sku) k); [|ring].
  pose proof (len_Q_nonzero _ Hne). field. assumption.
Qed.

Lemma update_destino_key_total s destino sku cantidad r k :
  wf s ->
  row_key r = (destino, sku) ->
  Existencia r == inject_Z cantidad ->
  key_total k (stock_df (update_destino s destino sku cantidad r))
  == key_total k (stock_df s)
     + (if key_eqb (destino, sku) k then inject_Z cantidad else 0).
Proof.
  intros W Hk He. unfold update_destino.
  destruct (Py.get key_eqb (idx_tienda_sku s) (destino, sku)) as [l|] eqn:G; simpl.
  - destruct (wf_get s _ _ W G) as [-> Hne].
    rewrite loc_update_key.
    rewrite (key_total_update_key k (destino, sku)
               (fun e => e + inject_Z cantidad / len_Q (positions (destino, sku) (stock_df s)))
               (inject_Z cantidad / len_Q (positions (destino, sku) (stock_df s))))
      by (intros e; ring).
    destruct (key_eqb (destino, sku) k); [|ring].
    pose proof (len_Q_nonzero _ Hne). field. assumption.
  - rewrite key_total_snoc, Hk, (key_eqb_sym k (destino, sku)).
    destruct (key_eqb (destino, sku) k); [rewrite He|]; reflexivity.
Qed.

(** The shared core of the three [execute_transfer], key by key. *)
Lemma move_moved_exactly s origen destino sku cantidad r t :
  wf s ->
  Py.mem key_eqb (idx_tienda_sku s) (origen, sku) = true ->
  origen <> destino ->
  row_key r = (destino, sku) ->
  Existencia r == inject_Z cantidad ->
  moved_exactly s
    (record_transfer
       (update_destino (update_origen s origen sku cantidad) destino sku cantidad r)
       t)
    origen destino sku cantidad.
Proof.
  intros W Ho Hod Hk He.
  destruct (update_origen_total s origen sku cantidad W) as (W1 & _).
  assert (Hkey : forall k,
            key_total k (stock_df (update_destino (update_origen s origen sku cantidad)
                                     destino sku cantidad r))
            == key_total k (stock_df s)
               - (if key_eqb (origen, sku) k then inject_Z cantidad else 0)
               + (if key_eqb (destino, sku) k then inject_Z cantidad else 0)).
  { intros k.
    rewrite (update_destino_key_total _ destino sku cantidad r k W1 Hk He).
    rewrite (update_origen_key_total s origen sku cantidad k W Ho). reflexivity. }
  assert (Hne : key_eqb (origen, sku) (destino, sku) = false)
    by (apply key_eqb_neq; congruence).
  unfold moved_exactly. cbn [stock_df record_transfer].
  split; [|split].
  - rewrite Hkey, key_eqb_refl, (key_eqb_sym (destino, sku)), Hne. ring.
  - rewrite Hkey, key_eqb_refl, Hne. ring.
  - intros k Hko Hkd. rewrite Hkey.
    replace (key_eqb (origen, sku) k) with false
      by (symmetry; apply key_eqb_neq; congruence).
    replace (key_eqb (destino, sku) k) with false
      by (symmetry; apply key_eqb_neq; congruence).
    ring.
Qed.

(** ** Conservation through phase 1 *)

Section EngineConservation.
Variable adu_df : list AduRow.
Variable tiempos_df : list TiempoRow.
Variable bodega_principal : option string.
Variables no_seed allow_seed_if_adu : bool.

Let execute_transfer := Engine.execute_transfer adu_df no_seed allow_seed_if_adu.
Let rank_origins_for_sku := Engine.rank_origins_for_sku tiempos_df bodega_principal.

Lemma engine_new_row_key s tienda sku referencia talla cantidad :
  row_key (Engine._create_new_stock_row adu_df s tienda sku referencia talla cantidad)
  = (tienda, sku)
  /\ Existencia (Engine._create_new_stock_row adu_df s tienda sku referencia talla cantidad)
     = inject_Z cantidad.
Proof.
  unfold Engine._create_new_stock_row.
  destruct (filter _ (stock_df s)); split; reflexivity.
Qed.

Lemma engine_execute_transfer_conserves s origen destino sku cantidad ref talla :
  wf s ->
  Py.mem key_eqb (idx_tienda_sku s) (origen, sku) = true ->
  conserves s (snd (execute_transfer s origen destino sku cantidad ref talla)).
Proof.
  intros W Ho. unfold execute_transfer, Engine.execute_transfer.
  destruct (negb _ && negb _); simpl.
  - apply conserves_refl, W.
  - destruct (engine_new_row_key (update_origen s origen sku cantidad)
                destino sku ref talla cantidad) as [Hk He].
    apply move_conserves; [exact W | exact Ho | exact Hk | rewrite He; reflexivity].
Qed.

Lemma engine_execute_transfer_moved s s' origen destino sku cantidad ref talla :
  wf s ->
  Py.mem key_eqb (idx_tienda_sku s) (origen, sku) = true ->
  origen <> destino ->
  execute_transfer s origen destino sku cantidad ref talla = (true, s') ->
  moved_exactly s s' origen destino sku cantidad.
Proof.
  intros W Ho Hod. unfold execute_transfer, Engine.execute_transfer.
  destruct (negb _ && negb _); [discriminate|].
  intros [= <-].
  destruct (engine_new_row_key (update_origen s origen sku cantidad)
              destino sku ref talla cantidad) as [Hk He].
  apply move_moved_exactly; [exact W | exact Ho | exact Hod | exact Hk
                            | rewrite He; reflexivity].
Qed.

(** Every ranked origin passed the filter of the candidate loop, and so
    is a key of the index. *)
Lemma rank_origins_candidate s sku dest ref o :
  In o (rank_origins_for_sku s sku dest ref) ->
  Engine.is_candidate bodega_principal s sku dest (o, sku) = true
  /\ Py.mem key_eqb (idx_tienda_sku s) (o, sku) = true.
Proof.
  unfold rank_origins_for_sku, Engine.rank_origins_for_sku.
  set (cands := map (fun e => fst (fst e))
                    (filter (fun e => Engine.is_candidate bodega_principal s sku dest (fst e))
                            (idx_tienda_sku s))).
  set (sorted := map snd (Py.sort _ _)).
  assert (Hsorted : In o sorted -> In o cands).
  { unfold sorted. rewrite in_map_iff. intros [[kx x] [<- Hx]].
    apply In_sort in Hx. apply in_map_iff in Hx.
    destruct Hx as [y [[= _ ->] Hy]]. exact Hy. }
  assert (Hres : In o sorted ->
                 Engine.is_candidate bodega_principal s sku dest (o, sku) = true
                 /\ Py.mem key_eqb (idx_tienda_sku s) (o, sku) = true).
  { intros Hin. apply Hsorted in Hin. unfold cands in Hin.
    apply in_map_iff in Hin. destruct Hin as [[[t k] l] [Ht Hf]].
    simpl in Ht; subst t. apply filter_In in Hf. destruct Hf as [Hin Hc].
    simpl in Hc.
    assert (k = sku) as ->.
    { unfold Engine.is_candidate in Hc.
      destruct (String.eqb k sku) eqn:E; [apply String.eqb_eq, E|discriminate]. }
    split; [exact Hc | eapply In_get, Hin]. }
  destruct bodega_principal as [b|]; [|exact Hres].
  destruct (Py.truthy (Some b) && existsb (String.eqb b) sorted) eqn:E;
    [|exact Hres].
  intros [<-|Hin].
  - apply andb_true_iff in E. destruct E as [_ E].
    apply existsb_exists in E. destruct E as [x [Hx Hbx]].
    apply String.eqb_eq in Hbx; subst x. auto.
  - apply Hres. eapply In_remove, Hin.
Qed.

Lemma engine_fill_conserves tienda sku ref talla : forall origins s gap,
  wf s ->
  (forall o, In o origins -> Py.mem key_eqb (idx_tienda_sku s) (o, sku) = true) ->
  conserves s (fst (Engine.fill_from_origins adu_df bodega_principal
                      no_seed allow_seed_if_adu origins tienda sku ref talla s gap)).
Proof.
  induction origins as [|o origins IH]; intros s gap W Hin; simpl.
  - apply conserves_refl, W.
  - assert (Hrest : forall g, conserves s
              (fst (Engine.fill_from_origins adu_df bodega_principal
                      no_seed allow_seed_if_adu origins tienda sku ref talla s g)))
      by (intros g; apply IH; [exact W | intros; apply Hin; right; assumption]).
    destruct (gap <=? 0)%Z; [apply conserves_refl, W|].
    destruct (Engine.allowed_to_send bodega_principal s o sku <=? 0)%Z; [apply Hrest|].
    match goal with |- context [(0 <? ?q)%Z] => set (qty := q) end.
    destruct (0 <? qty)%Z; [|apply Hrest].
    pose proof (engine_execute_transfer_conserves s o tienda sku qty ref talla W
                  (Hin o (or_introl eq_refl))) as C.
    unfold execute_transfer in C.
    destruct (Engine.execute_transfer adu_df no_seed allow_seed_if_adu
                s o tienda sku qty ref talla) as [success s'].
    simpl in C. destruct C as (W' & T' & K').
    assert (Hin' : forall o', In o' origins ->
                     Py.mem key_eqb (idx_tienda_sku s') (o', sku) = true)
      by (intros o' Ho'; apply K', Hin; right; exact Ho').
    destruct success;
      (eapply conserves_trans; [split; [exact W'|split; [exact T'|exact K']]
                               | apply IH; assumption]).
Qed.

Lemma engine_process_need_conserves s need :
  wf s ->
  conserves s (Engine.process_need adu_df tiempos_df bodega_principal
                 no_seed allow_seed_if_adu s need).
Proof.
  intros W. unfold Engine.process_need.
  destruct (negb _ && negb _); [apply conserves_refl, W|].
  destruct (Engine.rank_origins_for_sku tiempos_df bodega_principal s
              (n_SKU need) (n_Tienda need) (n_Referencia need)) as [|o os] eqn:R.
  - apply conserves_refl, W.
  - apply engine_fill_conserves; [exact W|].
    intros o' Ho'. eapply rank_origins_candidate.
    unfold rank_origins_for_sku. rewrite R. exact Ho'.
Qed.

Lemma engine_process_base_needs_conserves needs : forall s,
  wf s ->
  conserves s (Engine.process_base_needs adu_df tiempos_df bodega_principal
                 no_seed allow_seed_if_adu needs s).
Proof.
  unfold Engine.process_base_needs.
  induction needs as [|need needs IH]; intros s W; simpl.
  - apply conserves_refl, W.
  - pose proof (engine_process_need_conserves s need W) as C.
    eapply conserves_trans; [exact C|]. apply IH. apply C.
Qed.

Lemma engine_init_total stock :
  wf (Engine.init bodega_principal stock)
  /\ total (stock_df (Engine.init bodega_principal stock)) == total stock.
Proof.
  split; [apply build_indexes_represents|].
  simpl. induction stock as [|r stock IH]; simpl; [reflexivity|].
  rewrite IH. unfold Engine.init_row.
  destruct (Engine.is_bodega bodega_principal (Tienda r)); simpl; reflexivity.
Qed.

Lemma run_fase1_total stock :
  total (stock_df (Engine.run_fase1 adu_df tiempos_df bodega_principal
                     no_seed allow_seed_if_adu stock))
  == total stock.
Proof.
  unfold Engine.run_fase1.
  destruct (engine_init_total stock) as [W T].
  destruct (engine_process_base_needs_conserves
              (Engine.identify_base_needs bodega_principal
                 (Engine.init bodega_principal stock))
              _ W) as (_ & T' & _).
  rewrite T'. exact T.
Qed.

End EngineConservation.

(** ** Conservation through phase 2 *)

Section CurveConservation.
Variable adu_df : list AduRow.
Variable bodega_principal : string.

Lemma curve_execute_transfer_conserves s origen destino sku cantidad ref talla :
  wf s ->
  conserves s (snd (Curve.execute_transfer adu_df s origen destino sku cantidad ref talla)).
Proof.
  intros W. unfold Curve.execute_transfer.
  destruct (Py.mem key_eqb (idx_tienda_sku s) (origen, sku)) eqn:Ho; simpl.
  - destruct (get_stock s origen sku <? cantidad)%Z; simpl.
    + apply conserves_refl, W.
    + apply move_conserves; [exact W | exact Ho | reflexivity | reflexivity].
  - apply conserves_refl, W.
Qed.

Lemma curve_execute_transfer_moved s s' origen destino sku cantidad ref talla :
  wf s ->
  origen <> destino ->
  Curve.execute_transfer adu_df s origen destino sku cantidad ref talla = (true, s') ->
  moved_exactly s s' origen destino sku cantidad.
Proof.
  intros W Hod. unfold Curve.execute_transfer.
  destruct (Py.mem key_eqb (idx_tienda_sku s) (origen, sku)) eqn:Ho; simpl;
    [|discriminate].
  destruct (get_stock s origen sku <? cantidad)%Z; [discriminate|].
  intros [= <-].
  apply move_moved_exactly; [exact W | exact Ho | exact Hod | reflexivity | reflexivity].
Qed.

Lemma curve_complete_tallas_conserves tienda ref : forall tallas s,
  wf s ->
  conserves s (Curve.complete_tallas adu_df bodega_principal tallas tienda ref s).
Proof.
  induction tallas as [|talla tallas IH]; intros s W; simpl.
  - apply conserves_refl, W.
  - destruct (Curve.get_bodega_total bodega_principal s <=? 0)%Z;
      [apply conserves_refl, W|].
    destruct (Z.min _ _ <=? 0)%Z; [apply IH, W|].
    destruct (get_stock s bodega_principal (ref ++ talla) <=? 0)%Z; [apply IH, W|].
    destruct (0 <? _)%Z; [|apply IH, W].
    match goal with |- context [Curve.execute_transfer ?a ?b ?c ?d ?e ?f ?g ?h] =>
      pose proof (curve_execute_transfer_conserves b c d e f g h W) as C end.
    eapply conserves_trans; [exact C|]. apply IH, C.
Qed.

Lemma curve_complete_refs_conserves tienda : forall refs s,
  wf s ->
  conserves s (Curve.complete_refs adu_df bodega_principal refs tienda s).
Proof.
  induction refs as [|ref refs IH]; intros s W; simpl.
  - apply conserves_refl, W.
  - destruct (Curve.get_bodega_total bodega_principal s <=? 0)%Z;
      [apply conserves_refl, W|].
    destruct (Curve.get_rango_for_ref s tienda ref) as [rango|]; [|apply IH, W].
    pose proof (curve_complete_tallas_conserves tienda ref
                  (Curve.get_candidate_tallas adu_df s tienda ref rango) s W) as C.
    eapply conserves_trans; [exact C|]. apply IH, C.
Qed.

Lemma curve_complete_stores_conserves : forall stores s,
  wf s ->
  conserves s (Curve.complete_stores adu_df bodega_principal stores s).
Proof.
  induction stores as [|tienda stores IH]; intros s W; simpl.
  - apply conserves_refl, W.
  - destruct (Curve.get_bodega_total bodega_principal s <=? 0)%Z;
      [apply conserves_refl, W|].
    pose proof (curve_complete_refs_conserves tienda
                  (Curve.refs_by_adu adu_df s tienda) s W) as C.
    eapply conserves_trans; [exact C|]. apply IH, C.
Qed.

Lemma run_fase2_total stock :
  total (fst (Curve.run_fase2 adu_df bodega_principal stock)) == total stock.
Proof.
  unfold Curve.run_fase2, Curve.complete_curves.
  destruct (Curve.get_bodega_total bodega_principal (Curve.init stock) <=? 0)%Z;
    simpl; [reflexivity|].
  apply (curve_complete_stores_conserves
           (Curve.prioritize_stores adu_df bodega_principal (Curve.init stock))
           (Curve.init stock)).
  apply build_indexes_represents.
Qed.

End CurveConservation.

(** ** Conservation and the drain budget through phase 3 *)

Section DrainerFacts.
Variable adu_df : list AduRow.
Variable bodega_principal : string.
Variables no_seed allow_seed_if_adu : bool.

Lemma units_app a b : units (a ++ b) = (units a + units b)%Z.
Proof.
  unfold units. induction a as [|t a IH]; simpl; [reflexivity|].
  rewrite IH. lia.
Qed.

Lemma drainer_execute_transfer_conserves s origen destino sku cantidad ref talla :
  wf s ->
  conserves s (snd (Drainer.execute_transfer adu_df s origen destino sku cantidad ref talla)).
Proof.
  intros W. unfold Drainer.execute_transfer.
  destruct (Py.mem key_eqb (idx_tienda_sku s) (origen, sku)) eqn:Ho; simpl.
  - apply move_conserves; [exact W | exact Ho | reflexivity | reflexivity].
  - apply conserves_refl, W.
Qed.

Lemma drainer_execute_transfer_moved s s' origen destino sku cantidad ref talla :
  wf s ->
  origen <> destino ->
  Drainer.execute_transfer adu_df s origen destino sku cantidad ref talla = (true, s') ->
  moved_exactly s s' origen destino sku cantidad.
Proof.
  intros W Hod. unfold Drainer.execute_transfer.
  destruct (Py.mem key_eqb (idx_tienda_sku s) (origen, sku)) eqn:Ho; simpl;
    [|discriminate].
  intros [= <-].
  apply move_moved_exactly; [exact W | exact Ho | exact Hod | reflexivity | reflexivity].
Qed.

(** A successful transfer appends exactly one record, of the quantity asked;
    a refused one appends none. *)
Lemma drainer_execute_transfer_units s origen destino sku cantidad ref talla :
  let '(success, s') :=
    Drainer.execute_transfer adu_df s origen destino sku cantidad ref talla in
  units (transfers s')
  = (units (transfers s) + (if success then cantidad else 0))%Z
  /\ exists new, transfers s' = transfers s ++ new
                 /\ Forall (fun t => tr_unidades t = cantidad) new.
Proof.
  unfold Drainer.execute_transfer.
  destruct (Py.mem key_eqb (idx_tienda_sku s) (origen, sku)); simpl.
  - unfold update_destino, update_origen.
    destruct (Py.get key_eqb (idx_tienda_sku s) (origen, sku)); simpl;
      destruct (Py.get key_eqb (idx_tienda_sku s) (destino, sku)); simpl;
      (split; [rewrite units_app; unfold units; simpl; lia
              | eexists; split; [reflexivity | repeat constructor]]).
  - split; [lia | exists []; split; [rewrite app_nil_r; reflexivity | constructor]].
Qed.

Lemma drain_step_ok_refl max_drain s drained :
  wf s -> (drained <= max_drain)%Z ->
  drain_step_ok max_drain s drained (s, drained).
Proof.
  intros W H. unfold drain_step_ok; simpl.
  split; [apply conserves_refl, W|]. split; [lia|]. split; [lia|].
  exists []. rewrite app_nil_r. split; [reflexivity | constructor].
Qed.

Lemma drain_step_ok_trans max_drain s1 d1 s2 d2 res :
  drain_step_ok max_drain s1 d1 (s2, d2) ->
  drain_step_ok max_drain s2 d2 res ->
  drain_step_ok max_drain s1 d1 res.
Proof.
  unfold drain_step_ok; simpl.
  intros (C1 & B1 & U1 & n1 & E1 & F1) (C2 & B2 & U2 & n2 & E2 & F2).
  split; [eapply conserves_trans; eassumption|].
  split; [lia|]. split; [lia|].
  exists (n1 ++ n2). split.
  - rewrite E2, E1, app_assoc. reflexivity.
  - apply Forall_app; auto.
Qed.

Lemma drain_destinos_ok sku ref talla max_drain : forall destinos s drained qty_disponible,
  wf s -> (drained <= max_drain)%Z ->
  drain_step_ok max_drain s drained
    (Drainer.drain_destinos adu_df bodega_principal no_seed allow_seed_if_adu
       destinos sku ref talla max_drain s drained qty_disponible).
Proof.
  induction destinos as [|[tienda adu_sku] destinos IH];
    intros s drained qty_disponible W Hd; simpl.
  - apply drain_step_ok_refl; assumption.
  - destruct (qty_disponible <=? 0)%Z; [apply drain_step_ok_refl; assumption|].
    destruct (max_drain <=? drained)%Z; [apply drain_step_ok_refl; assumption|].
    destruct (negb _); [apply IH; assumption|].
    destruct (Z.max 0 _ <=? 0)%Z; [apply IH; assumption|].
    match goal with |- context [(0 <? ?q)%Z] => set (qty := q) end.
    assert (Hq : (qty <= max_drain - drained)%Z) by (unfold qty; lia).
    destruct (0 <? qty)%Z eqn:Hpos; [|apply IH; assumption].
    apply Z.ltb_lt in Hpos.
    pose proof (drainer_execute_transfer_conserves s bodega_principal tienda sku
                  qty ref talla W) as C.
    pose proof (drainer_execute_transfer_units s bodega_principal tienda sku
                  qty ref talla) as U.
    destruct (Drainer.execute_transfer adu_df s bodega_principal tienda sku qty ref talla)
      as [success s'].
    simpl in C. destruct U as (U & new & En & Fn).
    assert (Fpos : Forall (fun t => 0 < tr_unidades t)%Z new)
      by (eapply Forall_impl; [|exact Fn]; simpl; intros t ->; exact Hpos).
    destruct success.
    + eapply drain_step_ok_trans; [|apply IH; [apply C | lia]].
      unfold drain_step_ok; simpl.
      split; [exact C|]. split; [lia|]. split; [lia|]. exists new; auto.
    + eapply drain_step_ok_trans; [|apply IH; [apply C | lia]].
      unfold drain_step_ok; simpl.
      split; [exact C|]. split; [lia|]. split; [lia|]. exists new; auto.
Qed.

Lemma drain_skus_ok max_drain : forall skus s drained,
  wf s -> (drained <= max_drain)%Z ->
  drain_step_ok max_drain s drained
    (Drainer.drain_skus adu_df bodega_principal no_seed allow_seed_if_adu
       skus max_drain s drained).
Proof.
  induction skus as [|[[sku disponible] adu_total] skus IH];
    intros s drained W Hd; cbn [Drainer.drain_skus].
  - apply drain_step_ok_refl; assumption.
  - destruct (max_drain <=? drained)%Z; [apply drain_step_ok_refl; assumption|].
    destruct (String.length sku <? 7)%nat; [apply IH; assumption|].
    destruct (Z.min disponible (max_drain - drained) <=? 0)%Z;
      [apply IH; assumption|].
    destruct (Drainer.get_destinations_for_sku adu_df bodega_principal sku)
      as [|d ds]; [apply IH; assumption|].
    match goal with |- context [Drainer.drain_destinos ?a ?b ?c ?d ?e ?f ?g ?h ?i ?j ?k ?l] =>
      pose proof (drain_destinos_ok f g h i e j k l W Hd) as D;
      destruct (Drainer.drain_destinos a b c d e f g h i j k l) as [s' drained']
    end.
    eapply drain_step_ok_trans; [exact D|].
    destruct D as ((W' & _) & B & _). apply IH; [exact W' | simpl in B; lia].
Qed.

End DrainerFacts.

Section DrainerPhase.
Variable adu_df : list AduRow.
Variable bodega_principal : string.
Variables no_seed allow_seed_if_adu : bool.

Lemma one_minus_nonneg (x : Q) : x <= 0.99 -> 0 <= 1 - x.
Proof.
  destruct x as [n d]. unfold Qle, Qminus, Qplus, Qopp; cbn [Qnum Qden]. lia.
Qed.

Lemma drain_limit_nonneg s safety_ratio :
  (0 <= Drainer.get_bodega_total bodega_principal s)%Z ->
  (0 <= Drainer.calculate_drain_limit bodega_principal s safety_ratio)%Z.
Proof.
  intros HT. unfold Drainer.calculate_drain_limit.
  set (T := Drainer.get_bodega_total bodega_principal s) in *.
  destruct (Qle_bool safety_ratio 0); [exact HT|].
  unfold Py.floor.
  rewrite <- (Qfloor_Z 0). apply Qfloor_resp_le.
  assert (Hr : Py.Qmax 0 (Py.Qmin 0.99 safety_ratio) <= 0.99).
  { unfold Py.Qmax, Py.Qmin.
    destruct (Qle_bool 0.99 safety_ratio) eqn:E1.
    - destruct (Qle_bool 0 0.99); [apply Qle_refl | discriminate].
    - assert (safety_ratio <= 0.99).
      { apply Qnot_lt_le. intros H. apply Qlt_le_weak in H.
        apply Qle_bool_iff in H. congruence. }
      destruct (Qle_bool 0 safety_ratio); [assumption | discriminate]. }
  assert (HTq : 0 <= inject_Z T)
    by (change 0 with (inject_Z 0); rewrite <- Zle_Qle; exact HT).
  apply Qmult_le_0_compat; [exact HTq|].
  apply one_minus_nonneg, Hr.
Qed.

Lemma run_fase3_ok stock safety_ratio :
  let res := Drainer.run_fase3 adu_df bodega_principal no_seed allow_seed_if_adu
               stock safety_ratio in
  total (fst res) == total stock
  /\ Forall (fun t => 0 < tr_unidades t)%Z (snd res)
  /\ ((0 <= Drainer.get_bodega_total bodega_principal (Drainer.init stock))%Z ->
      (units (snd res)
       <= Drainer.calculate_drain_limit bodega_principal (Drainer.init stock)
            safety_ratio)%Z).
Proof.
  unfold Drainer.run_fase3, Drainer.drain.
  set (s := Drainer.init stock).
  assert (W : wf s) by apply build_indexes_represents.
  destruct (Drainer.get_bodega_total bodega_principal s <=? 0)%Z eqn:E; simpl.
  - split; [reflexivity|]. split; [constructor|].
    intros HT. apply (drain_limit_nonneg s safety_ratio HT).
  - apply Z.leb_gt in E.
    assert (HT : (0 <= Drainer.get_bodega_total bodega_principal s)%Z) by lia.
    pose proof (drain_limit_nonneg s safety_ratio HT) as HL.
    pose proof (drain_skus_ok adu_df bodega_principal no_seed allow_seed_if_adu
                  (Drainer.calculate_drain_limit bodega_principal s safety_ratio)
                  (Drainer.get_skus_to_drain adu_df bodega_principal s)
                  s 0%Z W HL) as D.
    destruct D as ((_ & T & _) & B & U & new & En & Fn).
    split; [exact T|]. split.
    + rewrite En. simpl. exact Fn.
    + intros _. cbn [fst snd] in *.
      change (units (transfers s)) with 0%Z in U. lia.
Qed.

End DrainerPhase.

(** ** The claims *)

(** C1.  Conservation is lost where a transfer is split over several rows
    of a key and the share of a row is not a whole number.  A store keeps
    an item in three rows of 0, 1 and 0 units and the warehouse holds 50.
    The transfer of one unit from the warehouse passes the guards of
    [execute_transfer]; each row of the store gains the float [1/3], the
    column then sums to [51 + 2^-47] instead of 51, and the store, read by
    [get_stock], still holds 1 unit and not 2, while the warehouse holds
    49. *)
Theorem C1_equal_split_breaks_conservation :
  let s := Engine.init (Some Scenario.BODEGA) Scenario.three_row_stock in
  let col := Column.of_rows (stock_df s) in
  let col' := Column.execute_transfer s col Scenario.BODEGA Scenario.CHIPICHAPE
                Scenario.SKU18 1 in
  Py.get key_eqb (idx_tienda_sku s) (Scenario.BODEGA, Scenario.SKU18)
  = Some [0]%nat
  /\ Py.get key_eqb (idx_tienda_sku s) (Scenario.CHIPICHAPE, Scenario.SKU18)
     = Some [1; 2; 3]%nat
  /\ fst (Engine.execute_transfer [] true false s Scenario.BODEGA
            Scenario.CHIPICHAPE Scenario.SKU18 1 Scenario.REF None) = true
  /\ Column.sum col = B64.of_Z 51
  /\ Column.sum col' = S754_finite false 7177611906121729 (-47)
  /\ B64.ltb (B64.of_Z 51) (Column.sum col') = true
  /\ Column.key_stock s col Scenario.CHIPICHAPE Scenario.SKU18 = 1%Z
  /\ Column.key_stock s col' Scenario.CHIPICHAPE Scenario.SKU18 = 1%Z
  /\ Column.key_stock s col Scenario.BODEGA Scenario.SKU18 = 50%Z
  /\ Column.key_stock s col' Scenario.BODEGA Scenario.SKU18 = 49%Z.
Proof.
  repeat split; vm_compute; reflexivity.
Qed.

(** C7. Whenever the designated central warehouse is among the origins that
    [rank_origins_for_sku] returns, it is the first of them, whatever its
    sort key. *)
Theorem C7_warehouse_first
    (tiempos_df : list TiempoRow) (bodega_principal : option string)
    (s : State) (sku dest_tienda dest_referencia b : string) :
  bodega_designada bodega_principal = Some b ->
  In b (Engine.rank_origins_for_sku tiempos_df bodega_principal s sku
          dest_tienda dest_referencia) ->
  hd_error (Engine.rank_origins_for_sku tiempos_df bodega_principal s sku
              dest_tienda dest_referencia)
  = Some b.
Proof.
  unfold bodega_designada.
  destruct (Py.truthy bodega_principal) eqn:Ht; [|discriminate].
  intros ->. unfold Engine.rank_origins_for_sku.
  set (sorted := map snd (Py.sort _ _)).
  rewrite Ht. simpl.
  destruct (existsb (String.eqb b) sorted) eqn:E; [reflexivity|].
  intros Hin. exfalso.
  assert (existsb (String.eqb b) sorted = true)
    by (apply existsb_exists; exists b; split; [exact Hin | apply String.eqb_refl]).
  congruence.
Qed.

Lemma C7_warehouse_first_witness :
  let s := Engine.init (Some Scenario.BODEGA) Scenario.far_bodega_stock in
  Py.sort (fun x y => Engine.rank_key_lt (fst x) (fst y))
    (map (fun o => (Engine.rank_key [] s Scenario.SKU18 Scenario.CHIPICHAPE o, o))
         [Scenario.UNICENTRO; Scenario.BARRANQUILLA; Scenario.BODEGA])
  = map (fun o => (Engine.rank_key [] s Scenario.SKU18 Scenario.CHIPICHAPE o, o))
        [Scenario.UNICENTRO; Scenario.BODEGA; Scenario.BARRANQUILLA]
  /\ hd_error (Engine.rank_origins_for_sku [] (Some Scenario.BODEGA) s
                 Scenario.SKU18 Scenario.CHIPICHAPE Scenario.REF)
     = Some Scenario.BODEGA.
Proof.
  split; [vm_compute; reflexivity|].
  apply C7_warehouse_first; [reflexivity|].
  vm_compute. left; reflexivity.
Defined.

(** C5, as the code has it.  Every origin that [rank_origins_for_sku]
    returns is another store, holds the item, may send a positive quantity,
    and, when its coverage and the coverage of the destination are both
    finite, its coverage is greater than that of the destination plus
    [COV_BUFFER_DAYS]; the coverages and the sum are the binary64 numbers
    the engine computes and compares.  Nothing is required when either
    coverage is infinite. *)
Theorem C5_rank_origins_filter
    (tiempos_df : list TiempoRow) (bodega_principal : option string)
    (s : State) (sku dest_tienda dest_referencia o : string) :
  In o (Engine.rank_origins_for_sku tiempos_df bodega_principal s sku
          dest_tienda dest_referencia) ->
  o <> dest_tienda
  /\ Py.mem key_eqb (idx_tienda_sku s) (o, sku) = true
  /\ (0 < Engine.allowed_to_send bodega_principal s o sku)%Z
  /\ (B64.isfinite (Engine.get_cobertura s o sku) = true ->
      B64.isfinite (Engine.get_cobertura s dest_tienda sku) = true ->
      cov_exceeds (Engine.get_cobertura s o sku)
                  (Engine.get_cobertura s dest_tienda sku)).
Proof.
  intros Hin.
  destruct (rank_origins_candidate tiempos_df bodega_principal s sku
              dest_tienda dest_referencia o Hin) as [Hc Hm].
  unfold Engine.is_candidate in Hc.
  destruct (negb (String.eqb sku sku)); [discriminate|].
  destruct (String.eqb o dest_tienda) eqn:Eo; [discriminate|].
  destruct (Engine.allowed_to_send bodega_principal s o sku <=? 0)%Z eqn:Ea;
    [discriminate|].
  split; [apply String.eqb_neq, Eo|]. split; [exact Hm|].
  split; [apply Z.leb_gt, Ea|].
  intros Ho Hd. rewrite Ho, Hd in Hc. simpl in Hc.
  destruct (B64.leb (Engine.get_cobertura s o sku)
              (B64.add (Engine.get_cobertura s dest_tienda sku)
                       (B64.of_Q Settings.COV_BUFFER_DAYS))) eqn:El;
    [discriminate|].
  unfold cov_exceeds. apply leb_false_ltb; [| |exact El].
  - apply isfinite_not_nan, Ho.
  - apply add_not_nan; [exact Hd | reflexivity].
Qed.

Lemma C5_rank_origins_filter_witness :
  let s := Engine.init (Some Scenario.BODEGA) Scenario.ranking_stock in
  In Scenario.UNICENTRO
     (Engine.rank_origins_for_sku Scenario.ranking_tiempos (Some Scenario.BODEGA)
        s Scenario.SKU18 Scenario.CHIPICHAPE Scenario.REF)
  /\ Scenario.UNICENTRO <> Scenario.CHIPICHAPE
  /\ Py.mem key_eqb (idx_tienda_sku s) (Scenario.UNICENTRO, Scenario.SKU18) = true
  /\ (0 < Engine.allowed_to_send (Some Scenario.BODEGA) s
            Scenario.UNICENTRO Scenario.SKU18)%Z
  /\ (B64.isfinite (Engine.get_cobertura s Scenario.UNICENTRO Scenario.SKU18)
      = true ->
      B64.isfinite (Engine.get_cobertura s Scenario.CHIPICHAPE Scenario.SKU18)
      = true ->
      cov_exceeds (Engine.get_cobertura s Scenario.UNICENTRO Scenario.SKU18)
                  (Engine.get_cobertura s Scenario.CHIPICHAPE Scenario.SKU18)).
Proof.
  intros s.
  assert (Hin : In Scenario.UNICENTRO
                   (Engine.rank_origins_for_sku Scenario.ranking_tiempos
                      (Some Scenario.BODEGA) s Scenario.SKU18
                      Scenario.CHIPICHAPE Scenario.REF))
    by (vm_compute; right; left; reflexivity).
  split; [exact Hin|].
  exact (C5_rank_origins_filter _ _ _ _ _ _ _ Hin).
Defined.

(** C5 as stated fails: a destination without sales has infinite coverage,
    and a store whose coverage is finite (20 days) is still returned as an
    origin for it, because the coverage filter is applied only when both
    coverages are finite. *)
Lemma C5_counterexample :
  let s := Engine.init None Scenario.nosales_stock in
  In Scenario.UNICENTRO
     (Engine.rank_origins_for_sku [] None s Scenario.SKU18
        Scenario.CHIPICHAPE Scenario.REF)
  /\ Engine.get_cobertura s Scenario.UNICENTRO Scenario.SKU18 = B64.of_Z 20
  /\ Engine.get_cobertura s Scenario.CHIPICHAPE Scenario.SKU18 = B64.inf
  /\ ~ cov_exceeds (Engine.get_cobertura s Scenario.UNICENTRO Scenario.SKU18)
                   (Engine.get_cobertura s Scenario.CHIPICHAPE Scenario.SKU18).
Proof.
  split; [vm_compute; left; reflexivity|].
  split; [vm_compute; reflexivity|].
  split; [vm_compute; reflexivity|].
  vm_compute. discriminate.
Qed.

(** The comparison is made on the rounded quotients.  With 5 units at the
    warehouse, 2 at the store and a velocity of 3 a day at both, the exact
    coverages are [5/3] and [2/3], one buffer day apart; the computed
    [5/3] is one unit in the last place above the computed [2/3 + 1], and
    the warehouse is returned as an origin. *)
Lemma coverage_is_compared_as_computed :
  let s := Engine.init (Some Scenario.BODEGA) Scenario.thirds_stock in
  Engine.rank_origins_for_sku [] (Some Scenario.BODEGA) s Scenario.SKU18
    Scenario.CHIPICHAPE Scenario.REF = [Scenario.BODEGA]
  /\ Engine.get_cobertura s Scenario.BODEGA Scenario.SKU18
     = S754_finite false 7505999378950827 (-52)
  /\ B64.add (Engine.get_cobertura s Scenario.CHIPICHAPE Scenario.SKU18)
             (B64.of_Q Settings.COV_BUFFER_DAYS)
     = S754_finite false 7505999378950826 (-52)
  /\ (5 # 3) == (2 # 3) + Settings.COV_BUFFER_DAYS.
Proof.
  repeat split; vm_compute; reflexivity.
Qed.

(** C9. When the destination holds no row of the item and the seeding gate
    denies the introduction, [execute_transfer] of the base-needs engine
    returns [False] and leaves the whole state as it was: no stock row
    changes and no transfer is recorded. *)
Theorem C9_rejected_transfer_is_noop
    (adu_df : list AduRow) (no_seed allow_seed_if_adu : bool) (s : State)
    (origen destino sku : string) (cantidad : Z) (referencia : string)
    (talla : option string) :
  Py.mem key_eqb (idx_tienda_sku s) (destino, sku) = false ->
  Engine.can_seed_to_store adu_df no_seed allow_seed_if_adu s destino referencia sku
  = false ->
  Engine.execute_transfer adu_df no_seed allow_seed_if_adu s
    origen destino sku cantidad referencia talla
  = (false, s).
Proof.
  intros Hm Hg. unfold Engine.execute_transfer. rewrite Hm, Hg. reflexivity.
Qed.

Lemma C9_rejected_transfer_is_noop_witness :
  let s := Engine.init (Some Scenario.BODEGA) Scenario.seed_stock in
  Py.mem key_eqb (idx_tienda_sku s) (Scenario.UNICENTRO, Scenario.SKU18) = false
  /\ Engine.can_seed_to_store [] true false s
       Scenario.UNICENTRO Scenario.REF Scenario.SKU18 = false
  /\ Engine.execute_transfer [] true false s
       Scenario.BODEGA Scenario.UNICENTRO Scenario.SKU18 2 Scenario.REF None
     = (false, s).
Proof.
  intros s.
  assert (Hm : Py.mem key_eqb (idx_tienda_sku s)
                 (Scenario.UNICENTRO, Scenario.SKU18) = false) by reflexivity.
  assert (Hg : Engine.can_seed_to_store [] true false s
                 Scenario.UNICENTRO Scenario.REF Scenario.SKU18 = false)
    by reflexivity.
  split; [exact Hm|]. split; [exact Hg|].
  exact (C9_rejected_transfer_is_noop [] true false s Scenario.BODEGA
           Scenario.UNICENTRO Scenario.SKU18 2 Scenario.REF None Hm Hg).
Defined.

(** ** A transfer whose origin is not in the index *)

Lemma nth_error_update_key k f rows i r :
  nth_error rows i = Some r -> row_key r <> k ->
  nth_error (map (update_key k f) rows) i = Some r.
Proof.
  intros Hn Hk. rewrite nth_error_map, Hn. simpl. unfold update_key.
  replace (key_eqb k (row_key r)) with false; [reflexivity|].
  symmetry. apply key_eqb_neq. congruence.
Qed.

Lemma update_origen_absent s origen sku cantidad :
  Py.mem key_eqb (idx_tienda_sku s) (origen, sku) = false ->
  update_origen s origen sku cantidad = s.
Proof.
  unfold Py.mem, update_origen.
  destruct (Py.get key_eqb (idx_tienda_sku s) (origen, sku)); [discriminate|].
  reflexivity.
Qed.

Lemma update_destino_other_rows s destino sku cantidad new i r :
  wf s ->
  nth_error (stock_df s) i = Some r -> row_key r <> (destino, sku) ->
  nth_error (stock_df (update_destino s destino sku cantidad new)) i = Some r.
Proof.
  intros W Hn Hk. unfold update_destino.
  destruct (Py.get key_eqb (idx_tienda_sku s) (destino, sku)) as [l|] eqn:G; simpl.
  - destruct (wf_get s _ _ W G) as [-> _].
    rewrite loc_update_key. apply nth_error_update_key; assumption.
  - rewrite nth_error_app1; [exact Hn|].
    apply nth_error_Some. congruence.
Qed.

(** ** How a transfer is split over the rows of a key *)

Lemma nth_error_loc_update_from ind f rows : forall j i,
  nth_error (loc_update_from j ind f rows) i
  = option_map (fun r => if existsb (Nat.eqb (j + i)) ind
                         then with_Existencia r (f (Existencia r)) else r)
               (nth_error rows i).
Proof.
  induction rows as [|r rows IH]; intros j i; simpl.
  - destruct i; reflexivity.
  - destruct i as [|i]; simpl.
    + rewrite Nat.add_0_r. reflexivity.
    + rewrite IH, Nat.add_succ_r. reflexivity.
Qed.

Lemma length_loc_update_from ind f rows : forall j,
  List.length (loc_update_from j ind f rows) = List.length rows.
Proof.
  induction rows as [|r rows IH]; intros j; simpl; [reflexivity|].
  rewrite IH. reflexivity.
Qed.

Lemma Forall_loc_update (P : StockRow -> Prop) ind f rows :
  Forall P rows ->
  (forall i r, In i ind -> nth_error rows i = Some r ->
               P (with_Existencia r (f (Existencia r)))) ->
  Forall P (loc_update ind f rows).
Proof.
  intros HP Hf. apply Forall_forall. intros x Hx.
  apply In_nth_error in Hx. destruct Hx as [i Hi].
  unfold loc_update in Hi. rewrite nth_error_loc_update_from in Hi.
  destruct (nth_error rows i) as [r|] eqn:Hn; [|discriminate].
  simpl in Hi. rewrite Forall_forall in HP.
  destruct (existsb (Nat.eqb i) ind) eqn:E; injection Hi as <-.
  - apply Hf with i; [|exact Hn].
    apply existsb_exists in E. destruct E as [j [Hj Hij]].
    apply Nat.eqb_eq in Hij. subst j. exact Hj.
  - apply HP. eapply nth_error_In, Hn.
Qed.

Lemma update_origen_nth s origen sku cantidad i r :
  nth_error (stock_df s) i = Some r ->
  exists r1,
    nth_error (stock_df (update_origen s origen sku cantidad)) i = Some r1
    /\ row_key r1 = row_key r
    /\ Existencia r1
       == Existencia r
          - share (Py.get key_eqb (idx_tienda_sku s) (origen, sku)) i cantidad.
Proof.
  intros Hn. unfold update_origen, share.
  destruct (Py.get key_eqb (idx_tienda_sku s) (origen, sku)) as [l|]; simpl.
  - unfold loc_update. rewrite nth_error_loc_update_from, Hn. simpl.
    destruct (existsb (Nat.eqb i) l); eexists; split; try reflexivity;
      split; try reflexivity; simpl; ring.
  - exists r. split; [exact Hn|]. split; [reflexivity | ring].
Qed.

Lemma update_destino_nth s destino sku cantidad new i r :
  nth_error (stock_df s) i = Some r ->
  exists r2,
    nth_error (stock_df (update_destino s destino sku cantidad new)) i = Some r2
    /\ row_key r2 = row_key r
    /\ Existencia r2
       == Existencia r
          + share (Py.get key_eqb (idx_tienda_sku s) (destino, sku)) i cantidad.
Proof.
  intros Hn. unfold update_destino, share.
  destruct (Py.get key_eqb (idx_tienda_sku s) (destino, sku)) as [l|]; simpl.
  - unfold loc_update. rewrite nth_error_loc_update_from, Hn. simpl.
    destruct (existsb (Nat.eqb i) l); eexists; split; try reflexivity;
      split; try reflexivity; simpl; ring.
  - exists r. split.
    + rewrite nth_error_app1; [exact Hn|]. apply nth_error_Some. congruence.
    + split; [reflexivity | ring].
Qed.

Lemma idx_update_origen s origen sku cantidad :
  idx_tienda_sku (update_origen s origen sku cantidad) = idx_tienda_sku s
  /\ List.length (stock_df (update_origen s origen sku cantidad))
     = List.length (stock_df s).
Proof.
  unfold update_origen.
  destruct (Py.get key_eqb (idx_tienda_sku s) (origen, sku)); simpl;
    [|split; reflexivity].
  split; [reflexivity | apply length_loc_update_from].
Qed.

(** On a table of whole quantities a share that is whole leaves whole
    quantities. *)
Lemma share_whole l c :
  l <> [] -> (0 <= c)%Z -> (Z.of_nat (List.length l) | c)%Z ->
  exists z, (0 <= z)%Z /\ inject_Z c / len_Q l == inject_Z z.
Proof.
  intros Hl Hc [k Hk].
  assert (Hn : (0 < Z.of_nat (List.length l))%Z)
    by (destruct l; [congruence | simpl; lia]).
  exists k. split; [nia|].
  subst c. unfold len_Q. rewrite inject_Z_mult. field.
  intros H. unfold Qeq in H. simpl in H. lia.
Qed.

Lemma In_existsb_eqb i l : In i l -> existsb (Nat.eqb i) l = true.
Proof.
  intros H. apply existsb_exists. exists i. split; [exact H | apply Nat.eqb_refl].
Qed.

Lemma update_origen_whole s origen sku cantidad :
  Forall whole_row (stock_df s) -> (0 <= cantidad)%Z ->
  splits_evenly s (origen, sku) cantidad ->
  (forall i r, nth_error (stock_df s) i = Some r ->
     share (Py.get key_eqb (idx_tienda_sku s) (origen, sku)) i cantidad
     <= Existencia r) ->
  Forall whole_row (stock_df (update_origen s origen sku cantidad)).
Proof.
  intros HW Hc Hs Hle. unfold update_origen, splits_evenly, share in *.
  destruct (Py.get key_eqb (idx_tienda_sku s) (origen, sku)) as [l|]; simpl;
    [|exact HW].
  apply Forall_loc_update; [exact HW|].
  intros i r Hi Hn.
  assert (Hl : l <> []) by (intros ->; destruct Hi).
  destruct (share_whole l cantidad Hl Hc Hs) as (z & Hz & Ez).
  rewrite Forall_forall in HW.
  destruct (HW r (nth_error_In _ _ Hn)) as (e & He & Ee).
  specialize (Hle i r Hn). rewrite (In_existsb_eqb i l Hi) in Hle.
  rewrite Ez, Ee in Hle. rewrite <- Zle_Qle in Hle.
  exists (e - z)%Z. split; [lia|]. simpl.
  rewrite Ez, Ee. unfold Z.sub. rewrite inject_Z_plus, inject_Z_opp. ring.
Qed.

Lemma update_destino_whole s destino sku cantidad new :
  Forall whole_row (stock_df s) -> (0 <= cantidad)%Z ->
  splits_evenly s (destino, sku) cantidad ->
  Existencia new == inject_Z cantidad ->
  Forall whole_row (stock_df (update_destino s destino sku cantidad new)).
Proof.
  intros HW Hc Hs Hnew. unfold update_destino, splits_evenly in *.
  destruct (Py.get key_eqb (idx_tienda_sku s) (destino, sku)) as [l|]; simpl.
  - apply Forall_loc_update; [exact HW|].
    intros i r Hi Hn.
    assert (Hl : l <> []) by (intros ->; destruct Hi).
    destruct (share_whole l cantidad Hl Hc Hs) as (z & Hz & Ez).
    rewrite Forall_forall in HW.
    destruct (HW r (nth_error_In _ _ Hn)) as (e & He & Ee).
    exists (e + z)%Z. split; [lia|]. simpl.
    rewrite Ez, Ee, inject_Z_plus. reflexivity.
  - apply Forall_app. split; [exact HW|].
    constructor; [|constructor]. exists cantidad. split; assumption.
Qed.

Ltac whole_rows :=
  repeat (constructor;
          [match goal with
           | |- whole_row ?r => exists (Qnum (Existencia r))
           end; split; vm_compute; [discriminate | reflexivity]|]);
  constructor.

(** C6, as the code has it.  An executed transfer of the base-needs engine
    splits the quantity equally, not in proportion.  On a table of whole
    quantities, when the number of rows of the origin key and that of the
    destination key each divide the quantity and every row of the origin
    holds at least its share, every row of the origin key loses
    [cantidad / n_o], where [n_o] is the number of rows of that key, and
    every row of the destination key gains [cantidad / n_d]; the other rows
    keep their quantity, a destination without rows receives one new row
    holding the whole quantity, and the table still holds whole
    quantities. *)
Theorem C6_equal_split
    (adu_df : list AduRow) (no_seed allow_seed_if_adu : bool) (s s' : State)
    (origen destino sku : string) (cantidad : Z) (referencia : string)
    (talla : option string) :
  whole_table (stock_df s) ->
  (0 <= cantidad <= 2 ^ 52)%Z ->
  splits_evenly s (origen, sku) cantidad ->
  splits_evenly s (destino, sku) cantidad ->
  (forall i r, nth_error (stock_df s) i = Some r ->
     share (Py.get key_eqb (idx_tienda_sku s) (origen, sku)) i cantidad
     <= Existencia r) ->
  Engine.execute_transfer adu_df no_seed allow_seed_if_adu s
    origen destino sku cantidad referencia talla = (true, s') ->
  let indices_origen := Py.get key_eqb (idx_tienda_sku s) (origen, sku) in
  let indices_destino := Py.get key_eqb (idx_tienda_sku s) (destino, sku) in
  (forall i r, nth_error (stock_df s) i = Some r ->
     exists r', nth_error (stock_df s') i = Some r'
                /\ row_key r' = row_key r
                /\ Existencia r'
                   == Existencia r - share indices_origen i cantidad
                      + share indices_destino i cantidad)
  /\ (indices_destino <> None ->
      List.length (stock_df s') = List.length (stock_df s))
  /\ (indices_destino = None ->
      exists new_row,
        stock_df s' = firstn (List.length (stock_df s)) (stock_df s') ++ [new_row]
        /\ row_key new_row = (destino, sku)
        /\ Existencia new_row == inject_Z cantidad)
  /\ Forall whole_row (stock_df s').
Proof.
  intros [HW _] [Hc _] Hso Hsd Hle.
  unfold Engine.execute_transfer.
  destruct (negb _ && negb _); [discriminate|].
  intros [= <-]. cbn [stock_df record_transfer].
  destruct (idx_update_origen s origen sku cantidad) as [Hidx Hlen].
  pose proof (update_origen_whole s origen sku cantidad HW Hc Hso Hle) as HW1.
  set (s1 := update_origen s origen sku cantidad) in *.
  set (new := Engine._create_new_stock_row adu_df s1 destino sku referencia talla cantidad).
  destruct (engine_new_row_key adu_df s1 destino sku referencia talla cantidad)
    as [Hk He].
  split; [|split; [|split]].
  - intros i r Hn.
    destruct (update_origen_nth s origen sku cantidad i r Hn) as (r1 & Hn1 & Hk1 & He1).
    fold s1 in Hn1.
    destruct (update_destino_nth s1 destino sku cantidad new i r1 Hn1)
      as (r2 & Hn2 & Hk2 & He2).
    exists r2. split; [exact Hn2|]. split; [congruence|].
    rewrite He2, He1, Hidx. reflexivity.
  - intros Hd. unfold update_destino. rewrite Hidx.
    destruct (Py.get key_eqb (idx_tienda_sku s) (destino, sku)); [|congruence].
    simpl. unfold loc_update. rewrite length_loc_update_from. exact Hlen.
  - intros Hd. unfold update_destino. rewrite Hidx, Hd. simpl.
    exists new. split.
    + rewrite <- Hlen, firstn_app, firstn_all, Nat.sub_diag. simpl.
      rewrite app_nil_r. reflexivity.
    + split; [exact Hk | unfold new; rewrite He; reflexivity].
  - apply update_destino_whole; [exact HW1 | exact Hc | |].
    + unfold splits_evenly. rewrite Hidx. exact Hsd.
    + unfold new. rewrite He. reflexivity.
Qed.

Lemma C6_equal_split_witness :
  let s := Engine.init (Some Scenario.BODEGA) Scenario.split_stock in
  let res := Engine.execute_transfer [] true false s
               Scenario.BODEGA Scenario.CHIPICHAPE Scenario.SKU18 2
               Scenario.REF None in
  fst res = true
  /\ (forall i r, nth_error (stock_df s) i = Some r ->
        exists r', nth_error (stock_df (snd res)) i = Some r'
                   /\ row_key r' = row_key r
                   /\ Existencia r'
                      == Existencia r
                         - share (Some [0; 1]%nat) i 2 + share (Some [2]%nat) i 2)
  /\ Forall whole_row (stock_df (snd res)).
Proof.
  intros s res.
  assert (E : Engine.execute_transfer [] true false s
                Scenario.BODEGA Scenario.CHIPICHAPE Scenario.SKU18 2
                Scenario.REF None = (true, snd res)) by reflexivity.
  assert (HW : whole_table (stock_df s)).
  { split; [whole_rows | vm_compute; discriminate]. }
  assert (Hc : (0 <= 2 <= 2 ^ 52)%Z) by (split; vm_compute; discriminate).
  assert (Hso : splits_evenly s (Scenario.BODEGA, Scenario.SKU18) 2)
    by (exists 1%Z; reflexivity).
  assert (Hsd : splits_evenly s (Scenario.CHIPICHAPE, Scenario.SKU18) 2)
    by (exists 2%Z; reflexivity).
  assert (Hle : forall i r, nth_error (stock_df s) i = Some r ->
            share (Py.get key_eqb (idx_tienda_sku s)
                     (Scenario.BODEGA, Scenario.SKU18)) i 2
            <= Existencia r).
  { intros [|[|[|[|i]]]] r Hn; simpl in Hn; try discriminate Hn;
      injection Hn as <-; vm_compute; discriminate. }
  split; [reflexivity|].
  destruct (C6_equal_split [] true false s (snd res)
              Scenario.BODEGA Scenario.CHIPICHAPE Scenario.SKU18 2
              Scenario.REF None HW Hc Hso Hsd Hle E) as (H1 & _ & _ & H4).
  split; [exact H1 | exact H4].
Defined.

(** C6 as stated fails: two warehouse rows of one item hold 3 and 1; a
    transfer of 2 takes 1 from each, where a split in proportion to the
    quantities would take 3/2 and 1/2. *)
Lemma C6_counterexample :
  let s := Engine.init (Some Scenario.BODEGA) Scenario.split_stock in
  let res := Engine.execute_transfer [] true false s
               Scenario.BODEGA Scenario.CHIPICHAPE Scenario.SKU18 2
               Scenario.REF None in
  fst res = true
  /\ Py.get key_eqb (idx_tienda_sku s) (Scenario.BODEGA, Scenario.SKU18)
     = Some [0; 1]%nat
  /\ map Existencia (stock_df s) = [3; 1; 0]
  /\ Forall2 Qeq (map Existencia (stock_df (snd res))) [2; 0; 2]
  /\ ~ proportional_split (stock_df s) (stock_df (snd res)) [0; 1]%nat.
Proof.
  intros s res.
  split; [reflexivity|]. split; [reflexivity|]. split; [reflexivity|].
  split.
  - vm_compute. repeat constructor.
  - intros H.
    specialize (H 0%nat 1%nat (or_introl eq_refl) (or_intror (or_introl eq_refl))).
    vm_compute in H. discriminate H.
Qed.

(** C10, as the code has it.  In a state whose index is faithful, on a
    table of whole quantities and for a quantity that the number of rows of
    the origin key and that of the destination key each divide, when the
    destination may receive the item (it holds it, or the gate allows the
    seeding), the base-needs [execute_transfer] succeeds for every origin:
    nothing checks the origin.  When the origin key has no row, no row
    other than those of the destination changes, the destination is raised
    (or created) by the whole quantity, one transfer is recorded with an
    origin stock of 0 before, the total of the table grows by the quantity,
    and the table still holds whole quantities. *)
Theorem C10_absent_origin_adds_stock
    (adu_df : list AduRow) (no_seed allow_seed_if_adu : bool) (s : State)
    (origen destino sku : string) (cantidad : Z) (referencia : string)
    (talla : option string) :
  wf s ->
  whole_table (stock_df s) ->
  (0 <= cantidad <= 2 ^ 52)%Z ->
  splits_evenly s (origen, sku) cantidad ->
  splits_evenly s (destino, sku) cantidad ->
  Py.mem key_eqb (idx_tienda_sku s) (destino, sku) = true
  \/ Engine.can_seed_to_store adu_df no_seed allow_seed_if_adu s destino referencia sku
     = true ->
  let res := Engine.execute_transfer adu_df no_seed allow_seed_if_adu s
               origen destino sku cantidad referencia talla in
  fst res = true
  /\ (Py.mem key_eqb (idx_tienda_sku s) (origen, sku) = false ->
      total (stock_df (snd res)) == total (stock_df s) + inject_Z cantidad
      /\ (forall i r, nth_error (stock_df s) i = Some r ->
                      row_key r <> (destino, sku) ->
                      nth_error (stock_df (snd res)) i = Some r)
      /\ (exists t, transfers (snd res) = transfers s ++ [t]
                    /\ tr_origen t = origen /\ tr_destino t = destino
                    /\ tr_unidades t = cantidad
                    /\ tr_origen_antes t = 0%Z)
      /\ Forall whole_row (stock_df (snd res))).
Proof.
  intros W [HW _] [Hc _] _ Hsd Hok res.
  assert (Hguard : negb (Py.mem key_eqb (idx_tienda_sku s) (destino, sku))
                   && negb (Engine.can_seed_to_store adu_df no_seed
                              allow_seed_if_adu s destino referencia sku) = false).
  { destruct Hok as [-> | ->]; simpl; [reflexivity | apply andb_false_r]. }
  unfold res, Engine.execute_transfer. rewrite Hguard. simpl.
  split; [reflexivity|].
  intros Ho. rewrite (update_origen_absent _ _ _ _ Ho).
  destruct (engine_new_row_key adu_df s destino sku referencia talla cantidad)
    as [Hk He].
  destruct (update_destino_total s destino sku cantidad
              (Engine._create_new_stock_row adu_df s destino sku referencia talla cantidad)
              W Hk) as (_ & Ht & T & _); [rewrite He; reflexivity|].
  split; [exact T|]. split; [|split].
  - intros i r Hn Hr. apply update_destino_other_rows; assumption.
  - eexists. split; [rewrite Ht; reflexivity|].
    simpl. repeat split.
    unfold get_stock. unfold Py.mem in Ho.
    destruct (Py.get key_eqb (idx_tienda_sku s) (origen, sku)); [discriminate|].
    reflexivity.
  - apply update_destino_whole; [exact HW | exact Hc | exact Hsd|].
    rewrite He. reflexivity.
Qed.

Lemma C10_absent_origin_adds_stock_witness :
  let s := Engine.init (Some Scenario.BODEGA) Scenario.seed_stock in
  let res := Engine.execute_transfer [] true false s
               Scenario.CHIPICHAPE Scenario.BODEGA Scenario.SKU18 5
               Scenario.REF None in
  Py.mem key_eqb (idx_tienda_sku s) (Scenario.CHIPICHAPE, Scenario.SKU18) = false
  /\ fst res = true
  /\ total (stock_df s) == 50
  /\ total (stock_df (snd res)) == 55
  /\ Forall whole_row (stock_df (snd res)).
Proof.
  intros s res.
  assert (W : wf s) by apply build_indexes_represents.
  assert (HW : whole_table (stock_df s)).
  { split; [whole_rows | vm_compute; discriminate]. }
  assert (Hc : (0 <= 5 <= 2 ^ 52)%Z) by (split; vm_compute; discriminate).
  assert (Hso : splits_evenly s (Scenario.CHIPICHAPE, Scenario.SKU18) 5)
    by exact I.
  assert (Hsd : splits_evenly s (Scenario.BODEGA, Scenario.SKU18) 5)
    by (exists 5%Z; reflexivity).
  assert (Ho : Py.mem key_eqb (idx_tienda_sku s)
                 (Scenario.CHIPICHAPE, Scenario.SKU18) = false) by reflexivity.
  destruct (C10_absent_origin_adds_stock [] true false s
              Scenario.CHIPICHAPE Scenario.BODEGA Scenario.SKU18 5
              Scenario.REF None W HW Hc Hso Hsd (or_introl eq_refl))
    as [Hs Hrest].
  destruct (Hrest Ho) as (T & _ & _ & HW').
  split; [exact Ho|]. split; [exact Hs|].
  assert (T0 : total (stock_df s) == 50) by (vm_compute; reflexivity).
  split; [exact T0|].
  fold res in T. split; [rewrite T, T0; reflexivity | exact HW'].
Defined.

(** C10 as stated fails where the destination keeps the item in several
    rows.  A store holds it in three rows of 0, 1 and 0 units; a call
    whose origin has no row passes the guards and adds the float [2/3] to
    each of the three rows.  They then sum to [3 - 2^-51]: the store, read
    by [get_stock], holds 2 units and not 3, and the column sums to less
    than 53. *)
Lemma C10_counterexample :
  let s := Engine.init (Some Scenario.BODEGA) Scenario.three_row_stock in
  let col := Column.of_rows (stock_df s) in
  let col' := Column.execute_transfer s col Scenario.UNICENTRO
                Scenario.CHIPICHAPE Scenario.SKU18 2 in
  Py.mem key_eqb (idx_tienda_sku s) (Scenario.UNICENTRO, Scenario.SKU18) = false
  /\ Py.get key_eqb (idx_tienda_sku s) (Scenario.CHIPICHAPE, Scenario.SKU18)
     = Some [1; 2; 3]%nat
  /\ fst (Engine.execute_transfer [] true false s Scenario.UNICENTRO
            Scenario.CHIPICHAPE Scenario.SKU18 2 Scenario.REF None) = true
  /\ Column.key_stock s col Scenario.CHIPICHAPE Scenario.SKU18 = 1%Z
  /\ Column.key_stock s col' Scenario.CHIPICHAPE Scenario.SKU18 = 2%Z
  /\ Column.sum col = B64.of_Z 51
  /\ B64.ltb (Column.sum col') (B64.of_Z 53) = true.
Proof.
  repeat split; vm_compute; reflexivity.
Qed.

(** ** The drainage limit *)

Lemma Qle_bool_false a b : Qle_bool a b = false <-> b < a.
Proof.
  split.
  - intros H. apply Qnot_le_lt. intros L. apply Qle_bool_iff in L. congruence.
  - intros H. apply not_true_is_false. intros L. apply Qle_bool_iff in L.
    apply (Qlt_not_le _ _ H L).
Qed.

Lemma clamp_mid (r : Q) :
  0 < r -> r <= 0.99 -> Py.Qmax 0 (Py.Qmin 0.99 r) == r.
Proof.
  intros H0 H1. unfold Py.Qmax, Py.Qmin.
  destruct (Qle_bool 0.99 r) eqn:E.
  - apply Qle_bool_iff in E.
    replace (Qle_bool 0 0.99) with true by reflexivity.
    apply Qle_antisym; assumption.
  - replace (Qle_bool 0 r) with true; [reflexivity|].
    symmetry. apply Qle_bool_iff, Qlt_le_weak, H0.
Qed.

Lemma clamp_high (r : Q) :
  0.99 < r -> Py.Qmax 0 (Py.Qmin 0.99 r) == 0.99.
Proof.
  intros H. unfold Py.Qmax, Py.Qmin.
  replace (Qle_bool 0.99 r) with true
    by (symmetry; apply Qle_bool_iff, Qlt_le_weak, H).
  reflexivity.
Qed.

Lemma units_firstn_le (l : list Transfer) :
  Forall (fun t => 0 < tr_unidades t)%Z l ->
  forall n, (units (firstn n l) <= units l)%Z.
Proof.
  induction 1 as [|t l Ht Hl IH]; intros n.
  - rewrite firstn_nil. reflexivity.
  - destruct n as [|n]; unfold units in *; simpl.
    + assert (0 <= fold_right (fun t a => tr_unidades t + a) 0 l)%Z
        by (specialize (IH 0%nat); simpl in IH; exact IH).
      lia.
    + specialize (IH n). lia.
Qed.

Lemma ltb_true_not_nan a b : B64.ltb a b = true -> a <> S754_nan.
Proof. intros H ->. discriminate H. Qed.

Lemma clamp_float_mid (r : B64.float) :
  B64.leb r B64.zero = false -> B64.ltb r (B64.of_Q 0.99) = true ->
  B64.max B64.zero (B64.min (B64.of_Q 0.99) r) = r.
Proof.
  intros H0 H1. unfold B64.max, B64.min. rewrite H1.
  rewrite (leb_false_ltb r B64.zero); [reflexivity | | discriminate | exact H0].
  eapply ltb_true_not_nan, H1.
Qed.

Lemma clamp_float_high (r : B64.float) :
  B64.ltb r (B64.of_Q 0.99) = false ->
  B64.max B64.zero (B64.min (B64.of_Q 0.99) r) = B64.of_Q 0.99.
Proof.
  intros H. unfold B64.max, B64.min. rewrite H. reflexivity.
Qed.

Lemma drain_skus_budget adu_df bodega_principal no_seed allow_seed_if_adu
    skus max_drain s :
  wf s -> transfers s = [] ->
  forall n,
    (units (firstn n (transfers (fst (Drainer.drain_skus adu_df bodega_principal
                                        no_seed allow_seed_if_adu skus max_drain
                                        s 0))))
     <= Z.max 0 max_drain)%Z.
Proof.
  intros W Ht n.
  destruct (Z.leb_spec 0 max_drain) as [Hpos | Hneg].
  - pose proof (drain_skus_ok adu_df bodega_principal no_seed allow_seed_if_adu
                  max_drain skus s 0%Z W Hpos) as D.
    destruct (Drainer.drain_skus adu_df bodega_principal no_seed allow_seed_if_adu
                skus max_drain s 0) as [s' drained'].
    destruct D as (_ & B & U & new & En & Fn). cbn [fst snd] in *.
    rewrite Ht in En, U. simpl in En. rewrite En in *.
    eapply Z.le_trans; [apply units_firstn_le, Fn|].
    change (units []) with 0%Z in U. lia.
  - assert (E : Drainer.drain_skus adu_df bodega_principal no_seed
                  allow_seed_if_adu skus max_drain s 0 = (s, 0%Z)).
    { destruct skus as [|[[sku disponible] adu_total] skus];
        cbn [Drainer.drain_skus]; [reflexivity|].
      replace (max_drain <=? 0)%Z with true by (symmetry; apply Z.leb_le; lia).
      reflexivity. }
    rewrite E. cbn [fst]. rewrite Ht, firstn_nil.
    change (units []) with 0%Z. lia.
Qed.

Lemma drain_float_total adu_df bodega_principal no_seed allow_seed_if_adu
    stock safety_ratio :
  total (fst (Drainer.drain_float adu_df bodega_principal no_seed
                allow_seed_if_adu (Drainer.init stock) safety_ratio))
  == total stock.
Proof.
  unfold Drainer.drain_float.
  set (s := Drainer.init stock).
  assert (W : wf s) by apply build_indexes_represents.
  destruct (Drainer.get_bodega_total bodega_principal s <=? 0)%Z;
    cbn [fst]; [reflexivity|].
  set (max_drain := Drainer.calculate_drain_limit_float bodega_principal s
                      safety_ratio).
  destruct (Z.leb_spec 0 max_drain) as [Hpos | Hneg].
  - pose proof (drain_skus_ok adu_df bodega_principal no_seed allow_seed_if_adu
                  max_drain (Drainer.get_skus_to_drain adu_df bodega_principal s)
                  s 0%Z W Hpos) as ((_ & T & _) & _).
    exact T.
  - destruct (Drainer.get_skus_to_drain adu_df bodega_principal s)
      as [|[[sku disponible] adu_total] skus];
      cbn [Drainer.drain_skus]; [reflexivity|].
    replace (max_drain <=? 0)%Z with true by (symmetry; apply Z.leb_le; lia).
    reflexivity.
Qed.

(** C8, as the code has it.  With [T] the warehouse total and [r] the float
    [safety_ratio], the drainage limit is [T] for [r <= 0]; for
    [0 < r < 0.99] it is the floor of the product [T * (1 - r)] as binary64
    computes it, the difference and the product each rounded; and for every
    other ratio it is that number for [r = 0.99], the ratio being capped.
    The units of the transfers executed by the drainage never add up to
    more than the limit, at any point of the phase, and nothing is drained
    under a limit that is not positive. *)
Theorem C8_drain_limit_and_budget
    (adu_df : list AduRow) (bodega_principal : string)
    (no_seed allow_seed_if_adu : bool) (stock : list StockRow)
    (r : B64.float) :
  let s := Drainer.init stock in
  let T := Drainer.get_bodega_total bodega_principal s in
  let limit := Drainer.calculate_drain_limit_float bodega_principal s r in
  (B64.leb r B64.zero = true -> limit = T)
  /\ (B64.leb r B64.zero = false -> B64.ltb r (B64.of_Q 0.99) = true ->
      limit = B64.floor (B64.mul (B64.of_Z T) (B64.sub (B64.of_Z 1) r)))
  /\ (B64.leb r B64.zero = false -> B64.ltb r (B64.of_Q 0.99) = false ->
      limit = B64.floor (B64.mul (B64.of_Z T)
                           (B64.sub (B64.of_Z 1) (B64.of_Q 0.99))))
  /\ (forall n,
        (units (firstn n (snd (Drainer.drain_float adu_df bodega_principal
                                 no_seed allow_seed_if_adu s r)))
         <= Z.max 0 limit)%Z).
Proof.
  intros s T limit. unfold limit, Drainer.calculate_drain_limit_float. fold T.
  split; [|split; [|split]].
  - intros H. rewrite H. reflexivity.
  - intros H0 H1. rewrite H0, (clamp_float_mid r H0 H1). reflexivity.
  - intros H0 H1. rewrite H0, (clamp_float_high r H1). reflexivity.
  - intros n. unfold Drainer.drain_float. fold T.
    destruct (T <=? 0)%Z; cbn [snd].
    + rewrite firstn_nil. change (units []) with 0%Z. lia.
    + apply drain_skus_budget; [apply build_indexes_represents | reflexivity].
Qed.

Lemma C8_drain_limit_and_budget_witness :
  let s := Drainer.init Scenario.drain_stock in
  let res := Drainer.drain_float Scenario.drain_adu Scenario.BODEGA true false
               s (B64.of_Q 0.2) in
  Drainer.get_bodega_total Scenario.BODEGA s = 100%Z
  /\ Drainer.calculate_drain_limit_float Scenario.BODEGA s (B64.of_Q 0.2) = 80%Z
  /\ units (snd res) = 9%Z
  /\ forall n, (units (firstn n (snd res)) <= 80)%Z.
Proof.
  intros s res.
  destruct (C8_drain_limit_and_budget Scenario.drain_adu Scenario.BODEGA
              true false Scenario.drain_stock (B64.of_Q 0.2))
    as (_ & Hmid & _ & Hsum).
  assert (HT : Drainer.get_bodega_total Scenario.BODEGA s = 100%Z) by reflexivity.
  assert (HL : Drainer.calculate_drain_limit_float Scenario.BODEGA s
                 (B64.of_Q 0.2) = 80%Z).
  { fold s in Hmid. rewrite Hmid; vm_compute; reflexivity. }
  split; [exact HT|]. split; [exact HL|]. split; [vm_compute; reflexivity|].
  intros n. fold s in Hsum. specialize (Hsum n). rewrite HL in Hsum. exact Hsum.
Defined.

(** C8 as stated fails.  For a warehouse of 100 units and [r = 0.9] the
    code gives the limit 9, where [floor (100 * (1 - 0.9))] is 10: the
    float [1.0 - 0.9] lies below one tenth and the product below 10.  And
    for a warehouse of 1000 units and [r = 0.995] the code gives the limit
    10, where [floor (1000 * (1 - 0.995))] is 5: the ratio is capped at
    0.99. *)
Lemma C8_counterexample :
  let s := Drainer.init Scenario.drain_stock in
  let big := Drainer.init Scenario.big_stock in
  (Drainer.get_bodega_total Scenario.BODEGA s = 100%Z
   /\ 0 <= 0.9 /\ 0.9 < 1
   /\ Py.floor (inject_Z 100 * (1 - 0.9)) = 10%Z
   /\ Drainer.calculate_drain_limit_float Scenario.BODEGA s (B64.of_Q 0.9) = 9%Z)
  /\ (Drainer.get_bodega_total Scenario.BODEGA big = 1000%Z
      /\ 0 <= 0.995 /\ 0.995 < 1
      /\ Py.floor (inject_Z 1000 * (1 - 0.995)) = 5%Z
      /\ Drainer.calculate_drain_limit_float Scenario.BODEGA big (B64.of_Q 0.995)
         = 10%Z).
Proof.
  intros s big.
  split; repeat split; try (vm_compute; reflexivity); discriminate.
Qed.

(** ** The base scenario *)

(** C4, as the code has it.  The warehouse holds 100 units of an item
    without sales, the store holds 2 units with a minimum of 2, an [ADU] of
    1 and 7 target days.  The target of the store is 6: the 7 days of sales
    are capped at [MAX_STOCK_PER_SKU].  The store is not below its minimum,
    so phase 1 finds no need and executes no transfer, and the quantities
    stay 2 and 100.  When the record of the store is processed all the same,
    4 units leave the warehouse, and the quantities become 6 and 96. *)
Theorem C4_base_scenario
    (adu_df : list AduRow) (tiempos_df : list TiempoRow)
    (no_seed allow_seed_if_adu : bool) :
  let bodega := Some Scenario.BODEGA in
  let s := Engine.init bodega Scenario.base_stock in
  let s1 := Engine.run_fase1 adu_df tiempos_df bodega no_seed allow_seed_if_adu
              Scenario.base_stock in
  let s2 := Engine.process_base_needs adu_df tiempos_df bodega no_seed
              allow_seed_if_adu [Scenario.base_need] s in
  Engine.calculate_target_units s Scenario.CHIPICHAPE Scenario.SKU18 = 6%Z
  /\ Engine.identify_base_needs bodega s = []
  /\ transfers s1 = []
  /\ get_stock s1 Scenario.CHIPICHAPE Scenario.SKU18 = 2%Z
  /\ get_stock s1 Scenario.BODEGA Scenario.SKU18 = 100%Z
  /\ map (fun t => (tr_origen t, tr_destino t, tr_unidades t)) (transfers s2)
     = [(Scenario.BODEGA, Scenario.CHIPICHAPE, 4%Z)]
  /\ get_stock s2 Scenario.CHIPICHAPE Scenario.SKU18 = 6%Z
  /\ get_stock s2 Scenario.BODEGA Scenario.SKU18 = 96%Z.
Proof.
  intros bodega s s1 s2.
  assert (Hneeds : Engine.identify_base_needs bodega s = []) by reflexivity.
  assert (Hs1 : s1 = s).
  { unfold s1, Engine.run_fase1. fold bodega. fold s. rewrite Hneeds. reflexivity. }
  rewrite Hs1.
  repeat split; vm_compute; reflexivity.
Qed.

(** C4 as stated fails: the target is 6 and not 7, and phase 1 moves
    nothing, so the store is left with 2 units and the warehouse with 100. *)
Lemma C4_counterexample :
  let bodega := Some Scenario.BODEGA in
  let s := Engine.init bodega Scenario.base_stock in
  let s1 := Engine.run_fase1 [] [] bodega true false Scenario.base_stock in
  ~ (Engine.calculate_target_units s Scenario.CHIPICHAPE Scenario.SKU18 = 7%Z
     /\ map tr_unidades (transfers s1) = [5%Z]
     /\ get_stock s1 Scenario.CHIPICHAPE Scenario.SKU18 = 7%Z
     /\ get_stock s1 Scenario.BODEGA Scenario.SKU18 = 95%Z).
Proof.
  intros bodega s s1 [H _]. vm_compute in H. discriminate H.
Qed.

(** ** Rows of one key with unequal quantities *)

(** C2 fails on the code.  Every row of the table is non-negative before
    phase 1; the phase moves 6 units out of the two warehouse rows of 5 and
    1 units, 3 from each, and leaves the second row at -2. *)
Theorem C2_equal_split_goes_negative :
  let s1 := Engine.run_fase1 [] [] (Some Scenario.BODEGA) true false
              Scenario.uneven_stock in
  Forall (fun r => 0 <= Existencia r) Scenario.uneven_stock
  /\ Engine.allowed_to_send (Some Scenario.BODEGA)
       (Engine.init (Some Scenario.BODEGA) Scenario.uneven_stock)
       Scenario.BODEGA Scenario.SKU18 = 6%Z
  /\ map tr_unidades (transfers s1) = [6%Z]
  /\ Forall2 Qeq (map Existencia (stock_df s1)) [2; -2; 6]
  /\ Exists (fun r => Existencia r < 0) (stock_df s1).
Proof.
  intros s1.
  split; [repeat constructor; discriminate|].
  split; [reflexivity|]. split; [reflexivity|].
  split; [vm_compute; repeat constructor|].
  apply Exists_cons_tl, Exists_cons_hd. vm_compute. reflexivity.
Qed.

(** ** The two seeding gates *)

Lemma engine_gate_iff adu_df no_seed allow_seed_if_adu s tienda referencia sku :
  Engine.can_seed_to_store adu_df no_seed allow_seed_if_adu s tienda referencia sku
  = true
  <-> Engine.has_ref_now s tienda referencia = true
      \/ no_seed = false
      \/ (allow_seed_if_adu = true
          /\ 0 < Engine._get_adu_for_sku adu_df tienda sku).
Proof.
  unfold Engine.can_seed_to_store, Py.Qltb.
  rewrite <- Qle_bool_false.
  destruct (Engine.has_ref_now s tienda referencia), no_seed, allow_seed_if_adu;
    simpl; try destruct (Qle_bool _ 0); simpl; intuition congruence.
Qed.

Lemma drainer_gate_iff adu_df no_seed allow_seed_if_adu s tienda referencia sku :
  Drainer.can_seed_to_store adu_df no_seed allow_seed_if_adu s tienda referencia sku
  = true
  <-> Drainer.has_ref_now s tienda referencia = true
      \/ no_seed = false
      \/ (allow_seed_if_adu = true
          /\ 0 < Drainer.get_adu adu_df tienda sku).
Proof.
  unfold Drainer.can_seed_to_store, Py.Qltb.
  rewrite <- Qle_bool_false.
  destruct (Drainer.has_ref_now s tienda referencia), no_seed, allow_seed_if_adu;
    simpl; try destruct (Qle_bool _ 0); simpl; intuition congruence.
Qed.

(** The two gates differ only in how they read the velocity table. *)
Lemma gates_agree_when_adu_agrees adu_df no_seed allow_seed_if_adu s
    tienda referencia sku :
  (0 < Engine._get_adu_for_sku adu_df tienda sku
   <-> 0 < Drainer.get_adu adu_df tienda sku) ->
  Engine.can_seed_to_store adu_df no_seed allow_seed_if_adu s tienda referencia sku
  = Drainer.can_seed_to_store adu_df no_seed allow_seed_if_adu s tienda referencia sku.
Proof.
  intros H.
  pose proof (engine_gate_iff adu_df no_seed allow_seed_if_adu s tienda referencia sku) as E.
  pose proof (drainer_gate_iff adu_df no_seed allow_seed_if_adu s tienda referencia sku) as D.
  change (Drainer.has_ref_now s tienda referencia)
    with (Engine.has_ref_now s tienda referencia) in D.
  destruct (Engine.can_seed_to_store _ _ _ _ _ _ _),
           (Drainer.can_seed_to_store _ _ _ _ _ _ _); try reflexivity.
  - destruct E as [E _]. specialize (E eq_refl).
    assert (false = true) by (apply D; tauto). congruence.
  - destruct D as [D _]. specialize (D eq_refl).
    assert (false = true) by (apply E; tauto). congruence.
Qed.

(** C3 fails on the code.  With the no-seed policy on and the exception for
    demand on, for a store that holds nothing of the reference and a
    velocity table whose item code is padded, the gate of the base-needs
    engine allows the introduction (it compares the codes stripped and in
    upper case) and the gate of the drainer denies it (it looks the exact
    code up), on the same state and flags. *)
Theorem C3_gates_disagree :
  let s := Drainer.init Scenario.seed_stock in
  Engine.has_ref_now s Scenario.UNICENTRO Scenario.REF = false
  /\ Engine._get_adu_for_sku Scenario.padded_adu Scenario.UNICENTRO Scenario.SKU18
     == 0.5
  /\ Drainer.get_adu Scenario.padded_adu Scenario.UNICENTRO Scenario.SKU18 == 0
  /\ Engine.can_seed_to_store Scenario.padded_adu true true s
       Scenario.UNICENTRO Scenario.REF Scenario.SKU18 = true
  /\ Drainer.can_seed_to_store Scenario.padded_adu true true s
       Scenario.UNICENTRO Scenario.REF Scenario.SKU18 = false.
Proof.
  intros s. repeat split; reflexivity.
Qed.

(** ** Without several rows per key, phase 1 keeps every row non-negative *)

Lemma positions_from_none k rows : forall i,
  ~ In k (map row_key rows) -> positions_from i k rows = [].
Proof.
  induction rows as [|r rows IH]; intros i Hn; simpl; [reflexivity|].
  simpl in Hn.
  replace (key_eqb k (row_key r)) with false
    by (symmetry; apply key_eqb_neq; intuition congruence).
  apply IH. tauto.
Qed.

Lemma positions_from_single k rows : forall i,
  NoDup (map row_key rows) ->
  positions_from i k rows = []
  \/ exists j, positions_from i k rows = [j].
Proof.
  induction rows as [|r rows IH]; intros i Hnd; simpl; [left; reflexivity|].
  inversion Hnd as [|x l Hx Hl]; subst.
  destruct (key_eqb k (row_key r)) eqn:E.
  - apply key_eqb_eq in E; subst k.
    right. exists i. rewrite (positions_from_none _ _ _ Hx). reflexivity.
  - apply IH, Hl.
Qed.

Lemma NoDup_key_snoc (l : list Key) (x : Key) :
  ~ In x l -> NoDup l -> NoDup (l ++ [x]).
Proof.
  intros Hx Hl. induction Hl as [|y l Hy Hl IH]; simpl.
  - constructor; [tauto | constructor].
  - constructor.
    + rewrite in_app_iff. simpl in *. intuition congruence.
    + apply IH. simpl in Hx. tauto.
Qed.

Lemma healthy_get s k l :
  healthy s -> Py.get key_eqb (idx_tienda_sku s) k = Some l ->
  exists i r, l = [i] /\ nth_error (stock_df s) i = Some r /\ row_key r = k
              /\ row_ok r.
Proof.
  intros (W & Hnd & Hok) G.
  destruct (wf_get s k l W G) as [-> Hne].
  destruct (positions_from_single k (stock_df s) 0 Hnd) as [E|[i E]];
    [contradiction|].
  assert (Hin : In i (positions_from 0 k (stock_df s)))
    by (rewrite E; left; reflexivity).
  apply In_positions_from in Hin. destruct Hin as [_ [r [Hn Hk]]].
  rewrite Nat.sub_0_r in Hn.
  exists i, r. split; [exact E|]. split; [exact Hn|].
  split; [symmetry; apply key_eqb_eq, Hk|].
  rewrite Forall_forall in Hok. apply Hok. eapply nth_error_In, Hn.
Qed.

Lemma int_le (q : Q) : 0 <= q -> inject_Z (Py.int q) <= q.
Proof.
  intros H. unfold Py.int.
  replace (Qle_bool 0 q) with true by (symmetry; apply Qle_bool_iff, H).
  apply Qfloor_le.
Qed.

Lemma healthy_get_stock s tienda sku i r :
  healthy s ->
  Py.get key_eqb (idx_tienda_sku s) (tienda, sku) = Some [i] ->
  nth_error (stock_df s) i = Some r ->
  row_ok r ->
  inject_Z (get_stock s tienda sku) <= Existencia r.
Proof.
  intros H G Hn [He _]. unfold get_stock. rewrite G.
  unfold loc_sum, Existencia_at; simpl. rewrite Hn.
  eapply Qle_trans; [apply int_le|]; rewrite Qplus_0_r;
    [exact He | apply Qle_refl].
Qed.

Section EngineNonNegative.
Variable adu_df : list AduRow.
Variable tiempos_df : list TiempoRow.
Variable bodega_principal : option string.
Variables no_seed allow_seed_if_adu : bool.

(** What a store may send is within what its one row holds. *)
Lemma allowed_to_send_le_row s origen sku :
  healthy s ->
  (0 < Engine.allowed_to_send bodega_principal s origen sku)%Z ->
  exists i r,
    Py.get key_eqb (idx_tienda_sku s) (origen, sku) = Some [i]
    /\ nth_error (stock_df s) i = Some r
    /\ inject_Z (Engine.allowed_to_send bodega_principal s origen sku)
       <= Existencia r.
Proof.
  intros H Hpos. unfold Engine.allowed_to_send, first_row in *.
  destruct (Py.get key_eqb (idx_tienda_sku s) (origen, sku)) as [l|] eqn:G;
    [|lia].
  destruct (healthy_get s _ l H G) as (i & r & -> & Hn & Hk & Hok).
  rewrite Hn in *.
  exists i, r. split; [reflexivity|]. split; [exact Hn|].
  pose proof (healthy_get_stock s origen sku i r H G Hn Hok) as Hs.
  destruct Hok as [_ Hm].
  eapply Qle_trans; [|exact Hs]. rewrite <- Zle_Qle.
  destruct (Engine.is_bodega bodega_principal origen); [lia|].
  destruct (Py.Qltb 0 (row_adu r)); lia.
Qed.

Lemma map_row_key_loc_update ind f rows : forall j,
  map row_key (loc_update_from j ind f rows) = map row_key rows.
Proof.
  induction rows as [|r rows IH]; intros j; simpl; [reflexivity|].
  rewrite IH. destruct (existsb (Nat.eqb j) ind); reflexivity.
Qed.

Lemma Qdiv_1_r (c : Q) : c / 1 == c.
Proof. field. Qed.

Lemma len_Q_single i : len_Q [i] == 1.
Proof. reflexivity. Qed.

Lemma healthy_update_origen s origen sku cantidad i r :
  healthy s ->
  Py.get key_eqb (idx_tienda_sku s) (origen, sku) = Some [i] ->
  nth_error (stock_df s) i = Some r ->
  inject_Z cantidad <= Existencia r ->
  healthy (update_origen s origen sku cantidad).
Proof.
  intros H G Hn Hle.
  pose proof H as (W & Hnd & Hok).
  destruct (update_origen_total s origen sku cantidad W) as (W1 & _).
  split; [exact W1|].
  unfold update_origen. rewrite G. simpl. split.
  - unfold loc_update. rewrite map_row_key_loc_update. exact Hnd.
  - apply Forall_loc_update; [exact Hok|].
    intros j rj [<-|[]] Hj. rewrite Hn in Hj. injection Hj as <-.
    rewrite Forall_forall in Hok.
    destruct (Hok r (nth_error_In _ _ Hn)) as [_ Hm].
    split; [|exact Hm]. simpl.
    rewrite len_Q_single, Qdiv_1_r.
    apply (Qplus_le_l _ _ (inject_Z cantidad)). ring_simplify. exact Hle.
Qed.

Lemma healthy_update_destino s destino sku cantidad new :
  healthy s ->
  (0 <= cantidad)%Z ->
  row_key new = (destino, sku) ->
  row_ok new ->
  Existencia new == inject_Z cantidad ->
  healthy (update_destino s destino sku cantidad new).
Proof.
  intros H Hc Hk Hnew He.
  pose proof H as (W & Hnd & Hok).
  destruct (update_destino_total s destino sku cantidad new W Hk He) as (W1 & _).
  split; [exact W1|].
  unfold update_destino.
  destruct (Py.get key_eqb (idx_tienda_sku s) (destino, sku)) as [l|] eqn:G; simpl.
  - split.
    + unfold loc_update. rewrite map_row_key_loc_update. exact Hnd.
    + apply Forall_loc_update; [exact Hok|].
      intros j rj _ Hj. rewrite Forall_forall in Hok.
      destruct (Hok rj (nth_error_In _ _ Hj)) as [He0 Hm].
      split; [|exact Hm]. simpl.
      destruct (wf_get s _ _ W G) as [_ Hne].
      assert (Hl : 0 < len_Q l).
      { destruct l as [|a l]; [congruence|].
        unfold len_Q, Qlt; simpl. lia. }
      assert (0 <= inject_Z cantidad / len_Q l).
      { apply Qle_shift_div_l; [exact Hl|]. rewrite Qmult_0_l.
        change 0 with (inject_Z 0). rewrite <- Zle_Qle. exact Hc. }
      rewrite <- (Qplus_0_r 0). apply Qplus_le_compat; assumption.
  - split.
    + rewrite map_app; simpl. rewrite Hk.
      pose proof (wf_get_none s _ W G) as P.
      assert (Hnot : ~ In (destino, sku) (map row_key (stock_df s))).
      { intros Hin. apply in_map_iff in Hin. destruct Hin as [x [Hx Hinx]].
        apply In_nth_error in Hinx. destruct Hinx as [n Hn].
        assert (In n (positions (destino, sku) (stock_df s))).
        { apply In_positions_from. split; [lia|]. exists x.
          rewrite Nat.sub_0_r. split; [exact Hn|].
          apply key_eqb_eq. symmetry. exact Hx. }
        rewrite P in H0. contradiction. }
      apply NoDup_key_snoc; assumption.
    + apply Forall_app. split; [exact Hok | constructor; [exact Hnew | constructor]].
Qed.

Lemma engine_new_row_ok s tienda sku referencia talla cantidad :
  (0 <= cantidad)%Z ->
  row_ok (Engine._create_new_stock_row adu_df s tienda sku referencia talla cantidad).
Proof.
  intros Hc. unfold Engine._create_new_stock_row, row_ok.
  destruct (filter _ (stock_df s)) as [|sample l]; simpl.
  - split; [change 0 with (inject_Z 0); rewrite <- Zle_Qle; exact Hc|].
    destruct (Py.contains _ _); discriminate.
  - split; [change 0 with (inject_Z 0); rewrite <- Zle_Qle; exact Hc|].
    destruct (IsEcom sample); discriminate.
Qed.

Lemma engine_execute_transfer_healthy s origen destino sku qty ref talla :
  healthy s ->
  (0 < qty <= Engine.allowed_to_send bodega_principal s origen sku)%Z ->
  healthy (snd (Engine.execute_transfer adu_df no_seed allow_seed_if_adu
                  s origen destino sku qty ref talla)).
Proof.
  intros H [Hpos Hle]. unfold Engine.execute_transfer.
  destruct (negb _ && negb _); simpl; [exact H|].
  destruct (allowed_to_send_le_row s origen sku H) as (i & r & G & Hn & Ha);
    [lia|].
  assert (Hq : inject_Z qty <= Existencia r)
    by (eapply Qle_trans; [|exact Ha]; rewrite <- Zle_Qle; exact Hle).
  pose proof (healthy_update_origen s origen sku qty i r H G Hn Hq) as H1.
  set (s1 := update_origen s origen sku qty) in *.
  destruct (engine_new_row_key adu_df s1 destino sku ref talla qty) as [Hk He].
  pose proof (healthy_update_destino s1 destino sku qty
                (Engine._create_new_stock_row adu_df s1 destino sku ref talla qty)
                H1 ltac:(lia) Hk
                (engine_new_row_ok s1 destino sku ref talla qty ltac:(lia))
                ltac:(rewrite He; reflexivity)) as H2.
  exact H2.
Qed.

Lemma engine_fill_healthy tienda sku ref talla : forall origins s gap,
  healthy s ->
  healthy (fst (Engine.fill_from_origins adu_df bodega_principal
                  no_seed allow_seed_if_adu origins tienda sku ref talla s gap)).
Proof.
  induction origins as [|o origins IH]; intros s gap H; simpl; [exact H|].
  destruct (gap <=? 0)%Z; [exact H|].
  destruct (Engine.allowed_to_send bodega_principal s o sku <=? 0)%Z;
    [apply IH, H|].
  match goal with |- context [(0 <? ?q)%Z] => set (qty := q) end.
  destruct (0 <? qty)%Z eqn:Hpos; [|apply IH, H].
  apply Z.ltb_lt in Hpos.
  assert (Hq : (0 < qty <= Engine.allowed_to_send bodega_principal s o sku)%Z)
    by (unfold qty in *; lia).
  pose proof (engine_execute_transfer_healthy s o tienda sku qty ref talla H Hq) as H'.
  destruct (Engine.execute_transfer adu_df no_seed allow_seed_if_adu
              s o tienda sku qty ref talla) as [success s'].
  simpl in H'. destruct success; apply IH, H'.
Qed.

Lemma engine_process_base_needs_healthy needs : forall s,
  healthy s ->
  healthy (Engine.process_base_needs adu_df tiempos_df bodega_principal
             no_seed allow_seed_if_adu needs s).
Proof.
  unfold Engine.process_base_needs.
  induction needs as [|need needs IH]; intros s H; simpl; [exact H|].
  apply IH. unfold Engine.process_need.
  destruct (negb _ && negb _); [exact H|].
  destruct (Engine.rank_origins_for_sku _ _ _ _ _ _); [exact H|].
  apply engine_fill_healthy, H.
Qed.

Lemma engine_init_healthy stock :
  NoDup (map row_key stock) ->
  Forall (fun r => 0 <= Existencia r) stock ->
  healthy (Engine.init bodega_principal stock).
Proof.
  intros Hnd Hok. split; [apply build_indexes_represents|]. simpl. split.
  - rewrite map_map.
    replace (map (fun r => row_key (Engine.init_row bodega_principal r)) stock)
      with (map row_key stock); [exact Hnd|].
    apply map_ext. intros r. unfold Engine.init_row.
    destruct (Engine.is_bodega bodega_principal (Tienda r)); reflexivity.
  - apply Forall_map. eapply Forall_impl; [|exact Hok].
    intros r Hr. unfold Engine.init_row, row_ok.
    destruct (Engine.is_bodega bodega_principal (Tienda r)); simpl;
      (split; [exact Hr|]); [reflexivity | destruct (IsEcom r); discriminate].
Qed.

(** With one row per (store, item) and no negative quantity in the input,
    no row is negative after phase 1. *)
Lemma run_fase1_nonnegative stock :
  NoDup (map row_key stock) ->
  Forall (fun r => 0 <= Existencia r) stock ->
  Forall (fun r => 0 <= Existencia r)
         (stock_df (Engine.run_fase1 adu_df tiempos_df bodega_principal
                      no_seed allow_seed_if_adu stock)).
Proof.
  intros Hnd Hok. unfold Engine.run_fase1.
  pose proof (engine_process_base_needs_healthy
                (Engine.identify_base_needs bodega_principal
                   (Engine.init bodega_principal stock))
                _ (engine_init_healthy stock Hnd Hok)) as (_ & _ & H).
  eapply Forall_impl; [|exact H]. intros r [Hr _]. exact Hr.
Qed.

End EngineNonNegative.

(** * Further properties of the code *)

(** ** Truncation and sums over a key *)

Lemma Qfloor_unique (x : Q) (z : Z) :
  inject_Z z <= x -> x < inject_Z (z + 1) -> Qfloor x = z.
Proof.
  intros Hle Hlt. apply Z.le_antisymm.
  - assert (H : (Qfloor x < z + 1)%Z).
    { rewrite Zlt_Qlt. eapply Qle_lt_trans; [apply Qfloor_le | exact Hlt]. }
    lia.
  - rewrite <- (Qfloor_Z z). apply Qfloor_resp_le, Hle.
Qed.

Lemma Qfloor_add_Z (x : Q) (c : Z) : Qfloor (x + inject_Z c) = (Qfloor x + c)%Z.
Proof.
  apply Qfloor_unique.
  - rewrite inject_Z_plus. apply Qplus_le_compat; [apply Qfloor_le | apply Qle_refl].
  - replace (Qfloor x + c + 1)%Z with ((Qfloor x + 1) + c)%Z by lia.
    rewrite inject_Z_plus. apply Qplus_lt_le_compat; [apply Qlt_floor | apply Qle_refl].
Qed.

Lemma int_comp (x y : Q) : x == y -> Py.int x = Py.int y.
Proof.
  intros H. unfold Py.int.
  assert (E : Qle_bool 0 x = Qle_bool 0 y).
  { destruct (Qle_bool 0 x) eqn:Ex, (Qle_bool 0 y) eqn:Ey; try reflexivity.
    - apply Qle_bool_iff in Ex. rewrite H in Ex. apply Qle_bool_iff in Ex. congruence.
    - apply Qle_bool_iff in Ey. rewrite <- H in Ey. apply Qle_bool_iff in Ey. congruence. }
  rewrite E. destruct (Qle_bool 0 y); [apply Qfloor_comp | apply Qceiling_comp]; exact H.
Qed.

Lemma int_nonneg (x : Q) : 0 <= x -> Py.int x = Qfloor x /\ (0 <= Py.int x)%Z.
Proof.
  intros H. unfold Py.int.
  replace (Qle_bool 0 x) with true by (symmetry; apply Qle_bool_iff, H).
  split; [reflexivity|]. rewrite <- (Qfloor_Z 0). apply Qfloor_resp_le, H.
Qed.

(** [int(x + c) = int(x) + c] and [int(x - c) = int(x) - c] as long as the
    arguments stay non-negative. *)
Lemma int_add (x : Q) (c : Z) :
  0 <= x -> (0 <= c)%Z -> Py.int (x + inject_Z c) = (Py.int x + c)%Z.
Proof.
  intros Hx Hc.
  assert (Hc' : 0 <= inject_Z c) by (change 0 with (inject_Z 0); rewrite <- Zle_Qle; exact Hc).
  assert (H : 0 <= x + inject_Z c).
  { rewrite <- (Qplus_0_r 0). apply Qplus_le_compat; assumption. }
  rewrite (proj1 (int_nonneg _ H)), (proj1 (int_nonneg _ Hx)). apply Qfloor_add_Z.
Qed.

Lemma int_sub (x : Q) (c : Z) :
  0 <= x - inject_Z c -> (0 <= c)%Z -> Py.int (x - inject_Z c) = (Py.int x - c)%Z.
Proof.
  intros H Hc.
  pose proof (int_add (x - inject_Z c) c H Hc) as E.
  rewrite (int_comp (x - inject_Z c + inject_Z c) x) in E by ring. lia.
Qed.

Lemma Existencia_at_app_r (pre rows : list StockRow) (r : StockRow) :
  Existencia_at (pre ++ r :: rows) (List.length pre) = Existencia r.
Proof.
  unfold Existencia_at. rewrite nth_error_app2, Nat.sub_diag by lia. reflexivity.
Qed.

Lemma loc_sum_positions_from k rows : forall pre,
  loc_sum (pre ++ rows) (positions_from (List.length pre) k rows)
  == key_total k rows.
Proof.
  unfold key_total.
  induction rows as [|r rows IH]; intros pre; simpl; [reflexivity|].
  specialize (IH (pre ++ [r])).
  rewrite <- app_assoc, length_app in IH. simpl in IH.
  rewrite Nat.add_1_r in IH.
  destruct (key_eqb k (row_key r)); simpl.
  - rewrite Existencia_at_app_r. unfold loc_sum in IH. rewrite IH. reflexivity.
  - exact IH.
Qed.

Lemma loc_sum_positions k rows :
  loc_sum rows (positions k rows) == key_total k rows.
Proof. apply (loc_sum_positions_from k rows []). Qed.

(** In a state whose index describes its table, [get_stock] is the
    truncated sum of the rows of the key, and 0 for a key without rows. *)
Lemma get_stock_key_total s tienda sku :
  wf s -> get_stock s tienda sku = Py.int (key_total (tienda, sku) (stock_df s)).
Proof.
  intros W. unfold get_stock.
  destruct (Py.get key_eqb (idx_tienda_sku s) (tienda, sku)) as [l|] eqn:G.
  - destruct (wf_get s _ _ W G) as [-> _]. apply int_comp, loc_sum_positions.
  - pose proof (wf_get_none s _ W G) as P.
    symmetry. rewrite (int_comp _ 0) by (apply key_total_positions_nil, P).
    reflexivity.
Qed.

(** ** One transfer, seen from the keys *)

Lemma extends_refl P s : extends P s s.
Proof. exists []. rewrite app_nil_r. split; [reflexivity | constructor]. Qed.

Lemma extends_trans P s1 s2 s3 :
  extends P s1 s2 -> extends P s2 s3 -> extends P s1 s3.
Proof.
  intros (n1 & E1 & F1) (n2 & E2 & F2). exists (n1 ++ n2). split.
  - rewrite E2, E1, app_assoc. reflexivity.
  - apply Forall_app; auto.
Qed.

Lemma move_key_total s origen destino sku cantidad r k :
  wf s ->
  Py.mem key_eqb (idx_tienda_sku s) (origen, sku) = true ->
  row_key r = (destino, sku) ->
  Existencia r == inject_Z cantidad ->
  key_total k (stock_df (update_destino (update_origen s origen sku cantidad)
                           destino sku cantidad r))
  == key_total k (stock_df s)
     - (if key_eqb (origen, sku) k then inject_Z cantidad else 0)
     + (if key_eqb (destino, sku) k then inject_Z cantidad else 0).
Proof.
  intros W Ho Hk He.
  destruct (update_origen_total s origen sku cantidad W) as (W1 & _).
  rewrite (update_destino_key_total _ destino sku cantidad r k W1 Hk He).
  rewrite (update_origen_key_total s origen sku cantidad k W Ho). reflexivity.
Qed.

Lemma inject_Z_nonneg (c : Z) : (0 <= c)%Z -> 0 <= inject_Z c.
Proof. intros H. change 0 with (inject_Z 0). rewrite <- Zle_Qle. exact H. Qed.

(** The stock mutation shared by the three [execute_transfer], between two
    different stores and within what the origin key holds. *)
Lemma move_sound s origen destino sku cantidad r :
  wf s -> keys_nonneg (stock_df s) ->
  Py.mem key_eqb (idx_tienda_sku s) (origen, sku) = true ->
  origen <> destino ->
  (0 <= cantidad)%Z ->
  inject_Z cantidad <= key_total (origen, sku) (stock_df s) ->
  row_key r = (destino, sku) ->
  Existencia r == inject_Z cantidad ->
  let s2 := update_destino (update_origen s origen sku cantidad)
              destino sku cantidad r in
  wf s2 /\ keys_nonneg (stock_df s2)
  /\ get_stock s2 origen sku = (get_stock s origen sku - cantidad)%Z
  /\ get_stock s2 destino sku = (get_stock s destino sku + cantidad)%Z
  /\ (forall k, k <> (origen, sku) -> k <> (destino, sku) ->
        key_total k (stock_df s2) == key_total k (stock_df s))
  /\ key_total (origen, sku) (stock_df s2)
     == key_total (origen, sku) (stock_df s) - inject_Z cantidad.
Proof.
  intros W N Ho Hod Hc Hle Hk He s2.
  destruct (update_origen_total s origen sku cantidad W) as (W1 & _).
  destruct (update_destino_total (update_origen s origen sku cantidad)
              destino sku cantidad r W1 Hk He) as (W2 & _).
  fold s2 in W2.
  assert (K : forall k, key_total k (stock_df s2)
                == key_total k (stock_df s)
                   - (if key_eqb (origen, sku) k then inject_Z cantidad else 0)
                   + (if key_eqb (destino, sku) k then inject_Z cantidad else 0))
    by (intros k; apply move_key_total; assumption).
  assert (Hne : key_eqb (origen, sku) (destino, sku) = false)
    by (apply key_eqb_neq; congruence).
  assert (Ko : key_total (origen, sku) (stock_df s2)
               == key_total (origen, sku) (stock_df s) - inject_Z cantidad).
  { rewrite K, key_eqb_refl, (key_eqb_sym (destino, sku)), Hne. ring. }
  assert (Kd : key_total (destino, sku) (stock_df s2)
               == key_total (destino, sku) (stock_df s) + inject_Z cantidad).
  { rewrite K, key_eqb_refl, Hne. ring. }
  pose proof (inject_Z_nonneg cantidad Hc) as Hc'.
  split; [exact W2|]. split; [|split; [|split; [|split]]].
  - intros k. rewrite K.
    destruct (key_eqb (origen, sku) k) eqn:E1.
    + apply key_eqb_eq in E1. subst k.
      rewrite (key_eqb_sym (destino, sku)), Hne.
      apply (Qplus_le_l _ _ (inject_Z cantidad)). ring_simplify. exact Hle.
    + destruct (key_eqb (destino, sku) k).
      * apply (Qle_trans _ (key_total k (stock_df s) + 0)); [rewrite Qplus_0_r; apply N|].
        apply (Qplus_le_l _ _ (- key_total k (stock_df s))). ring_simplify. exact Hc'.
      * ring_simplify. apply N.
  - rewrite (get_stock_key_total s2 _ _ W2), (get_stock_key_total s _ _ W).
    rewrite (int_comp _ _ Ko). apply int_sub; [|exact Hc].
    apply (Qplus_le_l _ _ (inject_Z cantidad)). ring_simplify. exact Hle.
  - rewrite (get_stock_key_total s2 _ _ W2), (get_stock_key_total s _ _ W).
    rewrite (int_comp _ _ Kd). apply int_add; [apply N | exact Hc].
  - intros k Hko Hkd. rewrite K.
    replace (key_eqb (origen, sku) k) with false
      by (symmetry; apply key_eqb_neq; congruence).
    replace (key_eqb (destino, sku) k) with false
      by (symmetry; apply key_eqb_neq; congruence).
    ring.
  - exact Ko.
Qed.

Lemma transfers_move s origen destino sku cantidad r :
  transfers (update_destino (update_origen s origen sku cantidad)
               destino sku cantidad r)
  = transfers s.
Proof.
  unfold update_destino, update_origen.
  destruct (Py.get key_eqb (idx_tienda_sku s) (origen, sku)); simpl;
    destruct (Py.get key_eqb (idx_tienda_sku s) (destino, sku)); reflexivity.
Qed.

Lemma get_stock_record_transfer s t tienda sku :
  get_stock (record_transfer s t) tienda sku = get_stock s tienda sku.
Proof. reflexivity. Qed.

Lemma Forall_loc_update_from (P : StockRow -> Prop) ind f rows :
  (forall r q, P r -> P (with_Existencia r q)) ->
  Forall P rows -> forall j, Forall P (loc_update_from j ind f rows).
Proof.
  intros HP H. induction H as [|r rows Hr _ IH]; intros j; simpl; constructor.
  - destruct (existsb (Nat.eqb j) ind); [apply HP|]; exact Hr.
  - apply IH.
Qed.

Lemma Forall_move (P : StockRow -> Prop) s origen destino sku cantidad r :
  (forall r q, P r -> P (with_Existencia r q)) ->
  P r ->
  Forall P (stock_df s) ->
  Forall P (stock_df (update_destino (update_origen s origen sku cantidad)
                        destino sku cantidad r)).
Proof.
  intros HP Hr H.
  assert (H1 : Forall P (stock_df (update_origen s origen sku cantidad))).
  { unfold update_origen.
    destruct (Py.get key_eqb (idx_tienda_sku s) (origen, sku)); simpl; [|exact H].
    apply Forall_loc_update_from; assumption. }
  unfold update_destino.
  destruct (Py.get key_eqb _ (destino, sku)); simpl.
  - apply Forall_loc_update_from; assumption.
  - apply Forall_app. split; [exact H1 | constructor; [exact Hr | constructor]].
Qed.

(** The first row of a key is a row of the table with that key. *)
Lemma wf_first_row s tienda sku r :
  wf s -> first_row s tienda sku = Some r ->
  In r (stock_df s) /\ row_key r = (tienda, sku)
  /\ Py.mem key_eqb (idx_tienda_sku s) (tienda, sku) = true.
Proof.
  intros W. unfold first_row, Py.mem.
  destruct (Py.get key_eqb (idx_tienda_sku s) (tienda, sku)) as [l|] eqn:G;
    [|discriminate].
  destruct l as [|i l]; [discriminate|]. intros Hn.
  destruct (wf_get s _ _ W G) as [E _].
  assert (Hin : In i (positions (tienda, sku) (stock_df s)))
    by (rewrite <- E; left; reflexivity).
  apply In_positions_from in Hin. destruct Hin as [_ [r' [Hn' Hk]]].
  rewrite Nat.sub_0_r in Hn'. rewrite Hn in Hn'. injection Hn' as <-.
  split; [eapply nth_error_In, Hn|]. split; [|reflexivity].
  symmetry. apply key_eqb_eq, Hk.
Qed.

(** ** Phase 1, transfer by transfer *)

Section EngineSound.
Variable adu_df : list AduRow.
Variable tiempos_df : list TiempoRow.
Variable bodega_principal : option string.
Variables no_seed allow_seed_if_adu : bool.

Lemma min_ok_with_Existencia r q :
  min_ok bodega_principal r -> min_ok bodega_principal (with_Existencia r q).
Proof. intros H; exact H. Qed.

(** A store never offers more than it holds, and a store other than the
    warehouse keeps at least its minimum. *)
Lemma allowed_to_send_bound s origen sku :
  sound1 bodega_principal s ->
  (0 < Engine.allowed_to_send bodega_principal s origen sku)%Z ->
  Py.mem key_eqb (idx_tienda_sku s) (origen, sku) = true
  /\ (Engine.allowed_to_send bodega_principal s origen sku
      <= get_stock s origen sku)%Z
  /\ (Engine.is_bodega bodega_principal origen = false ->
      (Engine.allowed_to_send bodega_principal s origen sku + 2
       <= get_stock s origen sku)%Z).
Proof.
  intros (W & N & M) Hpos. unfold Engine.allowed_to_send in *.
  destruct (first_row s origen sku) as [row|] eqn:F; [|lia].
  destruct (wf_first_row s origen sku row W F) as (Hin & Hk & Hm).
  rewrite Forall_forall in M. destruct (M row Hin) as [M0 M2].
  assert (Ht : Tienda row = origen) by (unfold row_key in Hk; congruence).
  rewrite Ht in M2.
  split; [exact Hm|].
  destruct (Engine.is_bodega bodega_principal origen).
  - split; [lia | discriminate].
  - specialize (M2 eq_refl).
    destruct (Py.Qltb 0 (row_adu row)); split; intros; lia.
Qed.

Lemma engine_new_row_min_ok s tienda sku referencia talla cantidad :
  min_ok bodega_principal
    (Engine._create_new_stock_row adu_df s tienda sku referencia talla cantidad).
Proof.
  unfold Engine._create_new_stock_row, min_ok.
  destruct (filter _ (stock_df s)) as [|sample l]; simpl.
  - destruct (Py.contains _ _); split; intros; discriminate.
  - destruct (IsEcom sample); split; intros; discriminate.
Qed.

Lemma engine_step_sound s origen destino sku qty ref talla :
  sound1 bodega_principal s ->
  origen <> destino ->
  Engine.is_bodega bodega_principal destino = false ->
  (0 < qty <= Engine.allowed_to_send bodega_principal s origen sku)%Z ->
  (qty <= Z.max 0 (Settings.MAX_STOCK_PER_SKU - get_stock s destino sku))%Z ->
  let s' := snd (Engine.execute_transfer adu_df no_seed allow_seed_if_adu
                   s origen destino sku qty ref talla) in
  sound1 bodega_principal s'
  /\ extends (fun t => fase1_ok bodega_principal t /\ tr_destino t = destino) s s'.
Proof.
  intros S Hod Hbd [Hpos Hle] Hcap. cbv zeta.
  pose proof S as (W & N & M).
  destruct (allowed_to_send_bound s origen sku S ltac:(lia)) as (Hm & Hst & Hret).
  unfold Engine.execute_transfer.
  destruct (negb _ && negb _); simpl; [split; [exact S | apply extends_refl]|].
  set (s1 := update_origen s origen sku qty).
  destruct (engine_new_row_key adu_df s1 destino sku ref talla qty) as [Hk He].
  assert (Hq : inject_Z qty <= key_total (origen, sku) (stock_df s)).
  { apply (Qle_trans _ (inject_Z (Py.int (key_total (origen, sku) (stock_df s)))));
      [|apply int_le, N].
    rewrite <- (get_stock_key_total s origen sku W), <- Zle_Qle. lia. }
  destruct (move_sound s origen destino sku qty
              (Engine._create_new_stock_row adu_df s1 destino sku ref talla qty)
              W N Hm Hod ltac:(lia) Hq Hk ltac:(rewrite He; reflexivity))
    as (W2 & N2 & Go & Gd & _).
  subst s1.
  split.
  - split; [exact W2|]. split; [exact N2|].
    apply Forall_move; [intros; assumption | apply engine_new_row_min_ok | exact M].
  - eexists. split; [simpl; rewrite transfers_move; reflexivity|].
    constructor; [|constructor].
    unfold fase1_ok, snapshots_ok.
    cbn [tr_unidades tr_origen tr_destino tr_origen_antes tr_origen_despues
         tr_destino_antes tr_destino_despues].
    rewrite Go, Gd.
    assert (0 <= get_stock s destino sku)%Z
      by (rewrite (get_stock_key_total s _ _ W); apply int_nonneg, N).
    repeat split; try assumption; try lia.
    intros Hb. specialize (Hret Hb). lia.
Qed.

Lemma engine_fill_sound tienda sku ref talla :
  Engine.is_bodega bodega_principal tienda = false ->
  forall origins s gap,
    sound1 bodega_principal s ->
    (forall o, In o origins -> o <> tienda) ->
    let s' := fst (Engine.fill_from_origins adu_df bodega_principal
                     no_seed allow_seed_if_adu origins tienda sku ref talla s gap) in
    sound1 bodega_principal s'
    /\ extends (fun t => fase1_ok bodega_principal t /\ tr_destino t = tienda) s s'.
Proof.
  intros Hb. induction origins as [|o origins IH]; intros s gap S Hne;
    cbv zeta in *; cbn [Engine.fill_from_origins fst].
  - split; [exact S | apply extends_refl].
  - assert (Hrest : forall o', In o' origins -> o' <> tienda)
      by (intros; apply Hne; right; assumption).
    destruct (gap <=? 0)%Z; [split; [exact S | apply extends_refl]|].
    destruct (Engine.allowed_to_send bodega_principal s o sku <=? 0)%Z;
      [apply IH; assumption|].
    match goal with |- context [(0 <? ?q)%Z] => set (qty := q) end.
    destruct (0 <? qty)%Z eqn:Hpos; [|apply IH; assumption].
    apply Z.ltb_lt in Hpos.
    pose proof (engine_step_sound s o tienda sku qty ref talla S
                  (Hne o (or_introl eq_refl)) Hb
                  ltac:(unfold qty in *; lia) ltac:(unfold qty; lia)) as [S' X'].
    destruct (Engine.execute_transfer adu_df no_seed allow_seed_if_adu
                s o tienda sku qty ref talla) as [success s'].
    simpl in S', X'.
    destruct success.
    + destruct (IH s' (gap - qty)%Z S' Hrest) as [S'' X'']. split;
        [exact S'' | eapply extends_trans; eassumption].
    + destruct (IH s' gap S' Hrest) as [S'' X'']. split;
        [exact S'' | eapply extends_trans; eassumption].
Qed.

Lemma engine_process_need_sound s need :
  sound1 bodega_principal s ->
  Engine.is_bodega bodega_principal (n_Tienda need) = false ->
  let s' := Engine.process_need adu_df tiempos_df bodega_principal
              no_seed allow_seed_if_adu s need in
  sound1 bodega_principal s' /\ extends (fase1_ok bodega_principal) s s'.
Proof.
  intros S Hb. cbv zeta. unfold Engine.process_need.
  destruct (negb _ && negb _); [split; [exact S | apply extends_refl]|].
  destruct (Engine.rank_origins_for_sku tiempos_df bodega_principal s
              (n_SKU need) (n_Tienda need) (n_Referencia need)) as [|o os] eqn:R.
  - split; [exact S | apply extends_refl].
  - destruct (engine_fill_sound (n_Tienda need) (n_SKU need) (n_Referencia need)
                (n_Talla need) Hb (o :: os) s
                (Z.max 0 (Engine.calculate_target_units s (n_Tienda need) (n_SKU need)
                          - get_stock s (n_Tienda need) (n_SKU need)))
                S) as [S' (new & En & Fn)].
    + intros o' Ho'. rewrite <- R in Ho'.
      apply rank_origins_candidate in Ho'. destruct Ho' as [Hc _].
      unfold Engine.is_candidate in Hc.
      destruct (negb (String.eqb (n_SKU need) (n_SKU need))); [discriminate|].
      destruct (String.eqb o' (n_Tienda need)) eqn:E; [discriminate|].
      apply String.eqb_neq, E.
    + split; [exact S'|]. exists new. split; [exact En|].
      eapply Forall_impl; [|exact Fn]. intros t [Ht _]. exact Ht.
Qed.

Lemma engine_process_base_needs_sound needs : forall s,
  sound1 bodega_principal s ->
  Forall (fun n => Engine.is_bodega bodega_principal (n_Tienda n) = false) needs ->
  let s' := Engine.process_base_needs adu_df tiempos_df bodega_principal
              no_seed allow_seed_if_adu needs s in
  sound1 bodega_principal s' /\ extends (fase1_ok bodega_principal) s s'.
Proof.
  unfold Engine.process_base_needs.
  induction needs as [|need needs IH]; intros s S Hn; cbv zeta in *; simpl.
  - split; [exact S | apply extends_refl].
  - inversion Hn as [|x l Hx Hl]; subst.
    destruct (engine_process_need_sound s need S Hx) as [S1 X1].
    destruct (IH _ S1 Hl) as [S2 X2].
    split; [exact S2 | eapply extends_trans; eassumption].
Qed.

Lemma key_total_init k stock :
  key_total k (map (Engine.init_row bodega_principal) stock) == key_total k stock.
Proof.
  unfold key_total. induction stock as [|r stock IH]; simpl; [reflexivity|].
  assert (Hk : row_key (Engine.init_row bodega_principal r) = row_key r)
    by (unfold Engine.init_row;
        destruct (Engine.is_bodega bodega_principal (Tienda r)); reflexivity).
  assert (He : Existencia (Engine.init_row bodega_principal r) = Existencia r)
    by (unfold Engine.init_row;
        destruct (Engine.is_bodega bodega_principal (Tienda r)); reflexivity).
  rewrite Hk. destruct (key_eqb k (row_key r)); simpl; [rewrite He, IH; reflexivity | exact IH].
Qed.

Lemma engine_init_sound stock :
  keys_nonneg stock -> sound1 bodega_principal (Engine.init bodega_principal stock).
Proof.
  intros N. split; [apply build_indexes_represents|]. simpl. split.
  - intros k. rewrite key_total_init. apply N.
  - apply Forall_map, Forall_forall. intros r _.
    unfold Engine.init_row, min_ok.
    destruct (Engine.is_bodega bodega_principal (Tienda r)) eqn:E; simpl.
    + rewrite E. split; [reflexivity | discriminate].
    + rewrite E. destruct (IsEcom r); split; intros; discriminate.
Qed.

(** No record of [identify_base_needs] is for the warehouse. *)
Lemma identify_base_needs_not_bodega s :
  Forall (fun n => Engine.is_bodega bodega_principal (n_Tienda n) = false)
         (Engine.identify_base_needs bodega_principal s).
Proof.
  apply Forall_forall. intros n Hn. unfold Engine.identify_base_needs in Hn.
  apply In_sort in Hn. apply filter_In in Hn. destruct Hn as [Hn _].
  apply in_map_iff in Hn. destruct Hn as [r [<- Hr]].
  apply filter_In in Hr. destruct Hr as [_ Hm]. simpl.
  apply andb_true_iff in Hm. destruct Hm as [_ Hm].
  destruct (Py.truthy bodega_principal) eqn:T.
  - apply negb_true_iff, Hm.
  - unfold Engine.is_bodega. destruct bodega_principal; [rewrite T|]; reflexivity.
Qed.

Lemma run_fase1_sound stock :
  keys_nonneg stock ->
  let s' := Engine.run_fase1 adu_df tiempos_df bodega_principal
              no_seed allow_seed_if_adu stock in
  sound1 bodega_principal s' /\ Forall (fase1_ok bodega_principal) (transfers s').
Proof.
  intros N. cbv zeta. unfold Engine.run_fase1.
  destruct (engine_process_base_needs_sound
              (Engine.identify_base_needs bodega_principal
                 (Engine.init bodega_principal stock))
              _ (engine_init_sound stock N)
              (identify_base_needs_not_bodega _)) as [S (new & En & Fn)].
  split; [exact S|]. rewrite En. exact Fn.
Qed.

End EngineSound.

(** ** Phase 2, transfer by transfer *)

Lemma get_stock_mem s tienda sku :
  get_stock s tienda sku <> 0%Z ->
  Py.mem key_eqb (idx_tienda_sku s) (tienda, sku) = true.
Proof.
  unfold get_stock, Py.mem.
  destruct (Py.get key_eqb (idx_tienda_sku s) (tienda, sku)); [reflexivity | congruence].
Qed.

Lemma get_stock_le_key_total s tienda sku :
  sound2 s ->
  inject_Z (get_stock s tienda sku) <= key_total (tienda, sku) (stock_df s)
  /\ (0 <= get_stock s tienda sku)%Z.
Proof.
  intros [W N]. rewrite (get_stock_key_total s _ _ W).
  split; [apply int_le, N | apply int_nonneg, N].
Qed.

Section CurveSound.
Variable adu_df : list AduRow.
Variable bodega_principal : string.

Lemma curve_step_sound s tienda sku qty ref talla :
  sound2 s ->
  tienda <> bodega_principal ->
  (0 < qty <= get_stock s bodega_principal sku)%Z ->
  (get_stock s tienda sku + qty <= Settings.MIN_POR_SKU_TIENDA)%Z ->
  sku = (ref ++ talla)%string ->
  curve_size talla ->
  Curve.ADU_MIN_THRESHOLD <= Curve.get_adu adu_df tienda sku ->
  let s' := snd (Curve.execute_transfer adu_df s bodega_principal tienda sku
                   qty ref talla) in
  sound2 s' /\ extends (fase2_ok adu_df bodega_principal) s s'.
Proof.
  intros S Hne [Hpos Hle] Hcap Hsku Hsize Hadu. cbv zeta.
  pose proof S as [W N].
  unfold Curve.execute_transfer.
  assert (Hm : Py.mem key_eqb (idx_tienda_sku s) (bodega_principal, sku) = true)
    by (apply get_stock_mem; lia).
  rewrite Hm. simpl.
  destruct (get_stock s bodega_principal sku <? qty)%Z eqn:E;
    [apply Z.ltb_lt in E; lia|].
  cbn [snd].
  destruct (get_stock_le_key_total s bodega_principal sku S) as [Hk _].
  destruct (get_stock_le_key_total s tienda sku S) as [_ Hd0].
  assert (Hq : inject_Z qty <= key_total (bodega_principal, sku) (stock_df s))
    by (eapply Qle_trans; [|exact Hk]; rewrite <- Zle_Qle; lia).
  destruct (move_sound s bodega_principal tienda sku qty
              (Curve._create_stock_row adu_df tienda sku ref talla qty)
              W N Hm ltac:(congruence) ltac:(lia) Hq eq_refl ltac:(reflexivity))
    as (W2 & N2 & Go & Gd & _).
  split; [split; assumption|].
  eexists. split; [simpl; rewrite transfers_move; reflexivity|].
  constructor; [|constructor].
  unfold fase2_ok, snapshots_ok.
  cbn [tr_unidades tr_origen tr_destino tr_origen_antes tr_origen_despues
       tr_destino_antes tr_destino_despues tr_talla tr_referencia].
  rewrite Go, Gd.
  repeat split; try assumption; try lia.
  exists talla. subst sku. repeat split; assumption.
Qed.

Lemma curve_tallas_sound tienda ref :
  tienda <> bodega_principal ->
  forall tallas s,
    sound2 s ->
    (forall talla, In talla tallas ->
       curve_size talla
       /\ Curve.ADU_MIN_THRESHOLD <= Curve.get_adu adu_df tienda (ref ++ talla)) ->
    let s' := Curve.complete_tallas adu_df bodega_principal tallas tienda ref s in
    sound2 s' /\ extends (fase2_ok adu_df bodega_principal) s s'.
Proof.
  intros Hne. induction tallas as [|talla tallas IH]; intros s S Ht;
    cbv zeta in *; cbn [Curve.complete_tallas].
  - split; [exact S | apply extends_refl].
  - assert (Hrest : forall t, In t tallas ->
              curve_size t
              /\ Curve.ADU_MIN_THRESHOLD <= Curve.get_adu adu_df tienda (ref ++ t))
      by (intros; apply Ht; right; assumption).
    destruct (Curve.get_bodega_total bodega_principal s <=? 0)%Z;
      [split; [exact S | apply extends_refl]|].
    match goal with |- context [(?n <=? 0)%Z] => set (necesita := n) end.
    destruct (necesita <=? 0)%Z; [apply IH; assumption|].
    destruct (get_stock s bodega_principal (ref ++ talla) <=? 0)%Z eqn:Eb;
      [apply IH; assumption|].
    apply Z.leb_gt in Eb.
    match goal with |- context [(0 <? ?q)%Z] => set (qty := q) end.
    destruct (0 <? qty)%Z eqn:Hpos; [|apply IH; assumption].
    apply Z.ltb_lt in Hpos.
    destruct (Ht talla (or_introl eq_refl)) as [Hsize Hadu].
    destruct (curve_step_sound s tienda (ref ++ talla) qty ref talla S Hne
                ltac:(unfold qty in *; lia)
                ltac:(unfold qty, necesita in *; lia)
                eq_refl Hsize Hadu) as [S1 X1].
    destruct (IH _ S1 Hrest) as [S2 X2].
    split; [exact S2 | eapply extends_trans; eassumption].
Qed.

(** The candidate sizes are sizes of the curve that sell enough. *)
Lemma get_candidate_tallas_In s tienda ref rango talla :
  In talla (Curve.get_candidate_tallas adu_df s tienda ref rango) ->
  In talla (Settings.CURVAS_TALLAS rango)
  /\ Curve.ADU_MIN_THRESHOLD <= Curve.get_adu adu_df tienda (ref ++ talla)
  /\ (get_stock s tienda (ref ++ talla) < Settings.MIN_POR_SKU_TIENDA)%Z.
Proof.
  unfold Curve.get_candidate_tallas. intros H.
  apply in_map_iff in H. destruct H as [[t a] [Ht H]]. simpl in Ht. subst t.
  apply In_sort in H. apply in_flat_map in H. destruct H as [t [Hc H]].
  destruct (Py.Qltb (Curve.get_adu adu_df tienda (ref ++ t)) Curve.ADU_MIN_THRESHOLD) eqn:E1;
    [contradiction|].
  destruct (Settings.MIN_POR_SKU_TIENDA <=? get_stock s tienda (ref ++ t))%Z eqn:E2;
    [contradiction|].
  destruct H as [H|[]]. injection H as Ht Ha. subst t. clear Ha.
  split; [exact Hc|]. split.
  - unfold Py.Qltb in E1. apply negb_false_iff, Qle_bool_iff in E1. exact E1.
  - apply Z.leb_gt in E2. exact E2.
Qed.

Lemma curve_refs_sound tienda :
  tienda <> bodega_principal ->
  forall refs s,
    sound2 s ->
    let s' := Curve.complete_refs adu_df bodega_principal refs tienda s in
    sound2 s' /\ extends (fase2_ok adu_df bodega_principal) s s'.
Proof.
  intros Hne. induction refs as [|ref refs IH]; intros s S;
    cbv zeta in *; cbn [Curve.complete_refs].
  - split; [exact S | apply extends_refl].
  - destruct (Curve.get_bodega_total bodega_principal s <=? 0)%Z;
      [split; [exact S | apply extends_refl]|].
    destruct (Curve.get_rango_for_ref s tienda ref) as [rango|]; [|apply IH, S].
    destruct (curve_tallas_sound tienda ref Hne
                (Curve.get_candidate_tallas adu_df s tienda ref rango) s S)
      as [S1 X1].
    + intros talla Ht. apply get_candidate_tallas_In in Ht.
      destruct Ht as (Hc & Ha & _). split; [|exact Ha].
      destruct rango; [left | right]; exact Hc.
    + destruct (IH _ S1) as [S2 X2].
      split; [exact S2 | eapply extends_trans; eassumption].
Qed.

Lemma curve_stores_sound : forall stores s,
  sound2 s ->
  (forall t, In t stores -> t <> bodega_principal) ->
  let s' := Curve.complete_stores adu_df bodega_principal stores s in
  sound2 s' /\ extends (fase2_ok adu_df bodega_principal) s s'.
Proof.
  induction stores as [|tienda stores IH]; intros s S Hs;
    cbv zeta in *; cbn [Curve.complete_stores].
  - split; [exact S | apply extends_refl].
  - destruct (Curve.get_bodega_total bodega_principal s <=? 0)%Z;
      [split; [exact S | apply extends_refl]|].
    destruct (curve_refs_sound tienda (Hs tienda (or_introl eq_refl))
                (Curve.refs_by_adu adu_df s tienda) s S) as [S1 X1].
    destruct (IH _ S1 (fun t H => Hs t (or_intror H))) as [S2 X2].
    split; [exact S2 | eapply extends_trans; eassumption].
Qed.

(** [prioritize_stores] lists the stores of the table but the warehouse. *)
Lemma prioritize_stores_In s t :
  In t (Curve.prioritize_stores adu_df bodega_principal s) ->
  t <> bodega_principal /\ In t (map Tienda (stock_df s)).
Proof.
  unfold Curve.prioritize_stores. intros H.
  apply In_sort in H. apply filter_In in H. destruct H as [H Hb].
  split; [apply String.eqb_neq, negb_true_iff, Hb|].
  clear Hb. revert H. generalize (map Tienda (stock_df s)).
  induction l as [|x l IH]; simpl; [tauto|].
  intros [->|H]; [left; reflexivity|].
  apply filter_In in H. right. apply IH, H.
Qed.

Lemma run_fase2_sound stock :
  keys_nonneg stock ->
  let res := Curve.run_fase2 adu_df bodega_principal stock in
  keys_nonneg (fst res) /\ Forall (fase2_ok adu_df bodega_principal) (snd res).
Proof.
  intros N. cbv zeta. unfold Curve.run_fase2, Curve.complete_curves.
  assert (S : sound2 (Curve.init stock))
    by (split; [apply build_indexes_represents | exact N]).
  destruct (Curve.get_bodega_total bodega_principal (Curve.init stock) <=? 0)%Z;
    cbn [fst snd]; [split; [exact N | constructor]|].
  destruct (curve_stores_sound
              (Curve.prioritize_stores adu_df bodega_principal (Curve.init stock))
              (Curve.init stock) S) as [[_ N'] (new & En & Fn)].
  - intros t Ht. apply prioritize_stores_In in Ht. apply Ht.
  - split; [exact N'|]. rewrite En. exact Fn.
Qed.

End CurveSound.

(** ** Sorting, first occurrences and the velocity index *)

Lemma Permutation_insert (A : Type) (lt : A -> A -> bool) (x : A) (l : list A) :
  Permutation (Py.insert lt x l) (x :: l).
Proof.
  induction l as [|y l IH]; simpl; [apply Permutation_refl|].
  destruct (lt y x); [|apply Permutation_refl].
  eapply Permutation_trans; [apply perm_skip, IH | apply perm_swap].
Qed.

(** [list.sort] rearranges, it neither drops nor repeats. *)
Lemma Permutation_sort (A : Type) (lt : A -> A -> bool) (l : list A) :
  Permutation (Py.sort lt l) l.
Proof.
  induction l as [|x l IH]; simpl; [apply Permutation_refl|].
  eapply Permutation_trans; [apply Permutation_insert | apply perm_skip, IH].
Qed.

Lemma In_unique (x : string) (l : list string) : In x (Py.unique l) <-> In x l.
Proof.
  induction l as [|y l IH]; simpl; [tauto|].
  rewrite filter_In, IH. split.
  - intros [->|[H _]]; auto.
  - intros [->|H]; [left; reflexivity|].
    destruct (String.eqb y x) eqn:E.
    + left. apply String.eqb_eq, E.
    + right. split; [exact H | reflexivity].
Qed.

Lemma NoDup_unique (l : list string) : NoDup (Py.unique l).
Proof.
  induction l as [|x l IH]; simpl; constructor.
  - rewrite filter_In. intros [_ H]. rewrite String.eqb_refl in H. discriminate.
  - apply NoDup_filter, IH.
Qed.

Section DictKeys.
Variable V : Type.
Implicit Types (d : list (Key * V)) (k : Key).

Lemma set_keys d k v :
  map fst (Py.set key_eqb d k v)
  = if Py.mem key_eqb d k then map fst d else map fst d ++ [k].
Proof.
  unfold Py.mem. induction d as [|[k0 v0] d IH]; simpl; [reflexivity|].
  destruct (key_eqb k k0) eqn:E; simpl; [reflexivity|].
  rewrite IH. destruct (Py.get key_eqb d k); reflexivity.
Qed.

Lemma mem_In_keys d k : Py.mem key_eqb d k = true <-> In k (map fst d).
Proof.
  unfold Py.mem. induction d as [|[k0 v0] d IH]; simpl.
  - split; [discriminate | tauto].
  - destruct (key_eqb k k0) eqn:E.
    + apply key_eqb_eq in E. subst. tauto.
    + rewrite IH. apply key_eqb_neq in E. intuition congruence.
Qed.

Lemma NoDup_set d k v :
  NoDup (map fst d) -> NoDup (map fst (Py.set key_eqb d k v)).
Proof.
  intros H. rewrite set_keys.
  destruct (Py.mem key_eqb d k) eqn:E; [exact H|].
  apply NoDup_key_snoc; [|exact H].
  intros Hin. apply mem_In_keys in Hin. congruence.
Qed.

Lemma In_get_NoDup d k v :
  NoDup (map fst d) -> In (k, v) d -> Py.get key_eqb d k = Some v.
Proof.
  induction d as [|[k0 v0] d IH]; simpl; [tauto|].
  intros Hnd [[= -> ->]|Hin].
  - rewrite key_eqb_refl. reflexivity.
  - inversion Hnd as [|x l Hx Hl]; subst.
    destruct (key_eqb k k0) eqn:E.
    + apply key_eqb_eq in E. subst k0. exfalso. apply Hx.
      apply in_map_iff. exists (k, v). split; [reflexivity | exact Hin].
    + apply IH; assumption.
Qed.
End DictKeys.

(** The velocity index holds each (store, item) once. *)
Lemma NoDup_build_adu_map (adu_df : list AduRow) :
  NoDup (map fst (build_adu_map adu_df)).
Proof.
  unfold build_adu_map.
  assert (H : forall l acc, NoDup (map fst acc) ->
            NoDup (map fst (fold_left
                              (fun m a => Py.set key_eqb m (adu_Tienda a, adu_SKU a) (adu_ADU a))
                              l acc))).
  { induction l as [|a l IH]; intros acc Hacc; simpl; [exact Hacc|].
    apply IH, NoDup_set, Hacc. }
  apply H. constructor.
Qed.

Lemma adu_map_get_In (adu_df : list AduRow) tienda sku adu :
  In ((tienda, sku), adu) (build_adu_map adu_df) ->
  adu_map_get (build_adu_map adu_df) tienda sku = adu.
Proof.
  intros H. unfold adu_map_get.
  rewrite (In_get_NoDup Q _ _ _ (NoDup_build_adu_map adu_df) H). reflexivity.
Qed.

(** ** The split of an item code into reference and size *)

Lemma substring_0_length (s : string) : substring 0 (String.length s) s = s.
Proof. induction s as [|c s IH]; simpl; [reflexivity | rewrite IH; reflexivity]. Qed.

Lemma substring_split (n : nat) : forall s,
  (n <= String.length s)%nat ->
  (substring 0 n s ++ substring n (String.length s - n) s)%string = s
  /\ String.length (substring 0 n s) = n.
Proof.
  induction n as [|n IH]; intros s Hn.
  - rewrite Nat.sub_0_r, substring_0_length.
    destruct s; split; reflexivity.
  - destruct s as [|c s]; simpl in Hn; [lia|].
    destruct (IH s ltac:(lia)) as [E L]. simpl.
    rewrite E, L. split; reflexivity.
Qed.

(** ** Phase 3, transfer by transfer *)

Section DrainerSound.
Variable adu_df : list AduRow.
Variable bodega_principal : string.
Variables no_seed allow_seed_if_adu : bool.

(** Every destination of an item sells it and is not the warehouse. *)
Lemma get_destinations_for_sku_In sku tienda adu :
  In (tienda, adu) (Drainer.get_destinations_for_sku adu_df bodega_principal sku) ->
  tienda <> bodega_principal
  /\ 0 < adu
  /\ Drainer.get_adu adu_df tienda sku = adu.
Proof.
  unfold Drainer.get_destinations_for_sku. intros H.
  apply In_sort in H. apply in_flat_map in H.
  destruct H as [[[t k] a] [Hin H]].
  destruct (String.eqb k sku) eqn:Ek; simpl in H; [|contradiction].
  destruct (String.eqb t bodega_principal) eqn:Et; [contradiction|].
  destruct (Qle_bool a 0) eqn:Ea; [contradiction|].
  destruct H as [H|[]]. injection H as -> ->.
  apply String.eqb_eq in Ek. subst k.
  split; [apply String.eqb_neq, Et|]. split; [apply Qle_bool_false, Ea|].
  apply adu_map_get_In, Hin.
Qed.

Lemma drainer_step_sound s tienda sku qty ref talla :
  sound2 s ->
  tienda <> bodega_principal ->
  (0 < qty)%Z ->
  inject_Z qty <= key_total (bodega_principal, sku) (stock_df s) ->
  (qty <= Z.max 0 (Settings.MAX_STOCK_PER_SKU - get_stock s tienda sku))%Z ->
  sku = (ref ++ talla)%string ->
  String.length ref = 7%nat ->
  0 < Drainer.get_adu adu_df tienda sku ->
  let res := Drainer.execute_transfer adu_df s bodega_principal tienda sku
               qty ref talla in
  sound2 (snd res)
  /\ extends (fase3_ok adu_df bodega_principal) s (snd res)
  /\ (forall k, snd k <> sku ->
        key_total k (stock_df (snd res)) == key_total k (stock_df s))
  /\ key_total (bodega_principal, sku) (stock_df (snd res))
     == key_total (bodega_principal, sku) (stock_df s)
        - (if fst res then inject_Z qty else 0).
Proof.
  intros S Hne Hpos Hq Hcap Hsku Hlen Hadu. cbv zeta.
  pose proof S as [W N].
  unfold Drainer.execute_transfer.
  destruct (Py.mem key_eqb (idx_tienda_sku s) (bodega_principal, sku)) eqn:Hm;
    cbn [negb fst snd].
  - destruct (get_stock_le_key_total s tienda sku S) as [_ Hd0].
    destruct (move_sound s bodega_principal tienda sku qty
                (Drainer.new_row adu_df tienda sku ref talla qty)
                W N Hm ltac:(congruence) ltac:(lia) Hq eq_refl ltac:(reflexivity))
      as (W2 & N2 & Go & Gd & Hother & Ko).
    split; [split; assumption|]. split; [|split].
    + eexists. split; [simpl; rewrite transfers_move; reflexivity|].
      constructor; [|constructor].
      unfold fase3_ok, snapshots_ok.
      cbn [tr_unidades tr_origen tr_destino tr_origen_antes tr_origen_despues
           tr_destino_antes tr_destino_despues tr_talla tr_referencia].
      rewrite Go, Gd.
      assert (0 <= get_stock s bodega_principal sku - qty)%Z.
      { rewrite <- Go. apply get_stock_le_key_total. split; assumption. }
      repeat split; try assumption; try lia.
      exists talla. subst sku. split; [reflexivity | exact Hadu].
    + intros k Hk. apply Hother; intros ->; apply Hk; reflexivity.
    + exact Ko.
  - split; [exact S|]. split; [apply extends_refl|].
    split; [intros; reflexivity | ring].
Qed.

Lemma drain_destinos_sound sku ref talla max_drain :
  sku = (ref ++ talla)%string ->
  String.length ref = 7%nat ->
  forall destinos s drained qty_disponible,
    sound2 s ->
    (forall t a, In (t, a) destinos ->
       t <> bodega_principal /\ 0 < Drainer.get_adu adu_df t sku) ->
    inject_Z qty_disponible <= key_total (bodega_principal, sku) (stock_df s) ->
    let s' := fst (Drainer.drain_destinos adu_df bodega_principal no_seed
                     allow_seed_if_adu destinos sku ref talla max_drain
                     s drained qty_disponible) in
    sound2 s'
    /\ extends (fase3_ok adu_df bodega_principal) s s'
    /\ (forall k, snd k <> sku ->
          key_total k (stock_df s') == key_total k (stock_df s)).
Proof.
  intros Hsku Hlen.
  induction destinos as [|[tienda adu_sku] destinos IH];
    intros s drained qd S Hd Hq; cbv zeta in *; cbn [Drainer.drain_destinos fst].
  - split; [exact S|]. split; [apply extends_refl | intros; reflexivity].
  - assert (Hstop : sound2 s
                    /\ extends (fase3_ok adu_df bodega_principal) s s
                    /\ (forall k, snd k <> sku ->
                          key_total k (stock_df s) == key_total k (stock_df s)))
      by (split; [exact S|]; split; [apply extends_refl | intros; reflexivity]).
    assert (Hrest : forall t a, In (t, a) destinos ->
              t <> bodega_principal /\ 0 < Drainer.get_adu adu_df t sku)
      by (intros t a H; apply (Hd t a); right; exact H).
    destruct (qd <=? 0)%Z; [exact Hstop|].
    destruct (max_drain <=? drained)%Z; [exact Hstop|].
    destruct (negb _); [apply IH; assumption|].
    destruct (Z.max 0 (Settings.MAX_STOCK_PER_SKU - get_stock s tienda sku) <=? 0)%Z;
      [apply IH; assumption|].
    match goal with |- context [(0 <? ?q)%Z] => set (qty := q) end.
    destruct (0 <? qty)%Z eqn:Hpos; [|apply IH; assumption].
    apply Z.ltb_lt in Hpos.
    destruct (Hd tienda adu_sku (or_introl eq_refl)) as [Hne Hadu].
    assert (Hqty : inject_Z qty <= key_total (bodega_principal, sku) (stock_df s)).
    { eapply Qle_trans; [|exact Hq]. rewrite <- Zle_Qle. unfold qty. lia. }
    pose proof (drainer_step_sound s tienda sku qty ref talla S Hne Hpos Hqty
                  ltac:(unfold qty; lia) Hsku Hlen Hadu) as (S1 & X1 & O1 & K1).
    destruct (Drainer.execute_transfer adu_df s bodega_principal tienda sku
                qty ref talla) as [success s1].
    cbn [fst snd] in *.
    destruct success.
    + destruct (IH s1 (drained + qty)%Z (qd - qty)%Z S1 Hrest) as (S2 & X2 & O2).
      * rewrite K1. unfold Zminus. rewrite inject_Z_plus, inject_Z_opp.
        apply (Qplus_le_l _ _ (inject_Z qty)). ring_simplify. exact Hq.
      * split; [exact S2|]. split; [eapply extends_trans; eassumption|].
        intros k Hk. rewrite (O2 k Hk). apply O1, Hk.
    + destruct (IH s1 drained qd S1 Hrest) as (S2 & X2 & O2).
      * rewrite K1. ring_simplify. exact Hq.
      * split; [exact S2|]. split; [eapply extends_trans; eassumption|].
        intros k Hk. rewrite (O2 k Hk). apply O1, Hk.
Qed.

Lemma drain_skus_sound max_drain : forall skus s drained,
  sound2 s ->
  NoDup (map (fun e => fst (fst e)) skus) ->
  (forall sku disponible a, In (sku, disponible, a) skus ->
     inject_Z disponible <= key_total (bodega_principal, sku) (stock_df s)) ->
  let s' := fst (Drainer.drain_skus adu_df bodega_principal no_seed
                   allow_seed_if_adu skus max_drain s drained) in
  sound2 s' /\ extends (fase3_ok adu_df bodega_principal) s s'.
Proof.
  induction skus as [|[[sku disponible] adu_total] skus IH];
    intros s drained S Hnd Hdisp; cbv zeta in *; cbn [Drainer.drain_skus fst].
  - split; [exact S | apply extends_refl].
  - inversion Hnd as [|x l Hx Hl]; subst. simpl in Hx.
    assert (Hrest : forall sku' d a, In (sku', d, a) skus ->
              inject_Z d <= key_total (bodega_principal, sku') (stock_df s))
      by (intros sku' d a H; apply (Hdisp sku' d a); right; exact H).
    destruct (max_drain <=? drained)%Z; [split; [exact S | apply extends_refl]|].
    destruct (String.length sku <? 7)%nat eqn:El; [apply IH; assumption|].
    apply Nat.ltb_ge in El.
    destruct (Z.min disponible (max_drain - drained) <=? 0)%Z;
      [apply IH; assumption|].
    destruct (Drainer.get_destinations_for_sku adu_df bodega_principal sku)
      as [|d ds] eqn:Ed; [apply IH; assumption|].
    destruct (substring_split 7 sku El) as [Esku Elen].
    pose proof (drain_destinos_sound sku (substring 0 7 sku)
                  (substring 7 (String.length sku - 7) sku) max_drain
                  (eq_sym Esku) Elen (d :: ds) s drained
                  (Z.min disponible (max_drain - drained)) S) as D.
    cbv zeta in D.
    destruct D as (S1 & X1 & O1).
    + intros t a Ht. rewrite <- Ed in Ht.
      apply get_destinations_for_sku_In in Ht. destruct Ht as (Hne & Ha & Hg).
      split; [exact Hne | rewrite Hg; exact Ha].
    + eapply Qle_trans; [|apply (Hdisp sku disponible adu_total); left; reflexivity].
      rewrite <- Zle_Qle. lia.
    + destruct (Drainer.drain_destinos adu_df bodega_principal no_seed
                  allow_seed_if_adu (d :: ds) sku (substring 0 7 sku)
                  (substring 7 (String.length sku - 7) sku) max_drain s drained
                  (Z.min disponible (max_drain - drained))) as [s1 drained1].
      cbn [fst] in *.
      destruct (IH s1 drained1 S1 Hl) as [S2 X2].
      * intros sku' d' a' H'. rewrite O1; [apply (Hrest sku' d' a' H')|].
        simpl. intros ->. apply Hx.
        apply in_map_iff. exists (sku, d', a'). split; [reflexivity | exact H'].
      * split; [exact S2 | eapply extends_trans; eassumption].
Qed.

Lemma key_total_bodega_filter sku rows :
  total (filter (fun r => String.eqb (SKU r) sku)
                (filter (fun r => String.eqb (Tienda r) bodega_principal) rows))
  == key_total (bodega_principal, sku) rows.
Proof.
  unfold key_total. induction rows as [|r rows IH]; simpl; [reflexivity|].
  unfold key_eqb at 1, row_key at 1. simpl.
  rewrite (String.eqb_sym bodega_principal), (String.eqb_sym sku).
  destruct (String.eqb (Tienda r) bodega_principal); simpl; [|exact IH].
  destruct (String.eqb (SKU r) sku); simpl; [rewrite IH; reflexivity | exact IH].
Qed.

(** [get_skus_to_drain] lists every item of the warehouse once, with the
    truncated total of its rows. *)
Lemma get_skus_to_drain_spec s :
  let skus := Drainer.get_skus_to_drain adu_df bodega_principal s in
  NoDup (map (fun e => fst (fst e)) skus)
  /\ (forall sku disponible a, In (sku, disponible, a) skus ->
        disponible = Py.int (key_total (bodega_principal, sku) (stock_df s))
        /\ a = Drainer.sku_adu_total adu_df sku)
  /\ (forall sku, In sku (map (fun e => fst (fst e)) skus) <->
        exists r, In r (stock_df s) /\ Tienda r = bodega_principal /\ SKU r = sku).
Proof.
  cbv zeta. unfold Drainer.get_skus_to_drain.
  set (bodega_rows := filter (fun r => String.eqb (Tienda r) bodega_principal)
                             (stock_df s)).
  set (U := Py.sort Py.str_ltb (Py.unique (map SKU bodega_rows))).
  set (g := fun sku => (sku, total (filter (fun r => String.eqb (SKU r) sku) bodega_rows),
                        Drainer.sku_adu_total adu_df sku)).
  set (L := Py.sort _ (map g U)).
  assert (PL : Permutation L (map g U)) by apply Permutation_sort.
  assert (PU : Permutation U (Py.unique (map SKU bodega_rows)))
    by apply Permutation_sort.
  assert (Hkeys : map (fun e : string * Z * Q => fst (fst e))
                      (map (fun x : string * Q * Q =>
                              (fst (fst x), Py.int (snd (fst x)), snd x)) L)
                  = map (fun x : string * Q * Q => fst (fst x)) L)
    by (rewrite map_map; reflexivity).
  assert (PK : Permutation (map (fun x : string * Q * Q => fst (fst x)) L) U).
  { eapply Permutation_trans; [apply Permutation_map, PL|].
    rewrite map_map. simpl. rewrite map_id. apply Permutation_refl. }
  split; [|split].
  - rewrite Hkeys.
    eapply Permutation_NoDup; [apply Permutation_sym, PK|].
    eapply Permutation_NoDup; [apply Permutation_sym, PU | apply NoDup_unique].
  - intros sku disponible a Hin.
    apply in_map_iff in Hin. destruct Hin as [[[k q] a'] [E Hin]].
    simpl in E. injection E as -> <- ->.
    apply (Permutation_in _ PL) in Hin.
    apply in_map_iff in Hin. destruct Hin as [k [E _]].
    unfold g in E. injection E as -> <- <-.
    split; [|reflexivity].
    apply int_comp. unfold bodega_rows. apply key_total_bodega_filter.
  - intros sku. rewrite Hkeys. split.
    + intros Hin. apply (Permutation_in _ PK) in Hin.
      apply (Permutation_in _ PU) in Hin. rewrite In_unique in Hin.
      apply in_map_iff in Hin. destruct Hin as [r [<- Hr]].
      apply filter_In in Hr. destruct Hr as [Hr Hb].
      exists r. split; [exact Hr|]. split; [apply String.eqb_eq, Hb | reflexivity].
    + intros [r (Hr & Hb & <-)].
      apply (Permutation_in _ (Permutation_sym PK)).
      apply (Permutation_in _ (Permutation_sym PU)).
      apply In_unique, in_map, filter_In.
      split; [exact Hr | apply String.eqb_eq, Hb].
Qed.

Lemma run_fase3_sound stock safety_ratio :
  keys_nonneg stock ->
  let res := Drainer.run_fase3 adu_df bodega_principal no_seed allow_seed_if_adu
               stock safety_ratio in
  keys_nonneg (fst res) /\ Forall (fase3_ok adu_df bodega_principal) (snd res).
Proof.
  intros N. cbv zeta. unfold Drainer.run_fase3, Drainer.drain.
  assert (S : sound2 (Drainer.init stock))
    by (split; [apply build_indexes_represents | exact N]).
  destruct (Drainer.get_bodega_total bodega_principal (Drainer.init stock) <=? 0)%Z;
    cbn [fst snd]; [split; [exact N | constructor]|].
  destruct (get_skus_to_drain_spec (Drainer.init stock)) as (Hnd & Hd & _).
  destruct (drain_skus_sound
              (Drainer.calculate_drain_limit bodega_principal (Drainer.init stock)
                 safety_ratio)
              (Drainer.get_skus_to_drain adu_df bodega_principal (Drainer.init stock))
              (Drainer.init stock) 0%Z S Hnd) as [[_ N'] (new & En & Fn)].
  - intros sku d a Hin. destruct (Hd sku d a Hin) as [-> _].
    apply int_le, N.
  - split; [exact N'|]. rewrite En. exact Fn.
Qed.

Lemma drain_float_sound stock safety_ratio :
  keys_nonneg stock ->
  let res := Drainer.drain_float adu_df bodega_principal no_seed
               allow_seed_if_adu (Drainer.init stock) safety_ratio in
  keys_nonneg (fst res) /\ Forall (fase3_ok adu_df bodega_principal) (snd res).
Proof.
  intros N. cbv zeta. unfold Drainer.drain_float.
  assert (S : sound2 (Drainer.init stock))
    by (split; [apply build_indexes_represents | exact N]).
  destruct (Drainer.get_bodega_total bodega_principal (Drainer.init stock) <=? 0)%Z;
    cbn [fst snd]; [split; [exact N | constructor]|].
  destruct (get_skus_to_drain_spec (Drainer.init stock)) as (Hnd & Hd & _).
  destruct (drain_skus_sound
              (Drainer.calculate_drain_limit_float bodega_principal
                 (Drainer.init stock) safety_ratio)
              (Drainer.get_skus_to_drain adu_df bodega_principal (Drainer.init stock))
              (Drainer.init stock) 0%Z S Hnd) as [[_ N'] (new & En & Fn)].
  - intros sku d a Hin. destruct (Hd sku d a Hin) as [-> _].
    apply int_le, N.
  - split; [exact N'|]. rewrite En. exact Fn.
Qed.

End DrainerSound.

(** ** The shape of the transfers, whatever the table *)

Lemma extends_impl (P Q : Transfer -> Prop) s s' :
  (forall t, P t -> Q t) -> extends P s s' -> extends Q s s'.
Proof.
  intros H (new & E & F). exists new. split; [exact E|].
  eapply Forall_impl; [exact H | exact F].
Qed.

Lemma engine_execute_made_by adu_df no_seed allow_seed_if_adu
    s origen destino sku cantidad ref talla :
  extends (made_by origen destino cantidad ref talla) s
    (snd (Engine.execute_transfer adu_df no_seed allow_seed_if_adu
            s origen destino sku cantidad ref talla)).
Proof.
  unfold Engine.execute_transfer.
  destruct (negb _ && negb _); cbn [snd]; [apply extends_refl|].
  eexists. split; [simpl; rewrite transfers_move; reflexivity|].
  constructor; [|constructor]. repeat split.
Qed.

Lemma curve_execute_made_by adu_df s origen destino sku cantidad ref talla :
  extends (made_by origen destino cantidad ref (Some talla)) s
    (snd (Curve.execute_transfer adu_df s origen destino sku cantidad ref talla)).
Proof.
  unfold Curve.execute_transfer.
  destruct (negb _); cbn [snd]; [apply extends_refl|].
  destruct (get_stock s origen sku <? cantidad)%Z; cbn [snd]; [apply extends_refl|].
  eexists. split; [simpl; rewrite transfers_move; reflexivity|].
  constructor; [|constructor]. repeat split.
Qed.

Lemma drainer_execute_made_by adu_df s origen destino sku cantidad ref talla :
  extends (made_by origen destino cantidad ref (Some talla)) s
    (snd (Drainer.execute_transfer adu_df s origen destino sku cantidad ref talla)).
Proof.
  unfold Drainer.execute_transfer.
  destruct (negb _); cbn [snd]; [apply extends_refl|].
  eexists. split; [simpl; rewrite transfers_move; reflexivity|].
  constructor; [|constructor]. repeat split.
Qed.

Section Shapes.
Variable adu_df : list AduRow.
Variable tiempos_df : list TiempoRow.
Variable bodega_opt : option string.
Variable bodega : string.
Variables no_seed allow_seed_if_adu : bool.

Lemma engine_fill_shape tienda sku ref talla :
  Engine.is_bodega bodega_opt tienda = false ->
  forall origins s gap,
    (forall o, In o origins -> o <> tienda) ->
    extends (fase1_shape bodega_opt) s
      (fst (Engine.fill_from_origins adu_df bodega_opt no_seed allow_seed_if_adu
              origins tienda sku ref talla s gap)).
Proof.
  intros Hb. induction origins as [|o origins IH]; intros s gap Hne;
    cbn [Engine.fill_from_origins fst].
  - apply extends_refl.
  - assert (Hrest : forall o', In o' origins -> o' <> tienda)
      by (intros; apply Hne; right; assumption).
    destruct (gap <=? 0)%Z; [apply extends_refl|].
    destruct (Engine.allowed_to_send bodega_opt s o sku <=? 0)%Z; [apply IH, Hrest|].
    match goal with |- context [(0 <? ?q)%Z] => set (qty := q) end.
    destruct (0 <? qty)%Z eqn:Hpos; [|apply IH, Hrest].
    apply Z.ltb_lt in Hpos.
    pose proof (engine_execute_made_by adu_df no_seed allow_seed_if_adu
                  s o tienda sku qty ref talla) as X.
    destruct (Engine.execute_transfer adu_df no_seed allow_seed_if_adu
                s o tienda sku qty ref talla) as [success s'].
    cbn [snd] in X.
    assert (X' : extends (fase1_shape bodega_opt) s s').
    { eapply extends_impl; [|exact X].
      intros t (Ho & Hd & Hu & _). unfold fase1_shape.
      rewrite Ho, Hd, Hu. split; [exact Hpos|].
      split; [apply Hne; left; reflexivity | exact Hb]. }
    destruct success; (eapply extends_trans; [exact X' | apply IH, Hrest]).
Qed.

Lemma engine_process_base_needs_shape needs : forall s,
  Forall (fun n => Engine.is_bodega bodega_opt (n_Tienda n) = false) needs ->
  extends (fase1_shape bodega_opt) s
    (Engine.process_base_needs adu_df tiempos_df bodega_opt
       no_seed allow_seed_if_adu needs s).
Proof.
  unfold Engine.process_base_needs.
  induction needs as [|need needs IH]; intros s Hn; simpl; [apply extends_refl|].
  inversion Hn as [|x l Hx Hl]; subst.
  eapply extends_trans; [|apply IH, Hl].
  unfold Engine.process_need.
  destruct (negb _ && negb _); [apply extends_refl|].
  destruct (Engine.rank_origins_for_sku tiempos_df bodega_opt s
              (n_SKU need) (n_Tienda need) (n_Referencia need)) as [|o os] eqn:R;
    [apply extends_refl|].
  apply engine_fill_shape; [exact Hx|].
  intros o' Ho'. rewrite <- R in Ho'.
  apply rank_origins_candidate in Ho'. destruct Ho' as [Hc _].
  unfold Engine.is_candidate in Hc.
  destruct (negb (String.eqb (n_SKU need) (n_SKU need))); [discriminate|].
  destruct (String.eqb o' (n_Tienda need)) eqn:E; [discriminate|].
  apply String.eqb_neq, E.
Qed.

Lemma run_fase1_shape stock :
  Forall (fase1_shape bodega_opt)
         (transfers (Engine.run_fase1 adu_df tiempos_df bodega_opt
                       no_seed allow_seed_if_adu stock)).
Proof.
  unfold Engine.run_fase1.
  destruct (engine_process_base_needs_shape
              (Engine.identify_base_needs bodega_opt (Engine.init bodega_opt stock))
              (Engine.init bodega_opt stock)
              (identify_base_needs_not_bodega bodega_opt _)) as (new & En & Fn).
  rewrite En. exact Fn.
Qed.

Lemma curve_tallas_shape tienda ref :
  tienda <> bodega ->
  forall tallas s,
    (forall talla, In talla tallas ->
       curve_size talla
       /\ Curve.ADU_MIN_THRESHOLD <= Curve.get_adu adu_df tienda (ref ++ talla)) ->
    extends (fase2_shape adu_df bodega) s
      (Curve.complete_tallas adu_df bodega tallas tienda ref s).
Proof.
  intros Hne. induction tallas as [|talla tallas IH]; intros s Ht;
    cbn [Curve.complete_tallas].
  - apply extends_refl.
  - assert (Hrest : forall t, In t tallas ->
              curve_size t
              /\ Curve.ADU_MIN_THRESHOLD <= Curve.get_adu adu_df tienda (ref ++ t))
      by (intros; apply Ht; right; assumption).
    destruct (Curve.get_bodega_total bodega s <=? 0)%Z; [apply extends_refl|].
    match goal with |- context [(?n <=? 0)%Z] => set (necesita := n) end.
    destruct (necesita <=? 0)%Z; [apply IH, Hrest|].
    destruct (get_stock s bodega (ref ++ talla) <=? 0)%Z; [apply IH, Hrest|].
    match goal with |- context [(0 <? ?q)%Z] => set (qty := q) end.
    destruct (0 <? qty)%Z eqn:Hpos; [|apply IH, Hrest].
    apply Z.ltb_lt in Hpos.
    eapply extends_trans; [|apply IH, Hrest].
    eapply extends_impl; [|apply curve_execute_made_by].
    intros t (Ho & Hd & Hu & Hr & Hta). unfold fase2_shape.
    rewrite Ho, Hd, Hu, Hr, Hta.
    split; [reflexivity|]. split; [exact Hne|]. split; [exact Hpos|].
    exists talla. split; [reflexivity|]. apply Ht. left; reflexivity.
Qed.

Lemma curve_stores_shape : forall stores s,
  (forall t, In t stores -> t <> bodega) ->
  extends (fase2_shape adu_df bodega) s
    (Curve.complete_stores adu_df bodega stores s).
Proof.
  assert (Hrefs : forall tienda, tienda <> bodega -> forall refs s,
            extends (fase2_shape adu_df bodega) s
              (Curve.complete_refs adu_df bodega refs tienda s)).
  { intros tienda Hne. induction refs as [|ref refs IH]; intros s;
      cbn [Curve.complete_refs]; [apply extends_refl|].
    destruct (Curve.get_bodega_total bodega s <=? 0)%Z; [apply extends_refl|].
    destruct (Curve.get_rango_for_ref s tienda ref) as [rango|]; [|apply IH].
    eapply extends_trans; [|apply IH].
    apply curve_tallas_shape; [exact Hne|].
    intros talla Ht. apply get_candidate_tallas_In in Ht.
    destruct Ht as (Hc & Ha & _). split; [|exact Ha].
    destruct rango; [left | right]; exact Hc. }
  induction stores as [|tienda stores IH]; intros s Hs;
    cbn [Curve.complete_stores]; [apply extends_refl|].
  destruct (Curve.get_bodega_total bodega s <=? 0)%Z; [apply extends_refl|].
  eapply extends_trans; [apply Hrefs, Hs; left; reflexivity|].
  apply IH. intros t H. apply Hs. right. exact H.
Qed.

Lemma run_fase2_shape stock :
  Forall (fase2_shape adu_df bodega) (snd (Curve.run_fase2 adu_df bodega stock)).
Proof.
  unfold Curve.run_fase2, Curve.complete_curves.
  destruct (Curve.get_bodega_total bodega (Curve.init stock) <=? 0)%Z;
    cbn [snd]; [constructor|].
  destruct (curve_stores_shape
              (Curve.prioritize_stores adu_df bodega (Curve.init stock))
              (Curve.init stock)) as (new & En & Fn).
  - intros t Ht. apply prioritize_stores_In in Ht. apply Ht.
  - rewrite En. exact Fn.
Qed.

Lemma drain_destinos_shape sku ref talla max_drain :
  sku = (ref ++ talla)%string ->
  String.length ref = 7%nat ->
  forall destinos s drained qty_disponible,
    (forall t a, In (t, a) destinos ->
       t <> bodega /\ 0 < Drainer.get_adu adu_df t sku) ->
    extends (fase3_shape adu_df bodega) s
      (fst (Drainer.drain_destinos adu_df bodega no_seed allow_seed_if_adu
              destinos sku ref talla max_drain s drained qty_disponible)).
Proof.
  intros Hsku Hlen.
  induction destinos as [|[tienda adu_sku] destinos IH];
    intros s drained qd Hd; cbn [Drainer.drain_destinos fst].
  - apply extends_refl.
  - assert (Hrest : forall t a, In (t, a) destinos ->
              t <> bodega /\ 0 < Drainer.get_adu adu_df t sku)
      by (intros t a H; apply (Hd t a); right; exact H).
    destruct (qd <=? 0)%Z; [apply extends_refl|].
    destruct (max_drain <=? drained)%Z; [apply extends_refl|].
    destruct (negb _); [apply IH, Hrest|].
    destruct (Z.max 0 (Settings.MAX_STOCK_PER_SKU - get_stock s tienda sku) <=? 0)%Z;
      [apply IH, Hrest|].
    match goal with |- context [(0 <? ?q)%Z] => set (qty := q) end.
    destruct (0 <? qty)%Z eqn:Hpos; [|apply IH, Hrest].
    apply Z.ltb_lt in Hpos.
    destruct (Hd tienda adu_sku (or_introl eq_refl)) as [Hne Hadu].
    pose proof (drainer_execute_made_by adu_df s bodega tienda sku qty ref talla) as X.
    destruct (Drainer.execute_transfer adu_df s bodega tienda sku qty ref talla)
      as [success s'].
    cbn [snd] in X.
    assert (X' : extends (fase3_shape adu_df bodega) s s').
    { eapply extends_impl; [|exact X].
      intros t (Ho & Hde & Hu & Hr & Hta). unfold fase3_shape.
      rewrite Ho, Hde, Hu, Hr, Hta.
      split; [reflexivity|]. split; [exact Hne|]. split; [exact Hpos|].
      split; [exact Hlen|]. exists talla. split; [reflexivity|].
      rewrite <- Hsku. exact Hadu. }
    destruct success; (eapply extends_trans; [exact X' | apply IH, Hrest]).
Qed.

Lemma drain_skus_shape max_drain : forall skus s drained,
  extends (fase3_shape adu_df bodega) s
    (fst (Drainer.drain_skus adu_df bodega no_seed allow_seed_if_adu
            skus max_drain s drained)).
Proof.
  induction skus as [|[[sku disponible] adu_total] skus IH];
    intros s drained; cbn [Drainer.drain_skus fst].
  - apply extends_refl.
  - destruct (max_drain <=? drained)%Z; [apply extends_refl|].
    destruct (String.length sku <? 7)%nat eqn:El; [apply IH|].
    apply Nat.ltb_ge in El.
    destruct (Z.min disponible (max_drain - drained) <=? 0)%Z; [apply IH|].
    destruct (Drainer.get_destinations_for_sku adu_df bodega sku)
      as [|d ds] eqn:Ed; [apply IH|].
    destruct (substring_split 7 sku El) as [Esku Elen].
    pose proof (drain_destinos_shape sku (substring 0 7 sku)
                  (substring 7 (String.length sku - 7) sku) max_drain
                  (eq_sym Esku) Elen (d :: ds) s drained
                  (Z.min disponible (max_drain - drained))) as D.
    destruct (Drainer.drain_destinos adu_df bodega no_seed
                allow_seed_if_adu (d :: ds) sku (substring 0 7 sku)
                (substring 7 (String.length sku - 7) sku) max_drain s drained
                (Z.min disponible (max_drain - drained))) as [s1 drained1].
    cbn [fst] in D.
    eapply extends_trans; [|apply IH].
    apply D. intros t a Ht. rewrite <- Ed in Ht.
    apply get_destinations_for_sku_In in Ht. destruct Ht as (Hne & Ha & Hg).
    split; [exact Hne | rewrite Hg; exact Ha].
Qed.

Lemma run_fase3_shape stock safety_ratio :
  Forall (fase3_shape adu_df bodega)
         (snd (Drainer.run_fase3 adu_df bodega no_seed allow_seed_if_adu
                 stock safety_ratio)).
Proof.
  unfold Drainer.run_fase3, Drainer.drain.
  destruct (Drainer.get_bodega_total bodega (Drainer.init stock) <=? 0)%Z;
    cbn [snd]; [constructor|].
  destruct (drain_skus_shape
              (Drainer.calculate_drain_limit bodega (Drainer.init stock) safety_ratio)
              (Drainer.get_skus_to_drain adu_df bodega (Drainer.init stock))
              (Drainer.init stock) 0%Z) as (new & En & Fn).
  rewrite En. exact Fn.
Qed.

End Shapes.

(** ** The orchestrator *)

Lemma total_nonneg rows :
  Forall (fun r => 0 <= Existencia r) rows -> 0 <= total rows.
Proof.
  induction 1 as [|r rows Hr _ IH]; simpl; [apply Qle_refl|].
  setoid_replace 0 with (0 + 0) by ring. apply Qplus_le_compat; assumption.
Qed.

Lemma keys_nonneg_rows rows :
  Forall (fun r => 0 <= Existencia r) rows -> keys_nonneg rows.
Proof.
  intros H k. unfold key_total. apply total_nonneg.
  apply Forall_forall. intros r Hr. apply filter_In in Hr.
  rewrite Forall_forall in H. apply H, Hr.
Qed.

Lemma fase1_ok_traslado bodega_principal t :
  fase1_ok bodega_principal t -> traslado_ok bodega_principal t.
Proof.
  intros (H1 & H2 & H3 & H4 & H5 & H6 & _). repeat (split; [assumption|]). assumption.
Qed.

Lemma is_bodega_neq b t :
  t <> b -> Engine.is_bodega (Some b) t = false.
Proof.
  intros H. unfold Engine.is_bodega.
  apply String.eqb_neq in H. rewrite H. apply andb_false_r.
Qed.

Lemma fase2_ok_traslado adu_df b t :
  fase2_ok adu_df b t -> traslado_ok (Some b) t.
Proof.
  intros (H1 & H2 & H3 & H4 & H5 & H6 & _). unfold traslado_ok.
  split; [exact H3|]. split; [rewrite H1; intros E; apply H2; symmetry; exact E|].
  split; [apply is_bodega_neq, H2|]. split; [exact H4|].
  split; [|exact H6].
  unfold Settings.MAX_STOCK_PER_SKU. unfold Settings.MIN_POR_SKU_TIENDA in H5. lia.
Qed.

Lemma fase3_ok_traslado adu_df b t :
  fase3_ok adu_df b t -> traslado_ok (Some b) t.
Proof.
  intros (H1 & H2 & H3 & H4 & H5 & H6 & _). unfold traslado_ok.
  split; [exact H3|]. split; [rewrite H1; intros E; apply H2; symmetry; exact E|].
  split; [apply is_bodega_neq, H2|]. split; [exact H4|].
  split; [exact H5 | exact H6].
Qed.

Lemma bodega_designada_Some bodega_principal b :
  bodega_designada bodega_principal = Some b ->
  bodega_principal = Some b /\ Py.truthy bodega_principal = true.
Proof.
  unfold bodega_designada. destruct (Py.truthy bodega_principal); [|discriminate].
  intros H. split; [exact H | reflexivity].
Qed.

Lemma fase_ok_traslado adu_df bodega_principal ft :
  fase_ok adu_df bodega_principal ft -> traslado_ok bodega_principal (snd ft).
Proof.
  unfold fase_ok. destruct (fst ft).
  - apply fase1_ok_traslado.
  - intros (b & Hb & H). apply bodega_designada_Some in Hb. destruct Hb as [-> _].
    eapply fase2_ok_traslado, H.
  - intros (b & Hb & H). apply bodega_designada_Some in Hb. destruct Hb as [-> _].
    eapply fase3_ok_traslado, H.
Qed.

Section OrchestratorFacts.
Variable adu_df : list AduRow.
Variable tiempos_df : list TiempoRow.
Variables no_seed allow_seed_if_adu : bool.
Variable bodega_principal : option string.

Lemma orchestrator_fase2_total df_stock :
  total (fst (Orchestrator.run_fase2_completar_curvas adu_df bodega_principal
                df_stock))
  == total df_stock.
Proof.
  unfold Orchestrator.run_fase2_completar_curvas.
  destruct bodega_principal as [b|]; [|reflexivity].
  destruct (negb _); [reflexivity|]. apply run_fase2_total.
Qed.

Lemma orchestrator_fase3_total df_stock safety_ratio :
  total (fst (Orchestrator.run_fase3_drenar_bodega adu_df no_seed
                allow_seed_if_adu bodega_principal df_stock safety_ratio))
  == total df_stock.
Proof.
  unfold Orchestrator.run_fase3_drenar_bodega.
  destruct bodega_principal as [b|]; [|reflexivity].
  destruct (negb _); [reflexivity|].
  apply (run_fase3_ok adu_df b no_seed allow_seed_if_adu df_stock safety_ratio).
Qed.

Lemma orchestrator_fase2_sound df_stock :
  Py.truthy bodega_principal = true ->
  keys_nonneg df_stock ->
  let res := Orchestrator.run_fase2_completar_curvas adu_df bodega_principal
               df_stock in
  keys_nonneg (fst res)
  /\ Forall (fun t => fase_ok adu_df bodega_principal
                        (Orchestrator.Fase_2_Curvas, t))
            (snd res).
Proof.
  intros Ht K. unfold Orchestrator.run_fase2_completar_curvas.
  destruct bodega_principal as [b|] eqn:Eb; [|discriminate].
  rewrite Ht. cbn [negb]. cbv zeta.
  destruct (run_fase2_sound adu_df b df_stock K) as [K2 F2].
  split; [exact K2|].
  eapply Forall_impl; [|exact F2].
  intros t H. exists b. split; [|exact H].
  unfold bodega_designada. rewrite Ht. reflexivity.
Qed.

Lemma orchestrator_fase3_sound df_stock safety_ratio :
  Py.truthy bodega_principal = true ->
  keys_nonneg df_stock ->
  let res := Orchestrator.run_fase3_drenar_bodega adu_df no_seed
               allow_seed_if_adu bodega_principal df_stock safety_ratio in
  keys_nonneg (fst res)
  /\ Forall (fun t => fase_ok adu_df bodega_principal
                        (Orchestrator.Fase_3_Drenaje, t))
            (snd res).
Proof.
  intros Ht K. unfold Orchestrator.run_fase3_drenar_bodega.
  destruct bodega_principal as [b|] eqn:Eb; [|discriminate].
  rewrite Ht. cbn [negb]. cbv zeta.
  destruct (run_fase3_sound adu_df b no_seed allow_seed_if_adu df_stock
              safety_ratio K) as [K3 F3].
  split; [exact K3|].
  eapply Forall_impl; [|exact F3].
  intros t H. exists b. split; [|exact H].
  unfold bodega_designada. rewrite Ht. reflexivity.
Qed.

Lemma Forall_map_pair (P : Orchestrator.Fase * Transfer -> Prop) f l :
  Forall (fun t => P (f, t)) l -> Forall P (map (pair f) l).
Proof. intros H. apply Forall_map. exact H. Qed.

(** The two optional phases of [run_all] as one step each. *)
Lemma run_all_unfold df_stock enable_curvas enable_drenaje safety_ratio :
  let s1 := Engine.run_fase1 adu_df tiempos_df bodega_principal no_seed
              allow_seed_if_adu df_stock in
  let r2 := if enable_curvas && Py.truthy bodega_principal
            then Orchestrator.run_fase2_completar_curvas adu_df
                   bodega_principal (stock_df s1)
            else (stock_df s1, []) in
  let r3 := if enable_drenaje && Py.truthy bodega_principal
            then Orchestrator.run_fase3_drenar_bodega adu_df no_seed
                   allow_seed_if_adu bodega_principal (fst r2) safety_ratio
            else (fst r2, []) in
  Orchestrator.run_all adu_df tiempos_df no_seed allow_seed_if_adu
    bodega_principal df_stock enable_curvas enable_drenaje safety_ratio
  = (map (pair Orchestrator.Fase_1_Base) (transfers s1)
     ++ map (pair Orchestrator.Fase_2_Curvas) (snd r2)
     ++ map (pair Orchestrator.Fase_3_Drenaje) (snd r3),
     fst r3).
Proof.
  cbv zeta.
  unfold Orchestrator.run_all, Orchestrator.run_fase1_necesidades_base.
  destruct (if enable_curvas && Py.truthy bodega_principal
            then Orchestrator.run_fase2_completar_curvas adu_df
                   bodega_principal _
            else _) as [df2 t2].
  cbn [fst snd].
  destruct (if enable_drenaje && Py.truthy bodega_principal
            then Orchestrator.run_fase3_drenar_bodega adu_df no_seed
                   allow_seed_if_adu bodega_principal df2 safety_ratio
            else _) as [df3 t3].
  reflexivity.
Qed.

Lemma run_all_total df_stock enable_curvas enable_drenaje safety_ratio :
  total (snd (Orchestrator.run_all adu_df tiempos_df no_seed allow_seed_if_adu
                bodega_principal df_stock enable_curvas enable_drenaje
                safety_ratio))
  == total df_stock.
Proof.
  rewrite run_all_unfold. cbn [snd].
  assert (T2 : total (fst (if enable_curvas && Py.truthy bodega_principal
                           then Orchestrator.run_fase2_completar_curvas adu_df
                                  bodega_principal
                                  (stock_df (Engine.run_fase1 adu_df tiempos_df
                                               bodega_principal no_seed
                                               allow_seed_if_adu df_stock))
                           else (stock_df (Engine.run_fase1 adu_df tiempos_df
                                             bodega_principal no_seed
                                             allow_seed_if_adu df_stock), [])))
               == total df_stock).
  { destruct (enable_curvas && Py.truthy bodega_principal);
      [rewrite orchestrator_fase2_total|]; apply run_fase1_total. }
  destruct (enable_drenaje && Py.truthy bodega_principal);
    [rewrite orchestrator_fase3_total|]; exact T2.
Qed.

Lemma run_all_sound df_stock enable_curvas enable_drenaje safety_ratio :
  keys_nonneg df_stock ->
  let res := Orchestrator.run_all adu_df tiempos_df no_seed allow_seed_if_adu
               bodega_principal df_stock enable_curvas enable_drenaje
               safety_ratio in
  keys_nonneg (snd res) /\ Forall (fase_ok adu_df bodega_principal) (fst res).
Proof.
  intros K. cbv zeta. rewrite run_all_unfold. cbn [fst snd].
  destruct (run_fase1_sound adu_df tiempos_df bodega_principal no_seed
              allow_seed_if_adu df_stock K) as [(_ & K1 & _) F1].
  set (s1 := Engine.run_fase1 adu_df tiempos_df bodega_principal no_seed
               allow_seed_if_adu df_stock) in *.
  set (r2 := if enable_curvas && Py.truthy bodega_principal
             then Orchestrator.run_fase2_completar_curvas adu_df
                    bodega_principal (stock_df s1)
             else (stock_df s1, [])).
  assert (S2 : keys_nonneg (fst r2)
               /\ Forall (fun t => fase_ok adu_df bodega_principal
                                     (Orchestrator.Fase_2_Curvas, t))
                    (snd r2)).
  { subst r2. destruct (enable_curvas && Py.truthy bodega_principal) eqn:E.
    - apply andb_prop in E. apply orchestrator_fase2_sound; [apply E | exact K1].
    - split; [exact K1 | constructor]. }
  destruct S2 as [K2 F2].
  set (r3 := if enable_drenaje && Py.truthy bodega_principal
             then Orchestrator.run_fase3_drenar_bodega adu_df no_seed
                    allow_seed_if_adu bodega_principal (fst r2) safety_ratio
             else (fst r2, [])).
  assert (S3 : keys_nonneg (fst r3)
               /\ Forall (fun t => fase_ok adu_df bodega_principal
                                     (Orchestrator.Fase_3_Drenaje, t))
                    (snd r3)).
  { subst r3. destruct (enable_drenaje && Py.truthy bodega_principal) eqn:E.
    - apply andb_prop in E. apply orchestrator_fase3_sound; [apply E | exact K2].
    - split; [exact K2 | constructor]. }
  destruct S3 as [K3 F3].
  split; [exact K3|].
  apply Forall_app. split; [|apply Forall_app; split];
    apply Forall_map_pair; assumption.
Qed.

End OrchestratorFacts.

(** ** Sorting *)

Section SortOrder.
Variables (A : Type) (lt : A -> A -> bool).
Hypothesis lt_asym : forall a b, lt a b = true -> lt b a = false.
Hypothesis le_trans :
  forall a b c, lt b a = false -> lt c b = false -> lt c a = false.

Lemma StronglySorted_insert x l :
  StronglySorted (fun a b => lt b a = false) l ->
  StronglySorted (fun a b => lt b a = false) (Py.insert lt x l).
Proof.
  induction 1 as [|y l Hs IH Hy]; simpl.
  - constructor; constructor.
  - destruct (lt y x) eqn:E.
    + constructor; [exact IH|].
      apply Forall_forall. intros z Hz. apply In_insert in Hz.
      destruct Hz as [-> | Hz]; [apply lt_asym, E|].
      rewrite Forall_forall in Hy. apply Hy, Hz.
    + constructor; [constructor; assumption|].
      constructor; [exact E|].
      eapply Forall_impl; [|exact Hy].
      intros z Hz. eapply le_trans; [exact E | exact Hz].
Qed.

Lemma StronglySorted_sort l :
  StronglySorted (fun a b => lt b a = false) (Py.sort lt l).
Proof.
  induction l as [|x l IH]; simpl; [constructor|].
  apply StronglySorted_insert, IH.
Qed.

End SortOrder.

Lemma StronglySorted_split (A : Type) (R : A -> A -> Prop) l1 a l2 b l3 :
  StronglySorted R (l1 ++ a :: l2 ++ b :: l3) -> R a b.
Proof.
  induction l1 as [|x l1 IH]; simpl; intros H.
  - inversion H as [|? ? _ Hf]; subst.
    rewrite Forall_forall in Hf. apply Hf.
    apply in_or_app. right. left. reflexivity.
  - inversion H; subst. apply IH. assumption.
Qed.

Lemma StronglySorted_remove (R : string -> string -> Prop) x l :
  StronglySorted R l -> StronglySorted R (Py.remove x l).
Proof.
  induction 1 as [|y l Hs IH Hy]; simpl; [constructor|].
  destruct (String.eqb x y); [exact Hs|].
  constructor; [exact IH|].
  apply Forall_forall. intros z Hz. apply In_remove in Hz.
  rewrite Forall_forall in Hy. apply Hy, Hz.
Qed.

Lemma Permutation_remove x l :
  In x l -> Permutation (x :: Py.remove x l) l.
Proof.
  induction l as [|y l IH]; simpl; [intros []|].
  intros H. destruct (String.eqb x y) eqn:E.
  - apply String.eqb_eq in E. subst y. reflexivity.
  - destruct H as [H | H]; [subst y; rewrite String.eqb_refl in E; discriminate|].
    etransitivity; [apply perm_swap|]. constructor. apply IH, H.
Qed.

(** The order of the sort key of [rank_origins_for_sku]. *)
Lemma rank_key_le_iff a1 a2 a3 a4 b1 b2 b3 b4 :
  Engine.rank_key_lt (b1, b2, b3, b4) (a1, a2, a3, a4) = false <->
  (a1 < b1)%Z
  \/ (a1 = b1
      /\ ((a2 < b2)%Z
          \/ (a2 = b2 /\ (a3 < b3 \/ (a3 == b3 /\ a4 <= b4))))).
Proof.
  unfold Engine.rank_key_lt.
  destruct (Z.compare_spec b1 a1) as [E1 | L1 | G1].
  2: { split; [discriminate | intros [H | [H _]]; lia]. }
  2: { split; [intros _; left; exact G1 | reflexivity]. }
  destruct (Z.compare_spec b2 a2) as [E2 | L2 | G2].
  2: { split; [discriminate | intros [H | [_ [H | [H _]]]]; lia]. }
  2: { split; [intros _; right; split; [lia | left; exact G2] | reflexivity]. }
  destruct (b3 ?= a3) eqn:C3.
  - apply Qeq_alt in C3. unfold Py.Qltb. rewrite negb_false_iff, Qle_bool_iff.
    split.
    + intros H. right. split; [lia|]. right. split; [lia|]. right.
      split; [symmetry; exact C3 | exact H].
    + intros [H | [_ [H | [_ [H | [_ H]]]]]]; [lia | lia | lra | exact H].
  - apply Qlt_alt in C3.
    split; [discriminate | intros [H | [_ [H | [_ [H | [H _]]]]]]; [lia | lia | lra | lra]].
  - apply Qgt_alt in C3.
    split; [|reflexivity]. intros _. right. split; [lia|]. right. split; [lia|].
    left. exact C3.
Qed.

Lemma rank_key_lt_asym (a b : Engine.RankKey) :
  Engine.rank_key_lt a b = true -> Engine.rank_key_lt b a = false.
Proof.
  destruct a as [[[a1 a2] a3] a4], b as [[[b1 b2] b3] b4].
  intros H.
  destruct (Engine.rank_key_lt (b1, b2, b3, b4) (a1, a2, a3, a4)) eqn:E;
    [|reflexivity].
  assert (Hab : Engine.rank_key_lt (a1, a2, a3, a4) (b1, b2, b3, b4) <> false)
    by (rewrite H; discriminate).
  assert (Hba : Engine.rank_key_lt (b1, b2, b3, b4) (a1, a2, a3, a4) <> false)
    by (rewrite E; discriminate).
  rewrite rank_key_le_iff in Hab, Hba.
  exfalso.
  destruct (Z.lt_trichotomy a1 b1) as [L | [E1 | L]];
    [apply Hba; left; exact L | | apply Hab; left; exact L].
  destruct (Z.lt_trichotomy a2 b2) as [L | [E2 | L]];
    [apply Hba; right; split; [exact E1 | left; exact L] |
    | apply Hab; right; split; [symmetry; exact E1 | left; exact L]].
  destruct (Q_dec a3 b3) as [[L | L] | E3];
    [apply Hba; right; split; [exact E1|]; right; split; [exact E2|]; left; exact L
    | apply Hab; right; split; [symmetry; exact E1|]; right;
      split; [symmetry; exact E2|]; left; exact L |].
  destruct (Qlt_le_dec b4 a4) as [L | L].
  - apply Hab. right. split; [symmetry; exact E1|]. right.
    split; [symmetry; exact E2|]. right. split; [symmetry; exact E3 | lra].
  - apply Hba. right. split; [exact E1|]. right. split; [exact E2|]. right.
    split; [exact E3 | exact L].
Qed.

Lemma rank_key_le_trans (a b c : Engine.RankKey) :
  Engine.rank_key_lt b a = false -> Engine.rank_key_lt c b = false ->
  Engine.rank_key_lt c a = false.
Proof.
  destruct a as [[[a1 a2] a3] a4], b as [[[b1 b2] b3] b4],
           c as [[[c1 c2] c3] c4].
  rewrite !rank_key_le_iff.
  intros [H1 | [E1 [H2 | [E2 [H3 | [E3 H4]]]]]]
         [K1 | [F1 [K2 | [F2 [K3 | [F3 K4]]]]]];
    try (left; lia);
    right; (split; [lia|]);
    try (left; lia);
    right; (split; [lia|]);
    try (left; lra);
    right; split; lra.
Qed.


(** ** The table of needs *)

Lemma Qltb_true a b : Py.Qltb a b = true <-> a < b.
Proof.
  unfold Py.Qltb. rewrite negb_true_iff. apply Qle_bool_false.
Qed.

Lemma is_bodega_not_truthy bodega_principal t :
  Py.truthy bodega_principal = false ->
  Engine.is_bodega bodega_principal t = false.
Proof.
  intros H. unfold Engine.is_bodega.
  destruct bodega_principal; [rewrite H|]; reflexivity.
Qed.

(** Below a minimum of at most 6 the capacity clip of the need does not
    bind: the need is the whole units missing to the minimum. *)
Lemma need_of_row_Necesita r :
  Existencia r < inject_Z (MinObjetivo r) ->
  (MinObjetivo r <= Settings.MAX_STOCK_PER_SKU)%Z ->
  n_Necesita (Engine.need_of_row r)
  = Qfloor (inject_Z (MinObjetivo r) - Existencia r).
Proof.
  intros Hlt Hmax. unfold Engine.need_of_row. cbn [n_Necesita].
  set (d := inject_Z (MinObjetivo r) - Existencia r).
  assert (Hd : 0 <= d) by (subst d; lra).
  destruct (int_nonneg d Hd) as [Ei Hi]. rewrite Ei in *.
  assert (Hfl : inject_Z (Qfloor d) <= d) by apply Qfloor_le.
  assert (Hcap : inject_Z (Qfloor d)
                 <= inject_Z Settings.MAX_STOCK_PER_SKU - Existencia r).
  { rewrite Zle_Qle in Hmax. subst d. lra. }
  unfold Py.Qmin.
  replace (Qle_bool (inject_Z (Qfloor d))
             (inject_Z Settings.MAX_STOCK_PER_SKU - Existencia r))
    with true by (symmetry; apply Qle_bool_iff, Hcap).
  assert (H0 : 0 <= inject_Z (Qfloor d)) by (apply inject_Z_nonneg, Hi).
  unfold Py.Qmax.
  replace (Qle_bool 0 (inject_Z (Qfloor d)))
    with true by (symmetry; apply Qle_bool_iff, H0).
  destruct (int_nonneg _ H0) as [E2 _]. rewrite E2. apply Qfloor_Z.
Qed.

Lemma init_row_MinObjetivo bodega_principal r :
  (MinObjetivo (Engine.init_row bodega_principal r) <= 3)%Z.
Proof.
  unfold Engine.init_row.
  destruct (Engine.is_bodega bodega_principal (Tienda r)), (IsEcom r);
    simpl; discriminate.
Qed.

(** ** Store categories and store orders *)

Lemma get_In_snd (K V : Type) (eqb : K -> K -> bool) (d : list (K * V)) k v :
  Py.get eqb d k = Some v -> In v (map snd d).
Proof.
  induction d as [|[k0 v0] d IH]; simpl; [discriminate|].
  destruct (eqb k k0); [intros [= ->]; left; reflexivity | right; auto].
Qed.

Lemma get_store_category_ABC (store_name : string) :
  Settings.get_store_category store_name = "A"%string
  \/ Settings.get_store_category store_name = "B"%string
  \/ Settings.get_store_category store_name = "C"%string.
Proof.
  unfold Settings.get_store_category.
  destruct (Py.get String.eqb Settings.STORE_CATEGORY
              (Py.upper (Py.strip store_name))) as [c|] eqn:E; [|auto].
  apply get_In_snd in E. simpl in E.
  repeat (destruct E as [<- | E]; [auto|]). contradiction.
Qed.

Lemma NoDup_filter (A : Type) (f : A -> bool) (l : list A) :
  NoDup l -> NoDup (filter f l).
Proof.
  induction 1 as [|x l Hx _ IH]; simpl; [constructor|].
  destruct (f x); [|exact IH].
  constructor; [|exact IH]. intros H. apply filter_In in H. apply Hx, H.
Qed.

(** ** The drainage limit against the warehouse *)


(** ** Enriching the stock table *)

Lemma adu_matches_key r a :
  adu_matches r a = true <-> (adu_Tienda a, adu_SKU a) = row_key r.
Proof.
  unfold adu_matches, row_key. rewrite andb_true_iff, !String.eqb_eq.
  split; [intros [-> ->]; reflexivity | intros [= -> ->]; split; reflexivity].
Qed.

Lemma filter_unique_key r adu_df :
  NoDup (map (fun a => (adu_Tienda a, adu_SKU a)) adu_df) ->
  filter (adu_matches r) adu_df
  = match find (adu_matches r) adu_df with
    | Some a => [a]
    | None => []
    end.
Proof.
  induction adu_df as [|a adu_df IH]; simpl; [reflexivity|].
  intros ND. inversion ND as [|? ? Hnot ND']; subst.
  destruct (adu_matches r a) eqn:E; [|apply IH, ND'].
  f_equal. apply adu_matches_key in E.
  destruct (filter (adu_matches r) adu_df) as [|a' rest] eqn:F; [reflexivity|].
  exfalso. assert (Hin : In a' (filter (adu_matches r) adu_df))
    by (rewrite F; left; reflexivity).
  apply filter_In in Hin. destruct Hin as [Hin Hm].
  apply adu_matches_key in Hm. apply Hnot. rewrite E, <- Hm.
  apply (in_map (fun a => (adu_Tienda a, adu_SKU a))), Hin.
Qed.

Lemma enrich_unique_keys df_stock adu_df :
  NoDup (map (fun a => (adu_Tienda a, adu_SKU a)) adu_df) ->
  enrich_stock_with_adu df_stock adu_df
  = map (fun r => with_ADU r
                    (Some (match find (adu_matches r) adu_df with
                           | Some a => adu_ADU a
                           | None => 0
                           end)))
        df_stock.
Proof.
  intros ND. unfold enrich_stock_with_adu.
  match goal with |- flat_map ?F _ = _ => set (G := F) end.
  induction df_stock as [|r df_stock IH]; [reflexivity|].
  change (flat_map G (r :: df_stock)) with (G r ++ flat_map G df_stock).
  rewrite IH. unfold G. rewrite (filter_unique_key r adu_df ND).
  cbn [map]. destruct (find (adu_matches r) adu_df); reflexivity.
Qed.

Lemma key_total_map_with_ADU k (f : StockRow -> option Q) rows :
  key_total k (map (fun r => with_ADU r (f r)) rows) = key_total k rows.
Proof.
  unfold key_total. induction rows as [|r rows IH]; simpl; [reflexivity|].
  change (row_key (with_ADU r (f r))) with (row_key r).
  destruct (key_eqb k (row_key r)); simpl; rewrite ?IH; reflexivity.
Qed.

Lemma total_map_with_ADU (f : StockRow -> option Q) rows :
  total (map (fun r => with_ADU r (f r)) rows) = total rows.
Proof.
  induction rows as [|r rows IH]; simpl; [reflexivity|]. rewrite IH. reflexivity.
Qed.

(** ** Detecting the warehouse *)

Lemma idxmax_spec (l : list (string * Q)) :
  match Orchestrator.idxmax l with
  | None => l = []
  | Some b => exists q, In (b, q) l /\ forall t q', In (t, q') l -> q' <= q
  end.
Proof.
  destruct l as [|x rest]; simpl; [reflexivity|].
  set (step := fun best y : string * Q =>
                 if Py.Qltb (snd best) (snd y) then y else best).
  assert (H : forall rest x,
            In (fold_left step rest x) (x :: rest)
            /\ forall y, In y (x :: rest) -> snd y <= snd (fold_left step rest x)).
  { clear. intros rest. induction rest as [|y rest IH]; intros x; simpl.
    - split; [left; reflexivity|]. intros y [<- | []]. apply Qle_refl.
    - destruct (IH (step x y)) as [Hin Hmax]. split.
      + destruct Hin as [Hin | Hin]; [|right; right; exact Hin].
        rewrite <- Hin. unfold step.
        destruct (Py.Qltb (snd x) (snd y)); [right; left | left]; reflexivity.
      + assert (Hx : snd x <= snd (step x y) /\ snd y <= snd (step x y)).
        { unfold step. destruct (Py.Qltb (snd x) (snd y)) eqn:E.
          - apply Qltb_true in E. split; [apply Qlt_le_weak, E | apply Qle_refl].
          - split; [apply Qle_refl|]. unfold Py.Qltb in E.
            apply negb_false_iff, Qle_bool_iff in E. exact E. }
        intros z [<- | [<- | Hz]].
        * eapply Qle_trans; [apply Hx | apply Hmax; left; reflexivity].
        * eapply Qle_trans; [apply Hx | apply Hmax; left; reflexivity].
        * apply Hmax. right. exact Hz. }
  destruct (H rest x) as [Hin Hmax].
  exists (snd (fold_left step rest x)). split.
  - destruct (fold_left step rest x); exact Hin.
  - intros t q' Ht. apply (Hmax (t, q')), Ht.
Qed.

Lemma filter_filter_tienda (f : string -> bool) t rows :
  f t = true ->
  filter (fun r => String.eqb (Tienda r) t) (filter (fun r => f (Tienda r)) rows)
  = filter (fun r => String.eqb (Tienda r) t) rows.
Proof.
  intros Hf. induction rows as [|r rows IH]; simpl; [reflexivity|].
  destruct (f (Tienda r)) eqn:E; simpl; rewrite IH; [reflexivity|].
  destruct (String.eqb (Tienda r) t) eqn:Et; [|reflexivity].
  apply String.eqb_eq in Et. congruence.
Qed.

(** ** The enriched table *)

Lemma keys_nonneg_enrich df_stock adu_df :
  NoDup (map (fun a => (adu_Tienda a, adu_SKU a)) adu_df) ->
  keys_nonneg df_stock ->
  keys_nonneg (enrich_stock_with_adu df_stock adu_df)
  /\ total (enrich_stock_with_adu df_stock adu_df) = total df_stock.
Proof.
  intros ND K. rewrite (enrich_unique_keys df_stock adu_df ND). split.
  - intros k. rewrite key_total_map_with_ADU. apply K.
  - apply total_map_with_ADU.
Qed.

(** ** Strings: [strip] and [upper] *)

Lemma lstrip_idem s : Py.lstrip (Py.lstrip s) = Py.lstrip s.
Proof.
  induction s as [|c s IH]; simpl; [reflexivity|].
  destruct (Py.is_space c) eqn:E; [exact IH|]. simpl. rewrite E. reflexivity.
Qed.

Lemma lstrip_head s :
  Py.lstrip s = EmptyString
  \/ exists c t, Py.lstrip s = String c t /\ Py.is_space c = false.
Proof.
  induction s as [|c s IH]; simpl; [left; reflexivity|].
  destruct (Py.is_space c) eqn:E; [exact IH|].
  right. exists c, s. split; [reflexivity | exact E].
Qed.

Lemma append_nil_r (s : string) : (s ++ EmptyString)%string = s.
Proof. induction s as [|c s IH]; simpl; [|rewrite IH]; reflexivity. Qed.

Lemma rev_append_rev_append s : forall a b,
  Py.rev_append (Py.rev_append s a) b = Py.rev_append a (s ++ b)%string.
Proof.
  induction s as [|c s IH]; intros a b; simpl; [reflexivity|].
  rewrite IH. reflexivity.
Qed.

Lemma rev_involutive s : Py.rev (Py.rev s) = s.
Proof.
  unfold Py.rev. rewrite rev_append_rev_append. simpl. apply append_nil_r.
Qed.

Lemma rev_append_app u v : forall acc,
  Py.rev_append (u ++ v)%string acc = Py.rev_append v (Py.rev_append u acc).
Proof.
  induction u as [|c u IH]; intros acc; simpl; [reflexivity | apply IH].
Qed.

Lemma rev_append_acc s : forall acc,
  Py.rev_append s acc = (Py.rev s ++ acc)%string.
Proof.
  unfold Py.rev. induction s as [|c s IH]; intros acc; simpl; [reflexivity|].
  rewrite (IH (String c acc)), (IH (String c EmptyString)).
  generalize (Py.rev_append s EmptyString). clear.
  induction s as [|d s IH]; simpl; [reflexivity | rewrite IH; reflexivity].
Qed.

Lemma lstrip_app_nonspace c : Py.is_space c = false ->
  forall x, exists u,
    Py.lstrip (x ++ String c EmptyString)%string
    = (u ++ String c EmptyString)%string.
Proof.
  intros E. induction x as [|d x IH]; simpl.
  - rewrite E. exists EmptyString. reflexivity.
  - destruct (Py.is_space d); [exact IH|].
    exists (String d x). reflexivity.
Qed.

(** Stripping the right end keeps a first character that is not a space. *)
Lemma rev_snoc u c : Py.rev (u ++ String c EmptyString) = String c (Py.rev u).
Proof.
  unfold Py.rev. rewrite rev_append_app. reflexivity.
Qed.

Lemma rstrip_head c t :
  Py.is_space c = false ->
  exists u, Py.rev (Py.lstrip (Py.rev (String c t))) = String c u.
Proof.
  intros E.
  assert (R : Py.rev (String c t) = (Py.rev t ++ String c EmptyString)%string).
  { unfold Py.rev at 1. simpl. apply rev_append_acc. }
  rewrite R.
  destruct (lstrip_app_nonspace c E (Py.rev t)) as [u Hu]. rewrite Hu.
  exists (Py.rev u). apply rev_snoc.
Qed.

Lemma strip_idem s : Py.strip (Py.strip s) = Py.strip s.
Proof.
  unfold Py.strip.
  assert (H : Py.lstrip (Py.rev (Py.lstrip (Py.rev (Py.lstrip s))))
              = Py.rev (Py.lstrip (Py.rev (Py.lstrip s)))).
  { destruct (lstrip_head s) as [-> | (c & t & -> & E)]; [reflexivity|].
    destruct (rstrip_head c t E) as [u ->]. simpl. rewrite E. reflexivity. }
  rewrite H, rev_involutive, lstrip_idem. reflexivity.
Qed.

Lemma is_space_upper_ascii c : Py.is_space (Py.upper_ascii c) = Py.is_space c.
Proof.
  destruct c as [[] [] [] [] [] [] [] []]; reflexivity.
Qed.

Lemma upper_ascii_idem c : Py.upper_ascii (Py.upper_ascii c) = Py.upper_ascii c.
Proof.
  destruct c as [[] [] [] [] [] [] [] []]; reflexivity.
Qed.

Lemma upper_idem s : Py.upper (Py.upper s) = Py.upper s.
Proof.
  induction s as [|c s IH]; simpl; [reflexivity|].
  rewrite upper_ascii_idem, IH. reflexivity.
Qed.

Lemma upper_lstrip s : Py.upper (Py.lstrip s) = Py.lstrip (Py.upper s).
Proof.
  induction s as [|c s IH]; simpl; [reflexivity|].
  rewrite is_space_upper_ascii. destruct (Py.is_space c); [exact IH | reflexivity].
Qed.

Lemma upper_rev_append s : forall acc,
  Py.upper (Py.rev_append s acc) = Py.rev_append (Py.upper s) (Py.upper acc).
Proof.
  induction s as [|c s IH]; intros acc; simpl; [reflexivity|]. rewrite IH.
  reflexivity.
Qed.

Lemma upper_strip s : Py.upper (Py.strip s) = Py.strip (Py.upper s).
Proof.
  unfold Py.strip, Py.rev.
  rewrite upper_rev_append, upper_lstrip, upper_rev_append, upper_lstrip.
  reflexivity.
Qed.

Lemma normalize_idem s :
  Py.upper (Py.strip (Py.upper (Py.strip s))) = Py.upper (Py.strip s).
Proof.
  rewrite <- (upper_strip (Py.strip s)), upper_idem, strip_idem. reflexivity.
Qed.

(** ** Item codes *)

Lemma substring_app_l (a b : string) :
  substring 0 (String.length a) (a ++ b) = a.
Proof.
  induction a as [|c a IH]; simpl.
  - destruct b; reflexivity.
  - rewrite IH. reflexivity.
Qed.

Lemma substring_app_r (a b : string) :
  substring (String.length a) (String.length (a ++ b) - String.length a) (a ++ b)
  = b.
Proof.
  induction a as [|c a IH]; simpl.
  - rewrite Nat.sub_0_r. apply substring_0_length.
  - exact IH.
Qed.

(** ** Phase 2 and the references a store holds *)

Lemma store_rows_update_key t k f rows :
  fst k <> t ->
  store_rows t (map (update_key k f) rows) = store_rows t rows.
Proof.
  intros Hk. unfold store_rows. induction rows as [|r rows IH]; simpl; [reflexivity|].
  unfold update_key at 1 2.
  destruct (key_eqb k (row_key r)) eqn:E.
  - apply key_eqb_eq in E. subst k. simpl in Hk. simpl.
    apply String.eqb_neq in Hk. rewrite Hk. exact IH.
  - rewrite IH. reflexivity.
Qed.

Lemma update_origen_store_rows s origen sku cantidad t :
  wf s -> origen <> t ->
  store_rows t (stock_df (update_origen s origen sku cantidad))
  = store_rows t (stock_df s).
Proof.
  intros W Hne. unfold update_origen.
  destruct (Py.get key_eqb (idx_tienda_sku s) (origen, sku)) as [l|] eqn:G;
    [|reflexivity].
  destruct (wf_get s _ _ W G) as [-> _]. cbn [stock_df].
  rewrite loc_update_key. apply store_rows_update_key. exact Hne.
Qed.

Lemma update_destino_store_rows s destino sku cantidad r t :
  wf s -> destino <> t -> Tienda r = destino ->
  store_rows t (stock_df (update_destino s destino sku cantidad r))
  = store_rows t (stock_df s).
Proof.
  intros W Hne Hr. unfold update_destino.
  destruct (Py.get key_eqb (idx_tienda_sku s) (destino, sku)) as [l|] eqn:G;
    cbn [stock_df].
  - destruct (wf_get s _ _ W G) as [-> _].
    rewrite loc_update_key. apply store_rows_update_key. exact Hne.
  - unfold store_rows. rewrite filter_app. simpl. rewrite Hr.
    apply String.eqb_neq in Hne. rewrite Hne. apply app_nil_r.
Qed.

Lemma holds_ref_store_rows rows rows' t ref :
  store_rows t rows = store_rows t rows' ->
  holds_ref rows t ref -> holds_ref rows' t ref.
Proof.
  intros E (r & Hr & Ht & Href & Hpos).
  assert (Hin : In r (store_rows t rows))
    by (apply filter_In; split; [exact Hr | apply String.eqb_eq, Ht]).
  rewrite E in Hin. apply filter_In in Hin.
  exists r. repeat split; try assumption. apply Hin.
Qed.

Section CurveRefs.
Variable adu_df : list AduRow.
Variable bodega_principal : string.

Lemma curve_execute_store_rows s origen destino sku cantidad ref talla t :
  wf s -> origen <> t -> destino <> t ->
  store_rows t
    (stock_df (snd (Curve.execute_transfer adu_df s origen destino sku
                      cantidad ref talla)))
  = store_rows t (stock_df s).
Proof.
  intros W Ho Hd. unfold Curve.execute_transfer.
  destruct (negb _); [reflexivity|].
  destruct (get_stock s origen sku <? cantidad)%Z; [reflexivity|].
  cbn [snd record_transfer stock_df].
  destruct (update_origen_total s origen sku cantidad W) as (W1 & _).
  rewrite (update_destino_store_rows _ destino sku cantidad
             (Curve._create_stock_row adu_df destino sku ref talla cantidad)
             t W1 Hd eq_refl).
  apply update_origen_store_rows; assumption.
Qed.

Lemma curve_tallas_store_rows tienda ref t :
  bodega_principal <> t -> tienda <> t ->
  forall tallas s, wf s ->
    store_rows t (stock_df (Curve.complete_tallas adu_df bodega_principal
                              tallas tienda ref s))
    = store_rows t (stock_df s).
Proof.
  intros Hb Ht. induction tallas as [|talla tallas IH]; intros s W;
    cbn [Curve.complete_tallas]; [reflexivity|].
  destruct (Curve.get_bodega_total bodega_principal s <=? 0)%Z; [reflexivity|].
  match goal with |- context [(?n <=? 0)%Z] => set (necesita := n) end.
  destruct (necesita <=? 0)%Z; [apply IH, W|].
  destruct (get_stock s bodega_principal (ref ++ talla) <=? 0)%Z; [apply IH, W|].
  match goal with |- context [(0 <? ?q)%Z] => set (qty := q) end.
  destruct (0 <? qty)%Z; [|apply IH, W].
  rewrite IH.
  - apply curve_execute_store_rows; assumption.
  - apply curve_execute_transfer_conserves, W.
Qed.

Lemma curve_refs_store_rows tienda t :
  bodega_principal <> t -> tienda <> t ->
  forall refs s, wf s ->
    store_rows t (stock_df (Curve.complete_refs adu_df bodega_principal
                              refs tienda s))
    = store_rows t (stock_df s).
Proof.
  intros Hb Ht. induction refs as [|ref refs IH]; intros s W;
    cbn [Curve.complete_refs]; [reflexivity|].
  destruct (Curve.get_bodega_total bodega_principal s <=? 0)%Z; [reflexivity|].
  destruct (Curve.get_rango_for_ref s tienda ref) as [rango|]; [|apply IH, W].
  rewrite IH.
  - apply curve_tallas_store_rows; assumption.
  - apply curve_complete_tallas_conserves, W.
Qed.

Lemma curve_tallas_dest tienda ref : forall tallas s,
  extends (fun tr => tr_destino tr = tienda /\ tr_referencia tr = ref) s
    (Curve.complete_tallas adu_df bodega_principal tallas tienda ref s).
Proof.
  induction tallas as [|talla tallas IH]; intros s;
    cbn [Curve.complete_tallas]; [apply extends_refl|].
  destruct (Curve.get_bodega_total bodega_principal s <=? 0)%Z; [apply extends_refl|].
  match goal with |- context [(?n <=? 0)%Z] => set (necesita := n) end.
  destruct (necesita <=? 0)%Z; [apply IH|].
  destruct (get_stock s bodega_principal (ref ++ talla) <=? 0)%Z; [apply IH|].
  match goal with |- context [(0 <? ?q)%Z] => set (qty := q) end.
  destruct (0 <? qty)%Z; [|apply IH].
  eapply extends_trans; [|apply IH].
  eapply extends_impl; [|apply curve_execute_made_by].
  intros tr (_ & Hd & _ & Hr & _). split; assumption.
Qed.

Lemma curve_refs_dest tienda : forall refs s,
  extends (fun tr => tr_destino tr = tienda /\ In (tr_referencia tr) refs) s
    (Curve.complete_refs adu_df bodega_principal refs tienda s).
Proof.
  induction refs as [|ref refs IH]; intros s;
    cbn [Curve.complete_refs]; [apply extends_refl|].
  assert (Hw : forall s',
            extends (fun tr => tr_destino tr = tienda
                               /\ In (tr_referencia tr) (ref :: refs)) s'
              (Curve.complete_refs adu_df bodega_principal refs tienda s')).
  { intros s'. eapply extends_impl; [|apply IH].
    intros tr [Hd Hr]. split; [exact Hd | right; exact Hr]. }
  destruct (Curve.get_bodega_total bodega_principal s <=? 0)%Z; [apply extends_refl|].
  destruct (Curve.get_rango_for_ref s tienda ref) as [rango|]; [|apply Hw].
  eapply extends_trans; [|apply Hw].
  eapply extends_impl; [|apply curve_tallas_dest].
  intros tr [Hd Hr]. split; [exact Hd | left; symmetry; exact Hr].
Qed.

Lemma refs_by_adu_holds s tienda ref :
  In ref (Curve.refs_by_adu adu_df s tienda) ->
  holds_ref (stock_df s) tienda ref.
Proof.
  unfold Curve.refs_by_adu, Curve.get_refs_in_store. intros H.
  apply in_map_iff in H. destruct H as ([ref' a] & E & H). simpl in E. subst ref'.
  apply In_sort in H. apply in_map_iff in H. destruct H as (ref' & E & H).
  injection E as -> _.
  rewrite In_unique in H. apply in_map_iff in H. destruct H as (r & Er & H).
  apply filter_In in H. destruct H as [Hr Hm]. apply andb_prop in Hm.
  destruct Hm as [Ht Hp].
  exists r. split; [exact Hr|]. split; [apply String.eqb_eq, Ht|].
  split; [exact Er | apply Qltb_true, Hp].
Qed.

Lemma prioritize_stores_NoDup s :
  NoDup (Curve.prioritize_stores adu_df bodega_principal s).
Proof.
  unfold Curve.prioritize_stores.
  eapply Permutation_NoDup;
    [apply Permutation_sym, Permutation_sort
    | apply NoDup_filter, NoDup_unique].
Qed.

Lemma curve_stores_held stock0 : forall stores s,
  wf s -> NoDup stores ->
  (forall t, In t stores ->
     t <> bodega_principal
     /\ store_rows t (stock_df s) = store_rows t stock0) ->
  extends (fun tr => holds_ref stock0 (tr_destino tr) (tr_referencia tr)) s
    (Curve.complete_stores adu_df bodega_principal stores s).
Proof.
  induction stores as [|tienda stores IH]; intros s W ND Hs;
    cbn [Curve.complete_stores]; [apply extends_refl|].
  destruct (Curve.get_bodega_total bodega_principal s <=? 0)%Z; [apply extends_refl|].
  inversion ND as [|? ? Hnotin ND']; subst.
  destruct (Hs tienda (or_introl eq_refl)) as [Hb Hrows].
  eapply extends_trans.
  - eapply extends_impl; [|apply curve_refs_dest].
    intros tr [Hd Hr]. cbv beta in Hr. rewrite Hd.
    apply refs_by_adu_holds in Hr.
    eapply holds_ref_store_rows; [exact Hrows | exact Hr].
  - apply IH.
    + apply curve_complete_refs_conserves, W.
    + exact ND'.
    + intros t Ht. destruct (Hs t (or_intror Ht)) as [Htb Htr].
      split; [exact Htb|]. rewrite <- Htr.
      apply curve_refs_store_rows.
      * intros E. apply Htb. symmetry. exact E.
      * intros E. subst t. apply Hnotin, Ht.
      * exact W.
Qed.

End CurveRefs.

Lemma StronglySorted_map (A B : Type) (f : A -> B) (R : B -> B -> Prop) l :
  StronglySorted (fun a b => R (f a) (f b)) l -> StronglySorted R (map f l).
Proof.
  induction 1 as [|x l Hs IH Hf]; simpl; constructor; [exact IH|].
  apply Forall_map. exact Hf.
Qed.

Lemma StronglySorted_impl (A : Type) (R R' : A -> A -> Prop) l :
  (forall a b, R a b -> R' a b) -> StronglySorted R l -> StronglySorted R' l.
Proof.
  intros H. induction 1 as [|x l Hs IH Hf]; constructor; [exact IH|].
  eapply Forall_impl; [|exact Hf]. intros b. apply H.
Qed.

(** ** Where the transfers of phases 1 and 3 come from *)

Section Provenance.
Variable adu_df : list AduRow.
Variable tiempos_df : list TiempoRow.
Variable bodega_opt : option string.
Variable bodega : string.
Variables no_seed allow_seed_if_adu : bool.

Lemma engine_fill_made tienda sku ref talla : forall origins s gap,
  extends (fun t => tr_destino t = tienda /\ tr_referencia t = ref
                    /\ tr_talla t = talla) s
    (fst (Engine.fill_from_origins adu_df bodega_opt no_seed allow_seed_if_adu
            origins tienda sku ref talla s gap)).
Proof.
  induction origins as [|o origins IH]; intros s gap;
    cbn [Engine.fill_from_origins fst]; [apply extends_refl|].
  destruct (gap <=? 0)%Z; [apply extends_refl|].
  destruct (Engine.allowed_to_send bodega_opt s o sku <=? 0)%Z; [apply IH|].
  match goal with |- context [(0 <? ?q)%Z] => set (qty := q) end.
  destruct (0 <? qty)%Z; [|apply IH].
  pose proof (engine_execute_made_by adu_df no_seed allow_seed_if_adu
                s o tienda sku qty ref talla) as X.
  destruct (Engine.execute_transfer adu_df no_seed allow_seed_if_adu
              s o tienda sku qty ref talla) as [success s'].
  cbn [snd] in X.
  assert (X' : extends (fun t => tr_destino t = tienda /\ tr_referencia t = ref
                                 /\ tr_talla t = talla) s s').
  { eapply extends_impl; [|exact X].
    intros t (_ & Hd & _ & Hr & Ht). auto. }
  destruct success; (eapply extends_trans; [exact X' | apply IH]).
Qed.

Lemma engine_process_base_needs_made : forall needs s,
  extends (fun t => exists n, In n needs
                              /\ tr_destino t = n_Tienda n
                              /\ tr_referencia t = n_Referencia n
                              /\ tr_talla t = n_Talla n) s
    (Engine.process_base_needs adu_df tiempos_df bodega_opt
       no_seed allow_seed_if_adu needs s).
Proof.
  unfold Engine.process_base_needs.
  induction needs as [|need needs IH]; intros s; simpl; [apply extends_refl|].
  eapply extends_trans.
  - assert (H : extends (fun t => tr_destino t = n_Tienda need
                                  /\ tr_referencia t = n_Referencia need
                                  /\ tr_talla t = n_Talla need) s
                  (Engine.process_need adu_df tiempos_df bodega_opt no_seed
                     allow_seed_if_adu s need)).
    { unfold Engine.process_need.
      destruct (negb _ && negb _); [apply extends_refl|].
      destruct (Engine.rank_origins_for_sku tiempos_df bodega_opt s
                  (n_SKU need) (n_Tienda need) (n_Referencia need));
        [apply extends_refl | apply engine_fill_made]. }
    eapply extends_impl; [|exact H].
    intros t Ht. exists need. split; [left; reflexivity | exact Ht].
  - eapply extends_impl; [|apply IH].
    intros t (n & Hn & Ht). exists n. split; [right; exact Hn | exact Ht].
Qed.

Lemma drain_destinos_item sku ref talla max_drain :
  forall destinos s drained qty_disponible,
    extends (fun t => tr_referencia t = ref /\ tr_talla t = Some talla) s
      (fst (Drainer.drain_destinos adu_df bodega no_seed allow_seed_if_adu
              destinos sku ref talla max_drain s drained qty_disponible)).
Proof.
  induction destinos as [|[tienda adu_sku] destinos IH];
    intros s drained qd; cbn [Drainer.drain_destinos fst]; [apply extends_refl|].
  destruct (qd <=? 0)%Z; [apply extends_refl|].
  destruct (max_drain <=? drained)%Z; [apply extends_refl|].
  destruct (negb _); [apply IH|].
  destruct (Z.max 0 (Settings.MAX_STOCK_PER_SKU - get_stock s tienda sku) <=? 0)%Z;
    [apply IH|].
  match goal with |- context [(0 <? ?q)%Z] => set (qty := q) end.
  destruct (0 <? qty)%Z; [|apply IH].
  pose proof (drainer_execute_made_by adu_df s bodega tienda sku qty ref talla) as X.
  destruct (Drainer.execute_transfer adu_df s bodega tienda sku qty ref talla)
    as [success s'].
  cbn [snd] in X.
  assert (X' : extends (fun t => tr_referencia t = ref /\ tr_talla t = Some talla)
                 s s').
  { eapply extends_impl; [|exact X]. intros t (_ & _ & _ & Hr & Ht). auto. }
  destruct success; (eapply extends_trans; [exact X' | apply IH]).
Qed.

Lemma drain_skus_item max_drain : forall skus s drained,
  extends (fun t => exists talla,
                      tr_talla t = Some talla
                      /\ In (tr_referencia t ++ talla)%string
                            (map (fun e => fst (fst e)) skus)) s
    (fst (Drainer.drain_skus adu_df bodega no_seed allow_seed_if_adu
            skus max_drain s drained)).
Proof.
  induction skus as [|[[sku disponible] adu_total] skus IH];
    intros s drained; cbn [Drainer.drain_skus fst]; [apply extends_refl|].
  assert (Hw : forall s' d',
            extends (fun t => exists talla,
                       tr_talla t = Some talla
                       /\ In (tr_referencia t ++ talla)%string
                             (map (fun e => fst (fst e))
                                  ((sku, disponible, adu_total) :: skus))) s'
              (fst (Drainer.drain_skus adu_df bodega no_seed allow_seed_if_adu
                      skus max_drain s' d'))).
  { intros s' d'. eapply extends_impl; [|apply IH].
    intros t (talla & Ht & Hin). exists talla. split; [exact Ht | right; exact Hin]. }
  destruct (max_drain <=? drained)%Z; [apply extends_refl|].
  destruct (String.length sku <? 7)%nat eqn:El; [apply Hw|].
  apply Nat.ltb_ge in El.
  destruct (Z.min disponible (max_drain - drained) <=? 0)%Z; [apply Hw|].
  destruct (Drainer.get_destinations_for_sku adu_df bodega sku)
    as [|d ds]; [apply Hw|].
  pose proof (drain_destinos_item sku (substring 0 7 sku)
                (substring 7 (String.length sku - 7) sku) max_drain
                (d :: ds) s drained
                (Z.min disponible (max_drain - drained))) as D.
  destruct (Drainer.drain_destinos adu_df bodega no_seed
              allow_seed_if_adu (d :: ds) sku (substring 0 7 sku)
              (substring 7 (String.length sku - 7) sku) max_drain s drained
              (Z.min disponible (max_drain - drained))) as [s1 drained1].
  cbn [fst] in D.
  eapply extends_trans; [|apply Hw].
  eapply extends_impl; [|exact D].
  intros t [Hr Ht]. exists (substring 7 (String.length sku - 7) sku).
  split; [exact Ht|]. left. cbn [fst]. rewrite Hr.
  symmetry. apply (substring_split 7 sku El).
Qed.

End Provenance.

(** ** Exact tables stay exact *)

Lemma key_total_cons k r rows :
  key_total k (r :: rows)
  == (if key_eqb k (row_key r) then Existencia r else 0) + key_total k rows.
Proof.
  unfold key_total. simpl. destruct (key_eqb k (row_key r)); simpl; ring.
Qed.

Lemma key_total_absent k rows :
  ~ In k (map row_key rows) -> key_total k rows == 0.
Proof.
  induction rows as [|r rows IH]; intros H; [reflexivity|].
  rewrite key_total_cons. simpl in H.
  replace (key_eqb k (row_key r)) with false
    by (symmetry; apply key_eqb_neq; intuition).
  rewrite IH by tauto. ring.
Qed.

Lemma key_total_NoDup rows r :
  NoDup (map row_key rows) -> In r rows ->
  key_total (row_key r) rows == Existencia r.
Proof.
  induction rows as [|r0 rows IH]; intros ND Hin; [destruct Hin|].
  simpl in ND. inversion ND as [|x l Hx Hl]; subst.
  rewrite key_total_cons. destruct Hin as [<-|Hin].
  - rewrite key_eqb_refl, (key_total_absent _ _ Hx). ring.
  - replace (key_eqb (row_key r) (row_key r0)) with false.
    + rewrite (IH Hl Hin). ring.
    + symmetry. apply key_eqb_neq. intros E. apply Hx. rewrite <- E.
      apply in_map, Hin.
Qed.

Lemma whole_rows_nonneg rows :
  Forall whole_row rows -> Forall (fun r => 0 <= Existencia r) rows.
Proof.
  intros H. eapply Forall_impl; [|exact H].
  intros r (z & Hz & E). rewrite E. apply inject_Z_nonneg, Hz.
Qed.

Lemma whole_rows_keys_whole rows : Forall whole_row rows -> keys_whole rows.
Proof.
  intros H k. induction H as [|r rows (z & _ & E) _ (y & IH)].
  - exists 0%Z. reflexivity.
  - destruct (key_eqb k (row_key r)) eqn:Ek.
    + exists (z + y)%Z. rewrite key_total_cons, Ek, E, IH, inject_Z_plus.
      reflexivity.
    + exists y. rewrite key_total_cons, Ek, IH. ring.
Qed.

Lemma exact_table_keys rows :
  exact_table rows -> keys_nonneg rows /\ keys_whole rows.
Proof.
  intros (_ & HW & _). split.
  - apply keys_nonneg_rows, whole_rows_nonneg, HW.
  - apply whole_rows_keys_whole, HW.
Qed.

Lemma exact_table_intro rows :
  NoDup (map row_key rows) -> keys_whole rows -> keys_nonneg rows ->
  total rows <= inject_Z (2 ^ 52) ->
  exact_table rows.
Proof.
  intros ND KW KN T. split; [exact ND|]. split; [|exact T].
  apply Forall_forall. intros r Hr.
  destruct (KW (row_key r)) as [z Ez].
  pose proof (KN (row_key r)) as Hn.
  rewrite (key_total_NoDup rows r ND Hr) in Ez.
  rewrite (key_total_NoDup rows r ND Hr) in Hn.
  exists z. split; [|exact Ez].
  rewrite Ez in Hn. change 0 with (inject_Z 0) in Hn.
  rewrite <- Zle_Qle in Hn. exact Hn.
Qed.

Lemma update_origen_keys s origen sku cantidad :
  map row_key (stock_df (update_origen s origen sku cantidad))
  = map row_key (stock_df s).
Proof.
  unfold update_origen.
  destruct (Py.get key_eqb (idx_tienda_sku s) (origen, sku)); simpl;
    [|reflexivity].
  unfold loc_update. apply map_row_key_loc_update.
Qed.

Lemma update_origen_keys_whole s origen sku cantidad :
  wf s -> keys_whole (stock_df s) ->
  keys_whole (stock_df (update_origen s origen sku cantidad)).
Proof.
  intros W K k.
  destruct (Py.mem key_eqb (idx_tienda_sku s) (origen, sku)) eqn:Ho.
  - destruct (K k) as [z Ez].
    exists (z - (if key_eqb (origen, sku) k then cantidad else 0))%Z.
    rewrite (update_origen_key_total s origen sku cantidad k W Ho), Ez.
    unfold Z.sub. rewrite inject_Z_plus, inject_Z_opp.
    destruct (key_eqb (origen, sku) k); reflexivity.
  - rewrite (update_origen_absent s origen sku cantidad Ho). apply K.
Qed.

Lemma exact_state_closed : move_closed exact_state.
Proof.
  intros s origen destino sku cantidad r t (W & ND & K) Hk He.
  destruct (update_origen_total s origen sku cantidad W) as (W1 & _).
  pose proof (update_origen_keys_whole s origen sku cantidad W K) as K1.
  pose proof (update_origen_keys s origen sku cantidad) as E1.
  set (s1 := update_origen s origen sku cantidad) in *.
  destruct (update_destino_total s1 destino sku cantidad r W1 Hk He) as (W2 & _).
  split; [exact W2|]. cbn [stock_df record_transfer]. split.
  - unfold update_destino.
    destruct (Py.get key_eqb (idx_tienda_sku s1) (destino, sku)) as [l|] eqn:G;
      simpl.
    + unfold loc_update. rewrite map_row_key_loc_update, E1. exact ND.
    + rewrite map_app; simpl. rewrite Hk.
      pose proof (wf_get_none s1 _ W1 G) as Pn.
      apply NoDup_key_snoc; [|rewrite E1; exact ND].
      intros Hin. apply in_map_iff in Hin. destruct Hin as [x [Hx Hinx]].
      apply In_nth_error in Hinx. destruct Hinx as [n Hn].
      assert (Hp : In n (positions (destino, sku) (stock_df s1))).
      { apply In_positions_from. split; [lia|]. exists x.
        rewrite Nat.sub_0_r. split; [exact Hn|].
        apply key_eqb_eq. symmetry. exact Hx. }
      rewrite Pn in Hp. contradiction.
  - intros k. destruct (K1 k) as [z Ez].
    exists (z + (if key_eqb (destino, sku) k then cantidad else 0))%Z.
    rewrite (update_destino_key_total s1 destino sku cantidad r k W1 Hk He), Ez.
    rewrite inject_Z_plus. destruct (key_eqb (destino, sku) k); reflexivity.
Qed.

Section MoveClosed.
Variable P : State -> Prop.
Hypothesis P_move : move_closed P.

Lemma engine_execute_transfer_closed adu_df no_seed allow_seed_if_adu
    s origen destino sku cantidad ref talla :
  P s ->
  P (snd (Engine.execute_transfer adu_df no_seed allow_seed_if_adu
            s origen destino sku cantidad ref talla)).
Proof.
  intros H. unfold Engine.execute_transfer.
  destruct (negb _ && negb _); simpl; [exact H|].
  destruct (engine_new_row_key adu_df (update_origen s origen sku cantidad)
              destino sku ref talla cantidad) as [Hk He].
  apply P_move; [exact H | exact Hk | rewrite He; reflexivity].
Qed.

Lemma engine_fill_closed adu_df bodega_principal no_seed allow_seed_if_adu
    tienda sku ref talla : forall origins s gap,
  P s ->
  P (fst (Engine.fill_from_origins adu_df bodega_principal no_seed
            allow_seed_if_adu origins tienda sku ref talla s gap)).
Proof.
  induction origins as [|o origins IH]; intros s gap H; simpl; [exact H|].
  destruct (gap <=? 0)%Z; [exact H|].
  destruct (Engine.allowed_to_send bodega_principal s o sku <=? 0)%Z;
    [apply IH, H|].
  match goal with |- context [(0 <? ?q)%Z] => set (qty := q) end.
  destruct (0 <? qty)%Z; [|apply IH, H].
  pose proof (engine_execute_transfer_closed adu_df no_seed allow_seed_if_adu
                s o tienda sku qty ref talla H) as C.
  destruct (Engine.execute_transfer adu_df no_seed allow_seed_if_adu
              s o tienda sku qty ref talla) as [success s'].
  simpl in C. destruct success; apply IH, C.
Qed.

Lemma engine_process_need_closed adu_df tiempos_df bodega_principal no_seed
    allow_seed_if_adu s need :
  P s ->
  P (Engine.process_need adu_df tiempos_df bodega_principal no_seed
       allow_seed_if_adu s need).
Proof.
  intros H. unfold Engine.process_need.
  destruct (negb _ && negb _); [exact H|].
  destruct (Engine.rank_origins_for_sku tiempos_df bodega_principal s
              (n_SKU need) (n_Tienda need) (n_Referencia need)); [exact H|].
  apply engine_fill_closed, H.
Qed.

Lemma run_fase1_closed adu_df tiempos_df bodega_principal no_seed
    allow_seed_if_adu stock :
  P (Engine.init bodega_principal stock) ->
  P (Engine.run_fase1 adu_df tiempos_df bodega_principal no_seed
       allow_seed_if_adu stock).
Proof.
  unfold Engine.run_fase1, Engine.process_base_needs.
  generalize (Engine.identify_base_needs bodega_principal
                (Engine.init bodega_principal stock)).
  generalize (Engine.init bodega_principal stock).
  intros s needs. revert s.
  induction needs as [|need needs IH]; intros s H; simpl; [exact H|].
  apply IH, engine_process_need_closed, H.
Qed.

Lemma curve_execute_transfer_closed adu_df s origen destino sku cantidad ref talla :
  P s ->
  P (snd (Curve.execute_transfer adu_df s origen destino sku cantidad ref talla)).
Proof.
  intros H. unfold Curve.execute_transfer.
  destruct (negb _); simpl; [exact H|].
  destruct (get_stock s origen sku <? cantidad)%Z; simpl; [exact H|].
  apply P_move; [exact H | reflexivity | reflexivity].
Qed.

Lemma curve_complete_tallas_closed adu_df bodega_principal tienda ref :
  forall tallas s,
  P s -> P (Curve.complete_tallas adu_df bodega_principal tallas tienda ref s).
Proof.
  induction tallas as [|talla tallas IH]; intros s H; simpl; [exact H|].
  destruct (Curve.get_bodega_total bodega_principal s <=? 0)%Z; [exact H|].
  destruct (Z.min _ _ <=? 0)%Z; [apply IH, H|].
  destruct (get_stock s bodega_principal (ref ++ talla) <=? 0)%Z; [apply IH, H|].
  destruct (0 <? _)%Z; [|apply IH, H].
  apply IH, curve_execute_transfer_closed, H.
Qed.

Lemma curve_complete_refs_closed adu_df bodega_principal tienda : forall refs s,
  P s -> P (Curve.complete_refs adu_df bodega_principal refs tienda s).
Proof.
  induction refs as [|ref refs IH]; intros s H; simpl; [exact H|].
  destruct (Curve.get_bodega_total bodega_principal s <=? 0)%Z; [exact H|].
  destruct (Curve.get_rango_for_ref s tienda ref) as [rango|]; [|apply IH, H].
  apply IH, curve_complete_tallas_closed, H.
Qed.

Lemma curve_complete_stores_closed adu_df bodega_principal : forall stores s,
  P s -> P (Curve.complete_stores adu_df bodega_principal stores s).
Proof.
  induction stores as [|tienda stores IH]; intros s H; simpl; [exact H|].
  destruct (Curve.get_bodega_total bodega_principal s <=? 0)%Z; [exact H|].
  apply IH, curve_complete_refs_closed, H.
Qed.

Lemma run_fase2_closed adu_df bodega_principal stock :
  P (Curve.init stock) ->
  exists s', P s'
    /\ Curve.run_fase2 adu_df bodega_principal stock
       = (stock_df s', transfers s').
Proof.
  intros H. unfold Curve.run_fase2, Curve.complete_curves.
  destruct (Curve.get_bodega_total bodega_principal (Curve.init stock) <=? 0)%Z.
  - exists (Curve.init stock). split; [exact H | reflexivity].
  - eexists. split; [|reflexivity].
    apply curve_complete_stores_closed, H.
Qed.

Lemma drainer_execute_transfer_closed adu_df s origen destino sku cantidad ref talla :
  P s ->
  P (snd (Drainer.execute_transfer adu_df s origen destino sku cantidad ref talla)).
Proof.
  intros H. unfold Drainer.execute_transfer.
  destruct (negb _); simpl; [exact H|].
  apply P_move; [exact H | reflexivity | reflexivity].
Qed.

Lemma drain_destinos_closed adu_df bodega_principal no_seed allow_seed_if_adu
    sku ref talla max_drain : forall destinos s drained qty_disponible,
  P s ->
  P (fst (Drainer.drain_destinos adu_df bodega_principal no_seed
            allow_seed_if_adu destinos sku ref talla max_drain s drained
            qty_disponible)).
Proof.
  induction destinos as [|[tienda adu_sku] destinos IH];
    intros s drained qty_disponible H; simpl; [exact H|].
  destruct (qty_disponible <=? 0)%Z; [exact H|].
  destruct (max_drain <=? drained)%Z; [exact H|].
  destruct (negb _); [apply IH, H|].
  destruct (Z.max 0 _ <=? 0)%Z; [apply IH, H|].
  match goal with |- context [(0 <? ?q)%Z] => set (qty := q) end.
  destruct (0 <? qty)%Z; [|apply IH, H].
  pose proof (drainer_execute_transfer_closed adu_df s bodega_principal tienda
                sku qty ref talla H) as C.
  destruct (Drainer.execute_transfer adu_df s bodega_principal tienda sku qty
              ref talla) as [success s'].
  simpl in C. destruct success; apply IH, C.
Qed.

Lemma drain_skus_closed adu_df bodega_principal no_seed allow_seed_if_adu
    max_drain : forall skus s drained,
  P s ->
  P (fst (Drainer.drain_skus adu_df bodega_principal no_seed allow_seed_if_adu
            skus max_drain s drained)).
Proof.
  induction skus as [|[[sku disponible] adu_total] skus IH];
    intros s drained H; cbn [Drainer.drain_skus]; [exact H|].
  destruct (max_drain <=? drained)%Z; [exact H|].
  destruct (String.length sku <? 7)%nat; [apply IH, H|].
  destruct (Z.min disponible (max_drain - drained) <=? 0)%Z; [apply IH, H|].
  destruct (Drainer.get_destinations_for_sku adu_df bodega_principal sku)
    as [|d ds]; [apply IH, H|].
  match goal with |- context [Drainer.drain_destinos ?a ?b ?c ?d ?e ?f ?g ?h ?i ?j ?k ?l] =>
    pose proof (drain_destinos_closed a b c d f g h i e j k l H) as D;
    destruct (Drainer.drain_destinos a b c d e f g h i j k l) as [s' drained']
  end.
  apply IH, D.
Qed.

Lemma run_fase3_closed adu_df bodega_principal no_seed allow_seed_if_adu
    stock safety_ratio :
  P (Drainer.init stock) ->
  exists s', P s'
    /\ Drainer.run_fase3 adu_df bodega_principal no_seed allow_seed_if_adu
         stock safety_ratio
       = (stock_df s', transfers s').
Proof.
  intros H. unfold Drainer.run_fase3, Drainer.drain.
  destruct (Drainer.get_bodega_total bodega_principal (Drainer.init stock) <=? 0)%Z.
  - exists (Drainer.init stock). split; [exact H | reflexivity].
  - eexists. split; [|reflexivity]. apply drain_skus_closed, H.
Qed.

Lemma drain_float_closed adu_df bodega_principal no_seed allow_seed_if_adu
    stock safety_ratio :
  P (Drainer.init stock) ->
  exists s', P s'
    /\ Drainer.drain_float adu_df bodega_principal no_seed allow_seed_if_adu
         (Drainer.init stock) safety_ratio
       = (stock_df s', transfers s').
Proof.
  intros H. unfold Drainer.drain_float.
  destruct (Drainer.get_bodega_total bodega_principal (Drainer.init stock) <=? 0)%Z.
  - exists (Drainer.init stock). split; [exact H | reflexivity].
  - eexists. split; [|reflexivity]. apply drain_skus_closed, H.
Qed.

End MoveClosed.

Lemma exact_state_init stock :
  exact_table stock -> exact_state (mkState stock (build_indexes stock) []).
Proof.
  intros E. split; [apply build_indexes_represents|].
  split; [apply E | apply exact_table_keys, E].
Qed.

Lemma exact_state_engine_init bodega_principal stock :
  exact_table stock -> exact_state (Engine.init bodega_principal stock).
Proof.
  intros E. split; [apply build_indexes_represents|]. simpl. split.
  - rewrite map_map.
    replace (map (fun r => row_key (Engine.init_row bodega_principal r)) stock)
      with (map row_key stock); [apply E|].
    apply map_ext. intros r. unfold Engine.init_row.
    destruct (Engine.is_bodega bodega_principal (Tienda r)); reflexivity.
  - intros k. destruct (proj2 (exact_table_keys stock E) k) as [z Ez].
    exists z. rewrite key_total_init. exact Ez.
Qed.

(** Each phase takes an exact table to an exact table. *)
Lemma run_fase1_exact adu_df tiempos_df bodega_principal no_seed
    allow_seed_if_adu stock :
  exact_table stock ->
  exact_table (stock_df (Engine.run_fase1 adu_df tiempos_df bodega_principal
                           no_seed allow_seed_if_adu stock)).
Proof.
  intros E.
  destruct (run_fase1_closed exact_state exact_state_closed adu_df tiempos_df
              bodega_principal no_seed allow_seed_if_adu stock
              (exact_state_engine_init bodega_principal stock E))
    as (_ & ND & KW).
  destruct (run_fase1_sound adu_df tiempos_df bodega_principal no_seed
              allow_seed_if_adu stock (proj1 (exact_table_keys stock E)))
    as [(_ & KN & _) _].
  apply exact_table_intro; [exact ND | exact KW | exact KN|].
  rewrite run_fase1_total. apply E.
Qed.

Lemma run_fase2_exact adu_df bodega_principal stock :
  exact_table stock ->
  exact_table (fst (Curve.run_fase2 adu_df bodega_principal stock)).
Proof.
  intros E.
  destruct (run_fase2_closed exact_state exact_state_closed adu_df
              bodega_principal stock (exact_state_init stock E))
    as (s' & (_ & ND & KW) & Es).
  destruct (run_fase2_sound adu_df bodega_principal stock
              (proj1 (exact_table_keys stock E))) as [KN _].
  pose proof (run_fase2_total adu_df bodega_principal stock) as T.
  rewrite Es in KN, T |- *. cbn [fst] in *.
  apply exact_table_intro; [exact ND | exact KW | exact KN|].
  rewrite T. apply E.
Qed.

Lemma run_fase3_exact adu_df bodega_principal no_seed allow_seed_if_adu
    stock safety_ratio :
  exact_table stock ->
  exact_table (fst (Drainer.run_fase3 adu_df bodega_principal no_seed
                      allow_seed_if_adu stock safety_ratio)).
Proof.
  intros E.
  destruct (run_fase3_closed exact_state exact_state_closed adu_df
              bodega_principal no_seed allow_seed_if_adu stock safety_ratio
              (exact_state_init stock E))
    as (s' & (_ & ND & KW) & Es).
  destruct (run_fase3_sound adu_df bodega_principal no_seed allow_seed_if_adu
              stock safety_ratio (proj1 (exact_table_keys stock E))) as [KN _].
  destruct (run_fase3_ok adu_df bodega_principal no_seed allow_seed_if_adu
              stock safety_ratio) as (T & _).
  rewrite Es in KN, T |- *. cbn [fst] in *.
  apply exact_table_intro; [exact ND | exact KW | exact KN|].
  rewrite T. apply E.
Qed.

Lemma drain_float_exact adu_df bodega_principal no_seed allow_seed_if_adu
    stock safety_ratio :
  exact_table stock ->
  exact_table (fst (Drainer.drain_float adu_df bodega_principal no_seed
                      allow_seed_if_adu (Drainer.init stock) safety_ratio)).
Proof.
  intros E.
  destruct (drain_float_closed exact_state exact_state_closed adu_df
              bodega_principal no_seed allow_seed_if_adu stock safety_ratio
              (exact_state_init stock E))
    as (s' & (_ & ND & KW) & Es).
  destruct (drain_float_sound adu_df bodega_principal no_seed allow_seed_if_adu
              stock safety_ratio (proj1 (exact_table_keys stock E))) as [KN _].
  pose proof (drain_float_total adu_df bodega_principal no_seed
                allow_seed_if_adu stock safety_ratio) as T.
  rewrite Es in KN, T |- *. cbn [fst] in *.
  apply exact_table_intro; [exact ND | exact KW | exact KN|].
  rewrite T. apply E.
Qed.

Lemma run_all_exact adu_df tiempos_df no_seed allow_seed_if_adu bodega_principal
    df_stock enable_curvas enable_drenaje safety_ratio :
  exact_table df_stock ->
  exact_table (snd (Orchestrator.run_all adu_df tiempos_df no_seed
                      allow_seed_if_adu bodega_principal df_stock
                      enable_curvas enable_drenaje safety_ratio)).
Proof.
  intros E. rewrite run_all_unfold. cbn [snd].
  pose proof (run_fase1_exact adu_df tiempos_df bodega_principal no_seed
                allow_seed_if_adu df_stock E) as E1.
  set (s1 := Engine.run_fase1 adu_df tiempos_df bodega_principal no_seed
               allow_seed_if_adu df_stock) in *.
  assert (E2 : exact_table
                 (fst (if enable_curvas && Py.truthy bodega_principal
                       then Orchestrator.run_fase2_completar_curvas adu_df
                              bodega_principal (stock_df s1)
                       else (stock_df s1, [])))).
  { destruct (enable_curvas && Py.truthy bodega_principal); [|exact E1].
    unfold Orchestrator.run_fase2_completar_curvas.
    destruct bodega_principal as [b|]; [|exact E1].
    destruct (negb _); [exact E1|]. apply run_fase2_exact, E1. }
  destruct (enable_drenaje && Py.truthy bodega_principal); [|exact E2].
  unfold Orchestrator.run_fase3_drenar_bodega.
  destruct bodega_principal as [b|]; [|exact E2].
  destruct (negb _); [exact E2|]. apply run_fase3_exact, E2.
Qed.

Lemma exact_table_enrich df_stock adu_df :
  NoDup (map (fun a => (adu_Tienda a, adu_SKU a)) adu_df) ->
  exact_table df_stock ->
  exact_table (enrich_stock_with_adu df_stock adu_df).
Proof.
  intros ND (Hk & HW & T). rewrite (enrich_unique_keys df_stock adu_df ND).
  split; [|split].
  - rewrite map_map. exact Hk.
  - apply Forall_map. eapply Forall_impl; [|exact HW]. intros r H. exact H.
  - rewrite total_map_with_ADU. exact T.
Qed.

(** On a table of whole quantities a key holds a whole quantity, which
    [get_stock] reads unchanged. *)
Lemma int_inject_Z (z : Z) : Py.int (inject_Z z) = z.
Proof.
  unfold Py.int. destruct (Qle_bool 0 (inject_Z z));
    [apply Qfloor_Z | apply Qceiling_Z].
Qed.

Ltac exact_rows :=
  split;
  [repeat (constructor; [vm_compute; intuition discriminate|]); constructor
  |split; [whole_rows | vm_compute; discriminate]].

(** * Further theorems *)

Ltac rows_nonneg :=
  apply keys_nonneg_rows;
  repeat (constructor; [vm_compute; discriminate|]); constructor.

(** ** The index and the quantity of a key *)

(** X1. On the index that [_build_indexes] makes of a table of whole
    quantities, [get_stock] of a (store, item) is the quantity the table
    holds over all the rows of that key; for a key without rows that is
    0. *)
Theorem get_stock_is_key_total stock ts tienda sku :
  whole_table stock ->
  inject_Z (get_stock (mkState stock (build_indexes stock) ts) tienda sku)
  == key_total (tienda, sku) stock
  /\ (~ In (tienda, sku) (map row_key stock) ->
      get_stock (mkState stock (build_indexes stock) ts) tienda sku = 0%Z).
Proof.
  intros [HW _].
  assert (E : get_stock (mkState stock (build_indexes stock) ts) tienda sku
              = Py.int (key_total (tienda, sku) stock)).
  { apply (get_stock_key_total (mkState stock (build_indexes stock) ts)).
    apply build_indexes_represents. }
  rewrite E. split.
  - destruct (whole_rows_keys_whole stock HW (tienda, sku)) as [z Ez].
    rewrite (int_comp _ _ Ez), int_inject_Z, Ez. reflexivity.
  - intros Hn. rewrite (int_comp _ 0 (key_total_absent _ _ Hn)). reflexivity.
Qed.

Lemma get_stock_is_key_total_witness :
  let s := mkState Scenario.split_stock (build_indexes Scenario.split_stock) [] in
  get_stock s Scenario.BODEGA Scenario.SKU18 = 4%Z
  /\ inject_Z (get_stock s Scenario.BODEGA Scenario.SKU18)
     == key_total (Scenario.BODEGA, Scenario.SKU18) Scenario.split_stock.
Proof.
  split; [vm_compute; reflexivity|].
  apply (get_stock_is_key_total Scenario.split_stock [] Scenario.BODEGA
           Scenario.SKU18).
  split; [whole_rows | vm_compute; discriminate].
Defined.

(** ** Phase 1 *)

(** X2. [rank_origins_for_sku] returns the stores that pass the filter of
    its candidate loop, each as often as the index lists it: ranking and
    the promotion of the warehouse neither drop nor repeat a candidate. *)
Theorem rank_origins_lists_every_candidate_once
    tiempos_df bodega_principal s sku dest_tienda dest_referencia :
  Permutation
    (Engine.rank_origins_for_sku tiempos_df bodega_principal s sku
       dest_tienda dest_referencia)
    (map (fun e => fst (fst e))
         (filter (fun e => Engine.is_candidate bodega_principal s sku
                             dest_tienda (fst e))
                 (idx_tienda_sku s))).
Proof.
  unfold Engine.rank_origins_for_sku.
  set (candidates := map (fun e => fst (fst e)) (filter _ (idx_tienda_sku s))).
  set (ranked := Py.sort _ _).
  assert (P : Permutation (map snd ranked) candidates).
  { subst ranked. etransitivity; [apply Permutation_map, Permutation_sort|].
    rewrite map_map. cbn [snd]. rewrite map_id. reflexivity. }
  destruct bodega_principal as [b|]; [|exact P].
  destruct (Py.truthy (Some b) && existsb (String.eqb b) (map snd ranked)) eqn:E;
    [|exact P].
  apply andb_prop in E. destruct E as [_ E].
  apply existsb_exists in E. destruct E as (x & Hx & Ex).
  apply String.eqb_eq in Ex. subst x.
  etransitivity; [apply Permutation_remove, Hx | exact P].
Qed.

(** X3. In the list [rank_origins_for_sku] returns, an origin that is not
    the warehouse never comes before an origin with a smaller sort key
    (region, priority, coverage, delivery days): whatever follows it has a
    key that is not smaller. *)
Theorem rank_origins_in_key_order
    tiempos_df bodega_principal s sku dest_tienda dest_referencia
    l1 a l2 b l3 :
  Engine.rank_origins_for_sku tiempos_df bodega_principal s sku
    dest_tienda dest_referencia
  = l1 ++ a :: l2 ++ b :: l3 ->
  Engine.is_bodega bodega_principal a = false ->
  Engine.rank_key_lt (Engine.rank_key tiempos_df s sku dest_tienda b)
                     (Engine.rank_key tiempos_df s sku dest_tienda a)
  = false.
Proof.
  unfold Engine.rank_origins_for_sku.
  set (candidates := map (fun e => fst (fst e)) (filter _ (idx_tienda_sku s))).
  set (key := Engine.rank_key tiempos_df s sku dest_tienda).
  set (ranked := Py.sort _ _).
  set (R := fun x y : string => Engine.rank_key_lt (key y) (key x) = false).
  assert (S : StronglySorted R (map snd ranked)).
  { assert (Hp : Forall (fun p => fst p = key (snd p)) ranked).
    { apply Forall_forall. intros p Hp. subst ranked. apply In_sort in Hp.
      apply in_map_iff in Hp. destruct Hp as (o & <- & _). reflexivity. }
    assert (Ss : StronglySorted
                   (fun x y : Engine.RankKey * string =>
                      Engine.rank_key_lt (fst y) (fst x) = false) ranked).
    { subst ranked.
      apply (StronglySorted_sort (Engine.RankKey * string)
               (fun x y => Engine.rank_key_lt (fst x) (fst y))).
      - intros x y. apply rank_key_lt_asym.
      - intros x y z. apply rank_key_le_trans. }
    clearbody ranked. induction Ss as [|p l Hs IH Hf]; simpl; [constructor|].
    inversion Hp as [|? ? Hk Hl]; subst.
    constructor; [apply IH, Hl|].
    apply Forall_map. rewrite Forall_forall in *.
    intros q Hq. unfold R. rewrite <- Hk, <- (Hl q Hq). apply Hf, Hq. }
  clearbody ranked.
  intros E Ha.
  assert (Plain : map snd ranked = l1 ++ a :: l2 ++ b :: l3 -> R a b).
  { intros E'. rewrite E' in S. exact (StronglySorted_split _ R _ _ _ _ _ S). }
  destruct bodega_principal as [w|]; [|apply Plain, E].
  destruct (Py.truthy (Some w) && existsb (String.eqb w) (map snd ranked)) eqn:C;
    [|apply Plain, E].
  apply andb_prop in C. destruct C as [T _].
  destruct l1 as [|x l1]; simpl in E.
  - injection E as Ew _. subst a.
    unfold Engine.is_bodega in Ha. rewrite T, String.eqb_refl in Ha. discriminate.
  - injection E as _ E.
    pose proof (StronglySorted_remove R w _ S) as S'.
    rewrite E in S'. exact (StronglySorted_split _ R _ _ _ _ _ S').
Qed.

Lemma rank_origins_in_key_order_witness :
  let s := Engine.init (Some Scenario.BODEGA) Scenario.far_bodega_stock in
  Engine.rank_origins_for_sku [] (Some Scenario.BODEGA) s Scenario.SKU18
    Scenario.CHIPICHAPE Scenario.REF
  = [Scenario.BODEGA] ++ Scenario.UNICENTRO :: [] ++ Scenario.BARRANQUILLA :: []
  /\ Engine.rank_key_lt
       (Engine.rank_key [] s Scenario.SKU18 Scenario.CHIPICHAPE
          Scenario.BARRANQUILLA)
       (Engine.rank_key [] s Scenario.SKU18 Scenario.CHIPICHAPE
          Scenario.UNICENTRO)
     = false.
Proof.
  intros s.
  assert (E : Engine.rank_origins_for_sku [] (Some Scenario.BODEGA) s
                Scenario.SKU18 Scenario.CHIPICHAPE Scenario.REF
              = [Scenario.BODEGA] ++ Scenario.UNICENTRO :: []
                ++ Scenario.BARRANQUILLA :: [])
    by (vm_compute; reflexivity).
  split; [exact E|].
  apply (rank_origins_in_key_order [] (Some Scenario.BODEGA) s Scenario.SKU18
           Scenario.CHIPICHAPE Scenario.REF _ _ _ _ _ E).
  vm_compute. reflexivity.
Defined.

(** X4. On the table [__init__] prepares, [identify_base_needs] lists
    exactly the rows outside the warehouse that are at least one whole unit
    below their minimum, and the need it records is the whole units missing
    to the minimum, [floor (MinObjetivo - Existencia)]: the clip against the
    capacity of 6 never binds, and a row short by less than a unit is not
    listed. *)
Theorem identify_base_needs_whole_units_missing bodega_principal stock n :
  let s := Engine.init bodega_principal stock in
  In n (Engine.identify_base_needs bodega_principal s) <->
  exists r,
    In r (stock_df s)
    /\ Engine.is_bodega bodega_principal (Tienda r) = false
    /\ Existencia r <= inject_Z (MinObjetivo r) - 1
    /\ n = mkNeed (Tienda r) (SKU r) (Referencia r) (Talla r)
                  (Qfloor (inject_Z (MinObjetivo r) - Existencia r))
                  (IsEcom r) (ADU r).
Proof.
  cbv zeta. unfold Engine.identify_base_needs.
  rewrite In_sort, filter_In, in_map_iff.
  assert (Hmin : forall r, In r (stock_df (Engine.init bodega_principal stock)) ->
                   (MinObjetivo r <= Settings.MAX_STOCK_PER_SKU)%Z).
  { intros r Hr. unfold Engine.init in Hr. cbn [stock_df] in Hr.
    apply in_map_iff in Hr. destruct Hr as (r0 & <- & _).
    pose proof (init_row_MinObjetivo bodega_principal r0).
    unfold Settings.MAX_STOCK_PER_SKU. lia. }
  split.
  - intros [(r & En & Hr) Hpos]. apply filter_In in Hr.
    destruct Hr as [Hr Hmask]. apply andb_prop in Hmask.
    destruct Hmask as [Hlt Hb]. apply Qltb_true in Hlt.
    pose proof (need_of_row_Necesita r Hlt (Hmin r Hr)) as EN.
    exists r. split; [exact Hr|]. split.
    { destruct (Py.truthy bodega_principal) eqn:T;
        [apply negb_true_iff, Hb | apply is_bodega_not_truthy, T]. }
    subst n. apply Z.ltb_lt in Hpos. rewrite EN in Hpos. split.
    + assert (H1 : inject_Z 1 <= inject_Z (MinObjetivo r) - Existencia r).
      { eapply Qle_trans; [|apply Qfloor_le]. rewrite <- Zle_Qle. lia. }
      change (inject_Z 1) with 1 in H1. lra.
    + unfold Engine.need_of_row in *. cbn [n_Necesita] in EN. rewrite EN.
      reflexivity.
  - intros (r & Hr & Hb & Hle & En).
    assert (Hlt : Existencia r < inject_Z (MinObjetivo r)) by lra.
    pose proof (need_of_row_Necesita r Hlt (Hmin r Hr)) as EN.
    assert (Enr : Engine.need_of_row r = n).
    { subst n. unfold Engine.need_of_row in *. cbn [n_Necesita] in EN.
      rewrite EN. reflexivity. }
    split.
    + exists r. split; [exact Enr|]. apply filter_In. split; [exact Hr|].
      apply andb_true_intro. split; [apply Qltb_true, Hlt|].
      rewrite Hb. destruct (Py.truthy bodega_principal); reflexivity.
    + rewrite <- Enr, EN. apply Z.ltb_lt.
      assert (H1 : (Qfloor 1 <= Qfloor (inject_Z (MinObjetivo r) - Existencia r))%Z)
        by (apply Qfloor_resp_le; lra).
      change (Qfloor 1) with 1%Z in H1. lia.
Qed.

(** X5. In a state whose index is faithful, whose keys hold no negative
    quantity and whose minimums are at least 2 outside the warehouse,
    [allowed_to_send] is never negative and never exceeds [get_stock] of the
    key, and for a store other than the warehouse it is either 0 or leaves
    at least 2 units behind. *)
Theorem allowed_to_send_keeps_minimum bodega_principal s origen sku :
  sound1 bodega_principal s ->
  (0 <= Engine.allowed_to_send bodega_principal s origen sku
   <= get_stock s origen sku)%Z
  /\ (Engine.is_bodega bodega_principal origen = false ->
      Engine.allowed_to_send bodega_principal s origen sku = 0%Z
      \/ (Engine.allowed_to_send bodega_principal s origen sku + 2
          <= get_stock s origen sku)%Z).
Proof.
  intros S.
  assert (Hst : (0 <= get_stock s origen sku)%Z).
  { destruct S as (W & K & _). apply (get_stock_le_key_total s origen sku).
    split; assumption. }
  assert (H0 : (0 <= Engine.allowed_to_send bodega_principal s origen sku)%Z).
  { unfold Engine.allowed_to_send.
    destruct (first_row s origen sku); [|lia].
    destruct (Engine.is_bodega bodega_principal origen); [exact Hst | lia]. }
  destruct (Z.eq_dec (Engine.allowed_to_send bodega_principal s origen sku) 0)
    as [E | NE].
  - rewrite E. split; [lia | intros _; left; reflexivity].
  - destruct (allowed_to_send_bound bodega_principal s origen sku S)
      as (_ & Hle & Hret); [lia|].
    split; [lia | intros Hb; right; apply Hret, Hb].
Qed.

Lemma allowed_to_send_keeps_minimum_witness :
  let s := Engine.init (Some Scenario.BODEGA) Scenario.ranking_stock in
  Engine.allowed_to_send (Some Scenario.BODEGA) s Scenario.UNICENTRO
    Scenario.SKU18 = 13%Z
  /\ get_stock s Scenario.UNICENTRO Scenario.SKU18 = 20%Z
  /\ (0 <= Engine.allowed_to_send (Some Scenario.BODEGA) s Scenario.UNICENTRO
             Scenario.SKU18
      <= get_stock s Scenario.UNICENTRO Scenario.SKU18)%Z
  /\ (Engine.is_bodega (Some Scenario.BODEGA) Scenario.UNICENTRO = false ->
      Engine.allowed_to_send (Some Scenario.BODEGA) s Scenario.UNICENTRO
        Scenario.SKU18 = 0%Z
      \/ (Engine.allowed_to_send (Some Scenario.BODEGA) s Scenario.UNICENTRO
            Scenario.SKU18 + 2
          <= get_stock s Scenario.UNICENTRO Scenario.SKU18)%Z).
Proof.
  intros s. split; [vm_compute; reflexivity|]. split; [vm_compute; reflexivity|].
  apply (allowed_to_send_keeps_minimum (Some Scenario.BODEGA) s
           Scenario.UNICENTRO Scenario.SKU18).
  apply engine_init_sound. rows_nonneg.
Defined.

(** X6. Whatever the input, every transfer phase 1 records carries a
    positive quantity, has an origin other than its destination, never has
    the warehouse as destination, and serves a row of the table of needs:
    its destination, reference and size are those of a row that
    [identify_base_needs] listed. *)
Theorem fase1_transfers_shape
    adu_df tiempos_df bodega_principal no_seed allow_seed_if_adu stock :
  Forall (fun t =>
            fase1_shape bodega_principal t
            /\ exists n,
                 In n (Engine.identify_base_needs bodega_principal
                         (Engine.init bodega_principal stock))
                 /\ tr_destino t = n_Tienda n
                 /\ tr_referencia t = n_Referencia n
                 /\ tr_talla t = n_Talla n)
         (transfers (Engine.run_fase1 adu_df tiempos_df bodega_principal
                       no_seed allow_seed_if_adu stock)).
Proof.
  apply Forall_forall. intros t Ht. split.
  - pose proof (run_fase1_shape adu_df tiempos_df bodega_principal no_seed
                  allow_seed_if_adu stock) as F.
    rewrite Forall_forall in F. apply F, Ht.
  - unfold Engine.run_fase1 in Ht.
    destruct (engine_process_base_needs_made adu_df tiempos_df bodega_principal
                no_seed allow_seed_if_adu
                (Engine.identify_base_needs bodega_principal
                   (Engine.init bodega_principal stock))
                (Engine.init bodega_principal stock)) as (new & En & Fn).
    rewrite En in Ht. simpl in Ht.
    rewrite Forall_forall in Fn. apply Fn, Ht.
Qed.

(** X7. On a table of whole quantities with one row per (store, item),
    every transfer of phase 1 records stocks after that are the stocks
    before less or plus its quantity, leaves the destination with at most
    [MAX_STOCK_PER_SKU] units and the origin with no negative stock, and
    leaves an origin other than the warehouse with at least
    [MIN_POR_SKU_TIENDA] units; and the resulting table is again one of
    whole quantities with one row per (store, item). *)
Theorem fase1_transfers_numbers
    adu_df tiempos_df bodega_principal no_seed allow_seed_if_adu stock :
  exact_table stock ->
  let s' := Engine.run_fase1 adu_df tiempos_df bodega_principal
              no_seed allow_seed_if_adu stock in
  exact_table (stock_df s')
  /\ Forall (fun t =>
               snapshots_ok t
               /\ (tr_destino_despues t <= Settings.MAX_STOCK_PER_SKU)%Z
               /\ (0 <= tr_origen_despues t)%Z
               /\ (Engine.is_bodega bodega_principal (tr_origen t) = false ->
                   (Settings.MIN_POR_SKU_TIENDA <= tr_origen_despues t)%Z))
            (transfers s').
Proof.
  intros E. cbv zeta.
  destruct (run_fase1_sound adu_df tiempos_df bodega_principal no_seed
              allow_seed_if_adu stock (proj1 (exact_table_keys stock E)))
    as [_ F].
  split; [apply run_fase1_exact, E|].
  eapply Forall_impl; [|exact F].
  intros t (_ & _ & _ & H4 & H5 & H6 & H7). auto.
Qed.

Lemma fase1_transfers_numbers_witness :
  let s' := Engine.run_fase1 [] Scenario.ranking_tiempos (Some Scenario.BODEGA)
              true false Scenario.ranking_stock in
  List.length (transfers s') = 1%nat
  /\ exact_table (stock_df s')
  /\ Forall (fun t =>
               snapshots_ok t
               /\ (tr_destino_despues t <= Settings.MAX_STOCK_PER_SKU)%Z
               /\ (0 <= tr_origen_despues t)%Z
               /\ (Engine.is_bodega (Some Scenario.BODEGA) (tr_origen t) = false ->
                   (Settings.MIN_POR_SKU_TIENDA <= tr_origen_despues t)%Z))
            (transfers s').
Proof.
  intros s'. split; [vm_compute; reflexivity|].
  apply (fase1_transfers_numbers [] Scenario.ranking_tiempos
           (Some Scenario.BODEGA) true false Scenario.ranking_stock).
  exact_rows.
Defined.

(** X8. With one row per (store, item) and no negative quantity in the
    input, phase 1 keeps one row per (store, item) and leaves no row
    negative. *)
Theorem fase1_rows_stay_nonnegative
    adu_df tiempos_df bodega_principal no_seed allow_seed_if_adu stock :
  NoDup (map row_key stock) ->
  Forall (fun r => 0 <= Existencia r) stock ->
  let s' := Engine.run_fase1 adu_df tiempos_df bodega_principal
              no_seed allow_seed_if_adu stock in
  NoDup (map row_key (stock_df s'))
  /\ Forall (fun r => 0 <= Existencia r) (stock_df s').
Proof.
  intros Hnd Hok. cbv zeta. unfold Engine.run_fase1.
  destruct (engine_process_base_needs_healthy adu_df tiempos_df bodega_principal
              no_seed allow_seed_if_adu
              (Engine.identify_base_needs bodega_principal
                 (Engine.init bodega_principal stock))
              _ (engine_init_healthy bodega_principal stock Hnd Hok))
    as (_ & ND & H).
  split; [exact ND|].
  eapply Forall_impl; [|exact H]. intros r [Hr _]. exact Hr.
Qed.

Lemma fase1_rows_stay_nonnegative_witness :
  let s' := Engine.run_fase1 [] Scenario.ranking_tiempos
              (Some Scenario.BODEGA) true false Scenario.ranking_stock in
  NoDup (map row_key (stock_df s'))
  /\ Forall (fun r => 0 <= Existencia r) (stock_df s').
Proof.
  apply (fase1_rows_stay_nonnegative [] Scenario.ranking_tiempos
           (Some Scenario.BODEGA) true false Scenario.ranking_stock).
  - repeat (constructor; [vm_compute; intuition discriminate|]). constructor.
  - repeat (constructor; [vm_compute; discriminate|]). constructor.
Defined.

(** ** Phase 2 *)

(** X9. Whatever the input, every transfer the curve completer records
    goes from the warehouse to another store, carries a positive quantity,
    and is for a size of one of the two curves whose item sells at least
    [ADU_MIN_THRESHOLD] a day in the destination. *)
Theorem fase2_transfers_shape adu_df bodega_principal stock :
  Forall (fase2_shape adu_df bodega_principal)
         (snd (Curve.run_fase2 adu_df bodega_principal stock)).
Proof. apply run_fase2_shape. Qed.

(** X10. On a table of whole quantities with one row per (store, item),
    every transfer of phase 2 records stocks after that are the stocks
    before less or plus its quantity, fills the destination to at most
    [MIN_POR_SKU_TIENDA] units and never overdraws the warehouse; and the
    resulting table is again one of whole quantities with one row per
    (store, item). *)
Theorem fase2_transfers_numbers adu_df bodega_principal stock :
  exact_table stock ->
  let res := Curve.run_fase2 adu_df bodega_principal stock in
  exact_table (fst res)
  /\ Forall (fun t =>
               snapshots_ok t
               /\ (tr_destino_despues t <= Settings.MIN_POR_SKU_TIENDA)%Z
               /\ (0 <= tr_origen_despues t)%Z)
            (snd res).
Proof.
  intros E. cbv zeta.
  destruct (run_fase2_sound adu_df bodega_principal stock
              (proj1 (exact_table_keys stock E))) as [_ F].
  split; [apply run_fase2_exact, E|].
  eapply Forall_impl; [|exact F].
  intros t (_ & _ & _ & H4 & H5 & H6 & _). auto.
Qed.

Lemma fase2_transfers_numbers_witness :
  let res := Curve.run_fase2 Scenario.drain_adu Scenario.BODEGA
               Scenario.drain_stock in
  List.length (snd res) = 1%nat
  /\ exact_table (fst res)
  /\ Forall (fun t =>
               snapshots_ok t
               /\ (tr_destino_despues t <= Settings.MIN_POR_SKU_TIENDA)%Z
               /\ (0 <= tr_origen_despues t)%Z)
            (snd res).
Proof.
  intros res. split; [vm_compute; reflexivity|].
  apply (fase2_transfers_numbers Scenario.drain_adu Scenario.BODEGA
           Scenario.drain_stock).
  exact_rows.
Defined.

(** X11. Phase 2 never seeds: every transfer the curve completer records
    is for a reference of which the destination already held, in the input
    table, a row with a positive quantity. *)
Theorem fase2_only_held_references adu_df bodega_principal stock :
  Forall (fun t => holds_ref stock (tr_destino t) (tr_referencia t))
         (snd (Curve.run_fase2 adu_df bodega_principal stock)).
Proof.
  unfold Curve.run_fase2, Curve.complete_curves.
  destruct (Curve.get_bodega_total bodega_principal (Curve.init stock) <=? 0)%Z;
    cbn [snd]; [constructor|].
  destruct (curve_stores_held adu_df bodega_principal stock
              (Curve.prioritize_stores adu_df bodega_principal (Curve.init stock))
              (Curve.init stock)) as (new & En & Fn).
  - apply build_indexes_represents.
  - apply prioritize_stores_NoDup.
  - intros t Ht. apply prioritize_stores_In in Ht.
    split; [apply Ht | reflexivity].
  - rewrite En. exact Fn.
Qed.

(** X12. [prioritize_stores] lists every store of the table except the
    warehouse, each exactly once. *)
Theorem prioritize_stores_lists_each_store_once adu_df bodega_principal s :
  NoDup (Curve.prioritize_stores adu_df bodega_principal s)
  /\ forall t, In t (Curve.prioritize_stores adu_df bodega_principal s)
               <-> t <> bodega_principal /\ In t (map Tienda (stock_df s)).
Proof.
  unfold Curve.prioritize_stores. split.
  - eapply Permutation_NoDup;
      [apply Permutation_sym, Permutation_sort
      | apply NoDup_filter, NoDup_unique].
  - intros t. rewrite In_sort, filter_In, In_unique, negb_true_iff.
    rewrite String.eqb_neq. tauto.
Qed.

(** ** Phase 3 *)

(** X13. Whatever the input and the seeding flags, every transfer the
    drainer records goes from the warehouse to another store, carries a
    positive quantity, has a reference of exactly 7 characters, is for an
    item whose velocity in the destination is positive, and is for an item
    of which the input table has a warehouse row: reference and size
    together are the code of that row. *)
Theorem fase3_transfers_shape
    adu_df bodega_principal no_seed allow_seed_if_adu stock safety_ratio :
  Forall (fun t =>
            fase3_shape adu_df bodega_principal t
            /\ exists talla r,
                 tr_talla t = Some talla
                 /\ In r stock /\ Tienda r = bodega_principal
                 /\ SKU r = (tr_referencia t ++ talla)%string)
         (snd (Drainer.run_fase3 adu_df bodega_principal no_seed
                 allow_seed_if_adu stock safety_ratio)).
Proof.
  apply Forall_forall. intros t Ht. split.
  - pose proof (run_fase3_shape adu_df bodega_principal no_seed
                  allow_seed_if_adu stock safety_ratio) as F.
    rewrite Forall_forall in F. apply F, Ht.
  - unfold Drainer.run_fase3, Drainer.drain in Ht.
    destruct (Drainer.get_bodega_total bodega_principal (Drainer.init stock)
              <=? 0)%Z; cbn [snd] in Ht; [destruct Ht|].
    destruct (drain_skus_item adu_df bodega_principal no_seed allow_seed_if_adu
                (Drainer.calculate_drain_limit bodega_principal
                   (Drainer.init stock) safety_ratio)
                (Drainer.get_skus_to_drain adu_df bodega_principal
                   (Drainer.init stock))
                (Drainer.init stock) 0%Z) as (new & En & Fn).
    rewrite En in Ht. simpl in Ht.
    rewrite Forall_forall in Fn. destruct (Fn t Ht) as (talla & Etalla & Hin).
    destruct (get_skus_to_drain_spec adu_df bodega_principal (Drainer.init stock))
      as (_ & _ & Hiff).
    apply Hiff in Hin. destruct Hin as (r & Hr & Hb & Hs).
    exists talla, r. repeat split; assumption.
Qed.

(** X14. On a table of whole quantities with one row per (store, item),
    every transfer of phase 3 records stocks after that are the stocks
    before less or plus its quantity, leaves the destination with at most
    [MAX_STOCK_PER_SKU] units and never overdraws the warehouse; and the
    resulting table is again one of whole quantities with one row per
    (store, item).  This holds for the limit computed on the exact ratio
    and for the limit computed in binary64 alike. *)
Theorem fase3_transfers_numbers
    adu_df bodega_principal no_seed allow_seed_if_adu stock
    (safety_ratio : Q) (safety_float : B64.float) :
  exact_table stock ->
  let res := Drainer.run_fase3 adu_df bodega_principal no_seed
               allow_seed_if_adu stock safety_ratio in
  let res_float := Drainer.drain_float adu_df bodega_principal no_seed
                     allow_seed_if_adu (Drainer.init stock) safety_float in
  (exact_table (fst res)
   /\ Forall (fun t =>
                snapshots_ok t
                /\ (tr_destino_despues t <= Settings.MAX_STOCK_PER_SKU)%Z
                /\ (0 <= tr_origen_despues t)%Z)
             (snd res))
  /\ (exact_table (fst res_float)
      /\ Forall (fun t =>
                   snapshots_ok t
                   /\ (tr_destino_despues t <= Settings.MAX_STOCK_PER_SKU)%Z
                   /\ (0 <= tr_origen_despues t)%Z)
                (snd res_float)).
Proof.
  intros E. cbv zeta.
  destruct (run_fase3_sound adu_df bodega_principal no_seed allow_seed_if_adu
              stock safety_ratio (proj1 (exact_table_keys stock E))) as [_ F].
  destruct (drain_float_sound adu_df bodega_principal no_seed allow_seed_if_adu
              stock safety_float (proj1 (exact_table_keys stock E))) as [_ F'].
  split; (split; [|eapply Forall_impl; [|eassumption];
                   intros t (_ & _ & _ & H4 & H5 & H6 & _); auto]).
  - apply run_fase3_exact, E.
  - apply drain_float_exact, E.
Qed.

Lemma fase3_transfers_numbers_witness :
  let res := Drainer.run_fase3 Scenario.drain_adu Scenario.BODEGA true false
               Scenario.drain_stock 0.2 in
  List.length (snd res) = 2%nat
  /\ exact_table (fst res)
  /\ Forall (fun t =>
               snapshots_ok t
               /\ (tr_destino_despues t <= Settings.MAX_STOCK_PER_SKU)%Z
               /\ (0 <= tr_origen_despues t)%Z)
            (snd res).
Proof.
  intros res. split; [vm_compute; reflexivity|].
  apply (fase3_transfers_numbers Scenario.drain_adu Scenario.BODEGA true false
           Scenario.drain_stock 0.2 (B64.of_Q 0.2)).
  exact_rows.
Defined.


(** X16. [get_skus_to_drain] lists every item of which the warehouse has a
    row, each exactly once, with the quantity the warehouse holds of it
    truncated to an integer and with the velocity of the item summed over
    the stores, and lists the items by descending summed velocity. *)
Theorem get_skus_to_drain_lists_each_item_once adu_df bodega_principal s :
  let skus := Drainer.get_skus_to_drain adu_df bodega_principal s in
  NoDup (map (fun e => fst (fst e)) skus)
  /\ (forall sku disponible a, In (sku, disponible, a) skus ->
        disponible = Py.int (key_total (bodega_principal, sku) (stock_df s))
        /\ a = Drainer.sku_adu_total adu_df sku)
  /\ (forall sku, In sku (map (fun e => fst (fst e)) skus) <->
        exists r, In r (stock_df s) /\ Tienda r = bodega_principal /\ SKU r = sku)
  /\ StronglySorted (fun x y : string * Z * Q => snd y <= snd x) skus.
Proof.
  cbv zeta.
  destruct (get_skus_to_drain_spec adu_df bodega_principal s) as (H1 & H2 & H3).
  split; [exact H1|]. split; [exact H2|]. split; [exact H3|].
  unfold Drainer.get_skus_to_drain.
  apply (StronglySorted_map _ _
           (fun x : string * Q * Q => (fst (fst x), Py.int (snd (fst x)), snd x))
           (fun x y : string * Z * Q => snd y <= snd x)).
  cbn [snd].
  eapply StronglySorted_impl;
    [|apply (StronglySorted_sort (string * Q * Q)
               (fun x y => Py.Qltb (snd y) (snd x)))].
  - intros a b Hb. cbv beta in Hb. unfold Py.Qltb in Hb.
    apply negb_false_iff, Qle_bool_iff in Hb. exact Hb.
  - intros a b Hab. apply Qltb_true in Hab.
    unfold Py.Qltb. apply negb_false_iff, Qle_bool_iff, Qlt_le_weak, Hab.
  - intros a b c Hba Hcb. unfold Py.Qltb in *.
    apply negb_false_iff, Qle_bool_iff in Hba.
    apply negb_false_iff, Qle_bool_iff in Hcb.
    apply negb_false_iff, Qle_bool_iff. eapply Qle_trans; eassumption.
Qed.

(** X17. [get_destinations_for_sku] lists exactly the stores other than the
    warehouse whose entry of the velocity index for the item is positive,
    each with that velocity and no store twice. *)
Theorem get_destinations_lists_selling_stores adu_df bodega_principal sku :
  let destinos := Drainer.get_destinations_for_sku adu_df bodega_principal sku in
  NoDup (map fst destinos)
  /\ forall tienda adu,
       In (tienda, adu) destinos
       <-> In ((tienda, sku), adu) (build_adu_map adu_df)
           /\ tienda <> bodega_principal /\ 0 < adu.
Proof.
  cbv zeta. unfold Drainer.get_destinations_for_sku, Drainer.adu_map.
  set (pick := fun e : Key * Q =>
                 let '((tienda, sku_check), adu) := e in
                 if negb (String.eqb sku_check sku) then []
                 else if String.eqb tienda bodega_principal then []
                 else if Qle_bool adu 0 then []
                 else [(tienda, adu)]).
  assert (Hpick : forall m tienda adu,
            In (tienda, adu) (flat_map pick m)
            <-> In ((tienda, sku), adu) m
                /\ tienda <> bodega_principal /\ 0 < adu).
  { intros m tienda adu. rewrite in_flat_map. split.
    - intros ([[t k] a] & Hin & H). unfold pick in H.
      destruct (String.eqb k sku) eqn:Ek; simpl in H; [|contradiction].
      destruct (String.eqb t bodega_principal) eqn:Et; [contradiction|].
      destruct (Qle_bool a 0) eqn:Ea; [contradiction|].
      destruct H as [H|[]]. injection H as -> ->.
      apply String.eqb_eq in Ek. subst k.
      split; [exact Hin|]. split; [apply String.eqb_neq, Et|].
      apply Qle_bool_false, Ea.
    - intros (Hin & Hne & Hpos). exists ((tienda, sku), adu).
      split; [exact Hin|]. unfold pick.
      rewrite String.eqb_refl. simpl.
      apply String.eqb_neq in Hne. rewrite Hne.
      apply Qle_bool_false in Hpos. rewrite Hpos. left. reflexivity. }
  split.
  - eapply Permutation_NoDup;
      [apply Permutation_map, Permutation_sym, Permutation_sort|].
    pose proof (NoDup_build_adu_map adu_df) as ND.
    induction (build_adu_map adu_df) as [|[[t k] a] m IH];
      [simpl; constructor|].
    cbn [flat_map]. inversion ND as [|? ? Hnot ND']; subst.
    rewrite map_app. specialize (IH ND').
    assert (Hhead : forall a', In (t, a') (flat_map pick m) -> k = sku -> False).
    { intros a' Hin Ek. subst k. apply Hpick in Hin. destruct Hin as [Hin _].
      apply Hnot. apply (in_map fst) in Hin. exact Hin. }
    destruct (String.eqb k sku) eqn:Ek; simpl; [|exact IH].
    destruct (String.eqb t bodega_principal); [exact IH|].
    destruct (Qle_bool a 0); [exact IH|]. simpl.
    constructor; [|exact IH].
    intros Hin. apply in_map_iff in Hin. destruct Hin as ([t' a'] & Et' & Hin).
    simpl in Et'. subst t'. apply (Hhead a' Hin). apply String.eqb_eq, Ek.
  - intros tienda adu. rewrite In_sort. apply Hpick.
Qed.

(** ** Store names and item codes *)

(** X18. [get_store_category] only ever answers A, B or C, so the rank of a
    store in the sort keys of phases 2 and 3 is 0, 1 or 2: the rank 3 kept
    for an unknown category is never used. *)
Theorem store_category_rank_is_at_most_2 (store_name : string) :
  (0 <= Settings.cat_rank (Settings.get_store_category store_name) <= 2)%Z.
Proof.
  destruct (get_store_category_ABC store_name) as [-> | [-> | ->]];
    vm_compute; split; discriminate.
Qed.

(** X19. [normalize_store_name] is idempotent, and [get_store_category]
    gives a name and its normal form the same category. *)
Theorem store_category_ignores_padding_and_case (x : string) :
  Normalization.normalize_store_name (Normalization.normalize_store_name x)
  = Normalization.normalize_store_name x
  /\ Settings.get_store_category (Normalization.normalize_store_name x)
     = Settings.get_store_category x.
Proof.
  unfold Normalization.normalize_store_name, Settings.get_store_category.
  rewrite normalize_idem. split; reflexivity.
Qed.

(** X20. For a reference of 7 characters, cutting the item code that
    [build_sku] makes at position 7, as the drainer does, gives the
    reference and the size back. *)
Theorem build_sku_split_round_trip (referencia : string) (talla : option string) :
  String.length referencia = 7%nat ->
  let sku := Normalization.build_sku (Some referencia) talla in
  substring 0 7 sku = referencia
  /\ substring 7 (String.length sku - 7) sku
     = match talla with Some t => t | None => EmptyString end.
Proof.
  intros H. cbv zeta. unfold Normalization.build_sku.
  rewrite <- H. split; [apply substring_app_l | apply substring_app_r].
Qed.

Lemma build_sku_split_round_trip_witness :
  String.length Scenario.REF = 7%nat
  /\ Normalization.build_sku (Some Scenario.REF) (Some "18M"%string)
     = Scenario.SKU18
  /\ substring 0 7 Scenario.SKU18 = Scenario.REF
  /\ substring 7 (String.length Scenario.SKU18 - 7) Scenario.SKU18
     = "18M"%string.
Proof.
  split; [reflexivity|]. split; [reflexivity|].
  apply (build_sku_split_round_trip Scenario.REF (Some "18M"%string)).
  reflexivity.
Defined.

(** ** The orchestrator *)

(** X21. When no (store, item) occurs twice in the velocity table,
    [enrich_stock_with_adu] keeps the rows of the stock table one for one
    and in order, and gives each the velocity of its (store, item), or 0
    where the table has none; the total and the quantity of every key are
    unchanged. *)
Theorem enrich_with_unique_keys_is_row_by_row df_stock adu_df :
  NoDup (map (fun a => (adu_Tienda a, adu_SKU a)) adu_df) ->
  enrich_stock_with_adu df_stock adu_df
  = map (fun r => with_ADU r
                    (Some (match find (adu_matches r) adu_df with
                           | Some a => adu_ADU a
                           | None => 0
                           end)))
        df_stock
  /\ total (enrich_stock_with_adu df_stock adu_df) = total df_stock
  /\ forall k, key_total k (enrich_stock_with_adu df_stock adu_df)
               = key_total k df_stock.
Proof.
  intros ND. rewrite (enrich_unique_keys df_stock adu_df ND).
  split; [reflexivity|]. split.
  - apply total_map_with_ADU.
  - intros k. apply key_total_map_with_ADU.
Qed.

Lemma enrich_with_unique_keys_is_row_by_row_witness :
  enrich_stock_with_adu Scenario.drain_stock Scenario.drain_adu
  = map (fun r => with_ADU r
                    (Some (match find (adu_matches r) Scenario.drain_adu with
                           | Some a => adu_ADU a
                           | None => 0
                           end)))
        Scenario.drain_stock
  /\ total (enrich_stock_with_adu Scenario.drain_stock Scenario.drain_adu)
     = total Scenario.drain_stock
  /\ forall k, key_total k (enrich_stock_with_adu Scenario.drain_stock
                              Scenario.drain_adu)
               = key_total k Scenario.drain_stock.
Proof.
  apply (enrich_with_unique_keys_is_row_by_row Scenario.drain_stock
           Scenario.drain_adu).
  repeat (constructor; [vm_compute; intuition discriminate|]). constructor.
Defined.

(** X22. [_detect_bodega_principal] answers [None] exactly when no store
    name of the table contains BODEGA, CEDI or PRINCIPAL; otherwise it
    answers a store of the table whose name does, and no store with such a
    name holds more stock in total. *)
Theorem detect_bodega_principal_picks_largest df_stock :
  match Orchestrator._detect_bodega_principal df_stock with
  | None => forall r, In r df_stock -> Orchestrator.name_matches (Tienda r) = false
  | Some b =>
      Orchestrator.name_matches b = true
      /\ In b (map Tienda df_stock)
      /\ forall t, In t (map Tienda df_stock) ->
           Orchestrator.name_matches t = true ->
           total (filter (fun r => String.eqb (Tienda r) t) df_stock)
           <= total (filter (fun r => String.eqb (Tienda r) b) df_stock)
  end.
Proof.
  unfold Orchestrator._detect_bodega_principal.
  set (candidatos := filter (fun r => Orchestrator.name_matches (Tienda r)) df_stock).
  assert (Hc : forall t, In t (map Tienda candidatos)
                         <-> In t (map Tienda df_stock)
                             /\ Orchestrator.name_matches t = true).
  { intros t. subst candidatos. rewrite !in_map_iff. split.
    - intros (r & <- & Hr). apply filter_In in Hr. destruct Hr as [Hr Hm].
      split; [exists r; split; [reflexivity | exact Hr] | exact Hm].
    - intros [(r & <- & Hr) Hm]. exists r. split; [reflexivity|].
      apply filter_In. split; assumption. }
  destruct candidatos as [|c cs] eqn:Ec.
  - intros r Hr. destruct (Orchestrator.name_matches (Tienda r)) eqn:E;
      [|reflexivity].
    exfalso. destruct (proj2 (Hc (Tienda r))) as [].
    split; [apply in_map, Hr | exact E].
  - assert (Hne : In (Tienda c) (map Tienda (c :: cs))) by (left; reflexivity).
    rewrite <- Ec in *. clear Ec.
    pose proof (idxmax_spec (Orchestrator.stock_por_tienda candidatos)) as H.
    destruct (Orchestrator.idxmax (Orchestrator.stock_por_tienda candidatos))
      as [b|].
    + destruct H as (q & Hin & Hmax).
      unfold Orchestrator.stock_por_tienda in Hin, Hmax.
      apply in_map_iff in Hin. destruct Hin as (b' & [= -> <-] & Hb).
      apply In_sort, In_unique, Hc in Hb. destruct Hb as [Hb Hm].
      split; [exact Hm|]. split; [exact Hb|].
      intros t Ht Htm.
      subst candidatos.
      rewrite <- (filter_filter_tienda Orchestrator.name_matches t df_stock Htm).
      rewrite <- (filter_filter_tienda Orchestrator.name_matches b df_stock Hm).
      apply (Hmax t). apply in_map_iff. exists t. split; [reflexivity|].
      apply In_sort, In_unique, Hc. split; assumption.
    + exfalso. unfold Orchestrator.stock_por_tienda in H.
      apply map_eq_nil in H.
      apply In_unique, (In_sort _ Py.str_ltb) in Hne.
      rewrite H in Hne. exact Hne.
Qed.

(** X23. [run_all] conserves the stock: on a table of whole quantities
    with one row per (store, item), whatever the configuration and the
    phases enabled, the final table holds in total what the input table
    held, and holds whole quantities. *)
Theorem run_all_conserves_total
    adu_df tiempos_df no_seed allow_seed_if_adu bodega_principal
    df_stock enable_curvas enable_drenaje safety_ratio :
  exact_table df_stock ->
  let res := Orchestrator.run_all adu_df tiempos_df no_seed allow_seed_if_adu
               bodega_principal df_stock enable_curvas enable_drenaje
               safety_ratio in
  total (snd res) == total df_stock /\ whole_table (snd res).
Proof.
  intros E. cbv zeta. split; [apply run_all_total|].
  apply (run_all_exact adu_df tiempos_df no_seed allow_seed_if_adu
           bodega_principal df_stock enable_curvas enable_drenaje
           safety_ratio E).
Qed.

Lemma run_all_conserves_total_witness :
  let res := Orchestrator.run_all Scenario.drain_adu [] true false
               (Some Scenario.BODEGA) Scenario.drain_stock true true 0.2 in
  total Scenario.drain_stock == 103
  /\ total (snd res) == total Scenario.drain_stock
  /\ whole_table (snd res).
Proof.
  intros res. split; [vm_compute; reflexivity|].
  apply (run_all_conserves_total Scenario.drain_adu [] true false
           (Some Scenario.BODEGA) Scenario.drain_stock true true 0.2).
  exact_rows.
Defined.

(** X24. On a table of whole quantities with one row per (store, item),
    the table [run_all] returns is again such a table, and every transfer
    it returns, of whatever phase, carries a positive quantity between two
    different stores, never goes to the warehouse, records stocks after
    that are the stocks before less or plus the quantity, leaves the
    destination with at most [MAX_STOCK_PER_SKU] units and leaves the
    origin with no negative stock. *)
Theorem run_all_transfers_audit
    adu_df tiempos_df no_seed allow_seed_if_adu bodega_principal
    df_stock enable_curvas enable_drenaje safety_ratio :
  exact_table df_stock ->
  let res := Orchestrator.run_all adu_df tiempos_df no_seed allow_seed_if_adu
               bodega_principal df_stock enable_curvas enable_drenaje
               safety_ratio in
  exact_table (snd res)
  /\ Forall (fun ft => traslado_ok bodega_principal (snd ft)) (fst res).
Proof.
  intros E. cbv zeta.
  destruct (run_all_sound adu_df tiempos_df no_seed allow_seed_if_adu
              bodega_principal df_stock enable_curvas enable_drenaje
              safety_ratio (proj1 (exact_table_keys df_stock E))) as [_ F].
  split; [apply run_all_exact, E|].
  eapply Forall_impl; [|exact F].
  intros ft. apply fase_ok_traslado.
Qed.

Lemma run_all_transfers_audit_witness :
  let res := Orchestrator.run_all Scenario.drain_adu [] true false
               (Some Scenario.BODEGA) Scenario.drain_stock true true 0.2 in
  map fst (fst res)
  = [Orchestrator.Fase_1_Base; Orchestrator.Fase_3_Drenaje;
     Orchestrator.Fase_3_Drenaje]
  /\ exact_table (snd res)
  /\ Forall (fun ft => traslado_ok (Some Scenario.BODEGA) (snd ft)) (fst res).
Proof.
  intros res. split; [vm_compute; reflexivity|].
  apply (run_all_transfers_audit Scenario.drain_adu [] true false
           (Some Scenario.BODEGA) Scenario.drain_stock true true 0.2).
  exact_rows.
Defined.

(** X25. In the table of transfers [run_all] returns, a transfer tagged
    with phase 2 or 3 exists only if that phase was enabled and a warehouse
    is designated, and it goes from that warehouse to another store;
    whatever the input, every transfer has the shape of its phase. *)
Theorem run_all_phase_tags
    adu_df tiempos_df no_seed allow_seed_if_adu bodega_principal
    df_stock enable_curvas enable_drenaje safety_ratio :
  Forall (fase_shape adu_df bodega_principal enable_curvas enable_drenaje)
         (fst (Orchestrator.run_all adu_df tiempos_df no_seed allow_seed_if_adu
                 bodega_principal df_stock enable_curvas enable_drenaje
                 safety_ratio)).
Proof.
  rewrite run_all_unfold. cbn [fst].
  apply Forall_app. split; [|apply Forall_app; split]; apply Forall_map_pair.
  - apply run_fase1_shape.
  - destruct (enable_curvas && Py.truthy bodega_principal) eqn:E;
      [|constructor].
    apply andb_prop in E. destruct E as [-> T].
    unfold Orchestrator.run_fase2_completar_curvas.
    destruct bodega_principal as [b|] eqn:Eb; [|discriminate].
    rewrite T. cbn [negb].
    eapply Forall_impl; [|apply run_fase2_shape].
    intros t H. split; [reflexivity|]. exists b. split; [|exact H].
    unfold bodega_designada. rewrite T. reflexivity.
  - destruct (enable_drenaje && Py.truthy bodega_principal) eqn:E;
      [|constructor].
    apply andb_prop in E. destruct E as [-> T].
    unfold Orchestrator.run_fase3_drenar_bodega.
    destruct bodega_principal as [b|] eqn:Eb; [|discriminate].
    rewrite T. cbn [negb].
    eapply Forall_impl; [|apply run_fase3_shape].
    intros t H. split; [reflexivity|]. exists b. split; [|exact H].
    unfold bodega_designada. rewrite T. reflexivity.
Qed.

(** X26. From the raw stock table to the result: when no (store, item)
    occurs twice in the velocity table and the stock table holds whole
    quantities with one row per (store, item), enriching the table,
    choosing the warehouse (the given one, or the detected one) and running
    the phases conserves the total stock, returns again a table of whole
    quantities with one row per (store, item), and returns only transfers
    that carry a positive quantity between two different stores, never go
    to the warehouse in use, record stocks after that agree with the stocks
    before and the quantity, and keep the destination within
    [MAX_STOCK_PER_SKU] and the origin from going negative. *)
Theorem orchestrator_end_to_end
    adu_df tiempos_df no_seed allow_seed_if_adu bodega_principal
    df_stock enable_curvas enable_drenaje safety_ratio :
  NoDup (map (fun a => (adu_Tienda a, adu_SKU a)) adu_df) ->
  exact_table df_stock ->
  let ini := Orchestrator.init adu_df df_stock bodega_principal in
  let res := Orchestrator.run_all adu_df tiempos_df no_seed allow_seed_if_adu
               (snd ini) (fst ini) enable_curvas enable_drenaje safety_ratio in
  total (snd res) == total df_stock
  /\ exact_table (snd res)
  /\ Forall (fun ft => traslado_ok (snd ini) (snd ft)) (fst res).
Proof.
  intros ND E. cbv zeta. unfold Orchestrator.init. cbn [fst snd].
  pose proof (exact_table_enrich df_stock adu_df ND E) as E1.
  destruct (keys_nonneg_enrich df_stock adu_df ND
              (proj1 (exact_table_keys df_stock E))) as [K1 T1].
  set (b := if negb (Py.truthy bodega_principal)
            then Orchestrator._detect_bodega_principal
                   (enrich_stock_with_adu df_stock adu_df)
            else bodega_principal).
  split; [|split].
  - rewrite run_all_total, T1. reflexivity.
  - apply run_all_exact, E1.
  - destruct (run_all_sound adu_df tiempos_df no_seed allow_seed_if_adu b
                (enrich_stock_with_adu df_stock adu_df) enable_curvas
                enable_drenaje safety_ratio K1) as [_ F].
    eapply Forall_impl; [|exact F].
    intros ft. apply fase_ok_traslado.
Qed.

Lemma orchestrator_end_to_end_witness :
  let ini := Orchestrator.init Scenario.drain_adu Scenario.drain_stock None in
  let res := Orchestrator.run_all Scenario.drain_adu [] true false
               (snd ini) (fst ini) true true 0.2 in
  snd ini = Some Scenario.BODEGA
  /\ List.length (fst res) = 3%nat
  /\ total (snd res) == total Scenario.drain_stock
  /\ exact_table (snd res)
  /\ Forall (fun ft => traslado_ok (snd ini) (snd ft)) (fst res).
Proof.
  intros ini res. split; [vm_compute; reflexivity|].
  split; [vm_compute; reflexivity|].
  apply (orchestrator_end_to_end Scenario.drain_adu [] true false None
           Scenario.drain_stock true true 0.2).
  - repeat (constructor; [vm_compute; intuition discriminate|]). constructor.
  - exact_rows.
Defined.
